(** * ProfitLens: the derived-metrics engine of [useSupabaseData]

    A shallow embedding of the metric computations and stock mutations of
    [src/services/databaseService.ts] (the [DatabaseService] class and the
    [useSupabaseData] hook with its helper [calculateProfitLoss]).

    Conventions of the embedding.
    - A JavaScript [number] holding a money amount, a quantity or a
      percentage is an exact rational [Q]; equality of computed numbers is
      [Qeq] ([==]).  Rounding of binary floating point is not modelled.
    - A calendar date string ['YYYY-MM-DD'] is the number of that day since
      the epoch ([Day]); [new Date(s).getTime()] of such a string is UTC
      midnight, [day * msPerDay].  An instant is a number of milliseconds
      since the epoch ([Instant]).  [d.toISOString().split('T')[0]] is the
      UTC day of the instant.
    - [d.setDate(d.getDate() - n)] moves [d] back by [n] days of the local
      calendar, keeping the local time of day ([setDateBack], for a
      [Zone]).  In the two charts, where the UTC day of the result is a
      label, the zone is a parameter.  In the other computations the
      result is only a cutoff that record dates are compared with, and is
      taken as [minusDays], [n * msPerDay] earlier, which [setDateBack]
      is in a zone without clock changes ([setDateBack_steady]).
    - [new Date()] is the parameter [now] of the computation that reads it.
    - A JavaScript [Map] is an insertion-ordered association list
      ([JsMap]), and so is an object used as a dictionary, for keys that
      are not written as a number (which an object puts first) and that
      are no name inherited from [Object.prototype] (a read of which finds
      the inherited member): [Js.plainKey].  Dates and generated ids are
      such keys; where a key is free text, the embedding says so.
    - The store is the record of its tables ([Snapshot]); the hook holds a
      copy of them, refreshed by [loadAllData].  An [async] function is a
      function of the world (store, hook, failures to come) that returns
      or throws ([Async]); a request to the store fails when the world
      says so, and an update of a row that does not exist fails too. *)

From Stdlib Require Import QArith Qminmax Qround Lqa Lia ZArith List String Bool FinFun.
From Stdlib Require Import Permutation Sorted.
Import ListNotations.
Open Scope Q_scope.

(** ** JavaScript operators on numbers *)

Module Js.

Definition gt (a b : Q) : bool :=
  match a ?= b with Gt => true | _ => false end.
Definition lt (a b : Q) : bool :=
  match a ?= b with Lt => true | _ => false end.
Definition ge (a b : Q) : bool :=
  match a ?= b with Lt => false | _ => true end.
Definition le (a b : Q) : bool :=
  match a ?= b with Gt => false | _ => true end.

(** Truthiness of a number: [0] is falsy. *)
Definition truthy (a : Q) : bool := negb (Qeq_bool a 0).

(** [a || b] on numbers. *)
Definition or_else (a b : Q) : Q := if truthy a then a else b.

(** [x || d] where [x] may be [undefined]. *)
Definition opt_or_else (x : option Q) (d : Q) : Q :=
  match x with
  | Some a => or_else a d
  | None => d
  end.

(** [a / b], as far as it is a number: the division by [0] gives [NaN]
    or an infinity, for which the embedding has no number. *)
Definition div (a b : Q) : option Q := if truthy b then Some (a / b) else None.

(** The names that an object inherits from [Object.prototype]: on an
    object that has no such key of its own, a read of one of them gives
    the inherited member, not [undefined]. *)
Definition inheritedNames : list string :=
  ["constructor"; "__proto__"; "hasOwnProperty"; "isPrototypeOf";
   "propertyIsEnumerable"; "toLocaleString"; "toString"; "valueOf";
   "__defineGetter__"; "__defineSetter__"; "__lookupGetter__";
   "__lookupSetter__"]%string.

Definition isDigit (c : Ascii.ascii) : bool :=
  let n := Ascii.nat_of_ascii c in (48 <=? n)%nat && (n <=? 57)%nat.

Fixpoint allDigits (s : string) : bool :=
  match s with
  | EmptyString => true
  | String c rest => isDigit c && allDigits rest
  end.

(** A key for which an object behaves as an insertion-ordered map: not
    an inherited name, and not written in digits only (the integer keys
    of an object come first, in ascending order). *)
Definition plainKey (k : string) : bool :=
  negb (existsb (String.eqb k) inheritedNames)
  && negb (negb (String.eqb k EmptyString) && allDigits k).

(** [Math.round]: the nearest integer, halves going up. *)
Definition round (a : Q) : Q := inject_Z (Qfloor (a + (1 # 2))).

(** [Math.ceil]. *)
Definition ceil (a : Q) : Z := Qceiling a.

(** [Math.max]. *)
Definition max (a b : Q) : Q := Qmax a b.

End Js.

(** Sum of a list of numbers, left to right from [0], as
    [xs.reduce((s, x) => s + x, 0)] computes it. *)
Definition Qsum (xs : list Q) : Q := fold_left Qplus xs 0.

(** ** Insertion-ordered maps *)

Module JsMap.
Section WithKey.
Context {K V : Type} (eqb : K -> K -> bool).

Definition t := list (K * V).

Definition empty : t := [].

Fixpoint get (m : t) (k : K) : option V :=
  match m with
  | [] => None
  | (k', v) :: rest => if eqb k' k then Some v else get rest k
  end.

Definition has (m : t) (k : K) : bool :=
  match get m k with Some _ => true | None => false end.

(** [m.set(k, v)]: an existing key keeps its position. *)
Fixpoint set (m : t) (k : K) (v : V) : t :=
  match m with
  | [] => [(k, v)]
  | (k', v') :: rest =>
      if eqb k' k then (k', v) :: rest else (k', v') :: set rest k v
  end.

(** [new Map(entries)]. *)
Definition of_entries (es : list (K * V)) : t :=
  fold_left (fun m e => set m (fst e) (snd e)) es empty.

Definition entries (m : t) : list (K * V) := m.
Definition keys (m : t) : list K := map fst m.
Definition values (m : t) : list V := map snd m.
End WithKey.
End JsMap.

(** ** Data model ([../types]) *)

Definition Id := string.
Definition Day := Z.
Definition Instant := Z.
Bind Scope Z_scope with Day Instant.
Bind Scope string_scope with Id.

Definition msPerDay : Z := 1000 * 60 * 60 * 24.

(** [new Date(dateString)] for a calendar date. *)
Definition dateOf (d : Day) : Instant := (d * msPerDay)%Z.

(** [t.toISOString().split('T')[0]]. *)
Definition isoDay (t : Instant) : Day := (t / msPerDay)%Z.

(** [t.setDate(t.getDate() - n)] in a zone without clock changes. *)
Definition minusDays (t : Instant) (n : Z) : Instant := (t - n * msPerDay)%Z.

(** The time zone the program runs in: the offset of local time from UTC
    that is in force at an instant, and the offset by which a local time
    is read back as an instant (the offset before the change, for a local
    time that a clock change skips or repeats). *)
Module Zone.
Record t := mk {
  offsetAt : Instant -> Z;
  offsetOfLocal : Z -> Z
}.

(** A zone that is always [offset] ahead of UTC. *)
Definition fixed (offset : Z) : t := mk (fun _ => offset) (fun _ => offset).


(** No clock change: one offset at every instant and local time. *)
Definition steady (zone : t) : Prop :=
  exists offset,
    (forall t, offsetAt zone t = offset) /\ (forall l, offsetOfLocal zone l = offset).
End Zone.

(** [LocalTime(t)] and [UTC(l)] of the language. *)
Definition localTime (zone : Zone.t) (t : Instant) : Z :=
  (t + Zone.offsetAt zone t)%Z.
Definition utcOfLocal (zone : Zone.t) (l : Z) : Instant :=
  (l - Zone.offsetOfLocal zone l)%Z.

(** [t.setDate(t.getDate() - n)]: the local time [n] calendar days
    earlier at the same time of day, read back as an instant. *)
Definition setDateBack (zone : Zone.t) (t : Instant) (n : Z) : Instant :=
  utcOfLocal zone (localTime zone t - n * msPerDay)%Z.

Module Ingredient.
Record t := mk {
  id : Id;
  name : string;
  unit : string;
  price : Q;
  previousPrice : option Q;
  stockLevel : Q;
  reorderPoint : Q;
  outletId : Id
}.

(** [{ ...i, stockLevel: s }], the row after an update of that column. *)
Definition withStockLevel (i : t) (s : Q) : t :=
  mk (id i) (name i) (unit i) (price i) (previousPrice i) s
     (reorderPoint i) (outletId i).
End Ingredient.

Module RecipeComponent.
Record t := mk { ingredientId : Id; quantity : Q }.
End RecipeComponent.

(** A row of the [recipes] relation, as [getRecipes] returns it. *)
Module RecipeRow.
Record t := mk { menuItemId : Id; ingredientId : Id; quantity : Q }.
End RecipeRow.

Inductive MarginStatus := Safe | Warning | Danger.

(** [Omit<MenuItem, 'cogs' | 'actualMargin' | 'marginStatus'>]. *)
Module MenuItemData.
Record t := mk {
  id : Id;
  name : string;
  imageUrl : string;
  sellingPrice : Q;
  targetMargin : Q;
  recipe : list RecipeComponent.t
}.
End MenuItemData.

Module MenuItem.
Record t := mk {
  id : Id;
  name : string;
  imageUrl : string;
  sellingPrice : Q;
  targetMargin : Q;
  recipe : list RecipeComponent.t;
  cogs : Q;
  actualMargin : Q;
  marginStatus : MarginStatus
}.
End MenuItem.

Module SalesHistoryRecord.
Record t := mk {
  date : Day;
  menuItemId : Id;
  quantitySold : Q;
  totalRevenue : Q;
  outletId : Id
}.
End SalesHistoryRecord.

Inductive Interval := daily | monthly.

Module OperationalCost.
Record t := mk {
  id : Id;
  name : string;
  amount : Q;
  interval : Interval;
  outletId : Id
}.
End OperationalCost.

(** The [id] of a waste record is generated by the store and read by none
    of the functions below; the row is kept without it. *)
Module WasteRecord.
Record t := mk {
  date : Day;
  ingredientId : Id;
  quantity : Q;
  reason : string;
  cost : Q;
  outletId : Id
}.
End WasteRecord.

Module OrderItem.
Record t := mk { ingredientId : Id; quantityToOrder : Q }.
End OrderItem.

Module PendingOrder.
Record t := mk {
  id : Id;
  poNumber : string;
  supplierId : Id;
  orderDate : Instant;
  items : list OrderItem.t;
  totalAmount : Q;
  outletId : Id
}.
End PendingOrder.

Module InvolvedItems.
Record t := mk { item1Name : string; item2Name : string }.
End InvolvedItems.

Module ActiveCampaign.
Record t := mk {
  campaignName : string;
  marketingCopy : string;
  promoMechanic : string;
  justification : string;
  involvedItems : InvolvedItems.t;
  startDate : Instant
}.
End ActiveCampaign.

Module ProfitLossStats.
Record t := mk {
  periodDays : Z;
  totalRevenue : Q;
  totalCogs : Q;
  grossProfit : Q;
  totalOperationalCost : Q;
  totalWasteCost : Q;
  netProfit : Q;
  grossProfitMargin : Q;
  netProfitMargin : Q
}.
End ProfitLossStats.

(** ** Recipe costing: the [menuItems] memo *)

Definition ingredientsMapOf (ingredients : list Ingredient.t)
  : JsMap.t (K := Id) (V := Ingredient.t) :=
  JsMap.of_entries String.eqb (map (fun i => (Ingredient.id i, i)) ingredients).

(** The reducer of [recipe.reduce(..., 0)]. *)
Definition cogsStep (ingredientsMap : JsMap.t (K := Id) (V := Ingredient.t))
    (total : Q) (component : RecipeComponent.t) : Q :=
  let ingredient :=
    JsMap.get String.eqb ingredientsMap (RecipeComponent.ingredientId component) in
  total + match ingredient with
          | Some ingredient =>
              Ingredient.price ingredient * RecipeComponent.quantity component
          | None => 0
          end.

Definition classifyMargin (actualMargin targetMargin : Q) : MarginStatus :=
  let marginDifference := actualMargin - targetMargin in
  if Js.lt marginDifference 0 && Js.ge marginDifference (-10) then Warning
  else if Js.lt marginDifference (-10) then Danger
  else Safe.

Definition costMenuItem (ingredientsMap : JsMap.t (K := Id) (V := Ingredient.t))
    (recipes : list RecipeRow.t) (item : MenuItemData.t) : MenuItem.t :=
  let itemRecipes :=
    filter (fun r => String.eqb (RecipeRow.menuItemId r) (MenuItemData.id item))
           recipes in
  let recipe :=
    map (fun r => RecipeComponent.mk (RecipeRow.ingredientId r)
                                     (RecipeRow.quantity r)) itemRecipes in
  let cogs := fold_left (cogsStep ingredientsMap) recipe 0 in
  let sellingPrice := MenuItemData.sellingPrice item in
  let actualMargin :=
    if Js.gt sellingPrice 0
    then ((sellingPrice - cogs) / sellingPrice) * 100
    else 0 in
  let marginStatus := classifyMargin actualMargin (MenuItemData.targetMargin item) in
  MenuItem.mk (MenuItemData.id item) (MenuItemData.name item)
    (MenuItemData.imageUrl item) sellingPrice (MenuItemData.targetMargin item)
    recipe cogs actualMargin marginStatus.

Definition menuItems (ingredients : list Ingredient.t)
    (menuItemsData : list MenuItemData.t) (recipes : list RecipeRow.t)
  : list MenuItem.t :=
  let ingredientsMap := ingredientsMapOf ingredients in
  map (costMenuItem ingredientsMap recipes) menuItemsData.

(** ** Profit and loss: [calculateProfitLoss] *)

Definition onOrAfter (cutoffDate : Instant) (d : Day) : bool :=
  (cutoffDate <=? dateOf d)%Z.

(** The body of [relevantSales.forEach], on the pair
    [(totalRevenue, totalCogs)]. *)
Definition profitLossStep (menuItemsMap : JsMap.t (K := Id) (V := MenuItem.t))
    (acc : Q * Q) (sale : SalesHistoryRecord.t) : Q * Q :=
  match JsMap.get String.eqb menuItemsMap (SalesHistoryRecord.menuItemId sale) with
  | Some menuItem =>
      (fst acc + SalesHistoryRecord.totalRevenue sale,
       snd acc + MenuItem.cogs menuItem * SalesHistoryRecord.quantitySold sale)
  | None => acc
  end.

Definition operationalCostStep (periodDays : Z) (sum : Q) (cost : OperationalCost.t) : Q :=
  let dailyCost :=
    match OperationalCost.interval cost with
    | monthly => OperationalCost.amount cost / 30
    | daily => OperationalCost.amount cost
    end in
  sum + dailyCost * inject_Z periodDays.

Definition calculateProfitLoss (now : Instant) (periodDays : Z)
    (salesHistory : list SalesHistoryRecord.t) (menuItems : list MenuItem.t)
    (operationalCosts : list OperationalCost.t)
    (wasteHistory : list WasteRecord.t) : ProfitLossStats.t :=
  let menuItemsMap :=
    JsMap.of_entries String.eqb (map (fun item => (MenuItem.id item, item)) menuItems) in
  let cutoffDate := minusDays now periodDays in
  let relevantSales :=
    filter (fun r => onOrAfter cutoffDate (SalesHistoryRecord.date r)) salesHistory in
  let relevantWaste :=
    filter (fun r => onOrAfter cutoffDate (WasteRecord.date r)) wasteHistory in
  let totals := fold_left (profitLossStep menuItemsMap) relevantSales (0, 0) in
  let totalRevenue := fst totals in
  let totalCogs := snd totals in
  let totalOperationalCost :=
    fold_left (operationalCostStep periodDays) operationalCosts 0 in
  let totalWasteCost :=
    fold_left (fun sum record => sum + WasteRecord.cost record) relevantWaste 0 in
  let grossProfit := totalRevenue - totalCogs in
  let netProfit := grossProfit - totalOperationalCost - totalWasteCost in
  let grossProfitMargin :=
    if Js.gt totalRevenue 0 then (grossProfit / totalRevenue) * 100 else 0 in
  let netProfitMargin :=
    if Js.gt totalRevenue 0 then (netProfit / totalRevenue) * 100 else 0 in
  ProfitLossStats.mk periodDays totalRevenue totalCogs grossProfit
    totalOperationalCost totalWasteCost netProfit grossProfitMargin netProfitMargin.

(** ** Time windows: [salesHistoryForRange] and [chartData] *)

Definition salesHistoryForRange (now : Instant) (dateRange : Z)
    (salesHistory : list SalesHistoryRecord.t) : list SalesHistoryRecord.t :=
  let cutoffDate := minusDays now dateRange in
  filter (fun record => onOrAfter cutoffDate (SalesHistoryRecord.date record))
         salesHistory.

(** The values taken by [i] in [for (let i = dateRange - 1; i >= 0; i--)]. *)
Definition countdown (dateRange : Z) : list Z :=
  map Z.of_nat (rev (seq 0 (Z.to_nat dateRange))).

Module ChartData.
Record t := mk { labels : list Day; data : list Q }.
End ChartData.

(** One turn of the first loop of [chartData], on the pair [(data, labels)]. *)
Definition chartInitStep (zone : Zone.t) (now : Instant)
    (acc : JsMap.t (K := Day) (V := Q) * list Day) (i : Z)
  : JsMap.t (K := Day) (V := Q) * list Day :=
  let date := setDateBack zone now i in
  let dateString := isoDay date in
  (JsMap.set Z.eqb (fst acc) dateString 0, snd acc ++ [dateString]).

(** The body of [salesHistoryForRange.forEach] in [chartData]. *)
Definition chartAddStep (data : JsMap.t (K := Day) (V := Q))
    (record : SalesHistoryRecord.t) : JsMap.t (K := Day) (V := Q) :=
  match JsMap.get Z.eqb data (SalesHistoryRecord.date record) with
  | Some v =>
      JsMap.set Z.eqb data (SalesHistoryRecord.date record)
                (v + SalesHistoryRecord.totalRevenue record)
  | None => data
  end.

Definition chartData (zone : Zone.t) (now : Instant) (dateRange : Z)
    (salesHistoryForRange : list SalesHistoryRecord.t) : ChartData.t :=
  let init :=
    fold_left (chartInitStep zone now) (countdown dateRange) (JsMap.empty, []) in
  let data := fold_left chartAddStep salesHistoryForRange (fst init) in
  ChartData.mk (snd init) (JsMap.values data).

(** ** Dashboard statistics *)

Module DashboardStats.
Record t := mk {
  totalRevenue : Q;
  netProfit : Q;
  lowStockCount : nat;
  totalItemsSold : Q;
  averageMargin : Q
}.
End DashboardStats.

Definition numberOfNat (n : nat) : Q := inject_Z (Z.of_nat n).

Definition dashboardStats (now : Instant) (dateRange : Z)
    (salesHistoryForRange salesHistory : list SalesHistoryRecord.t)
    (menuItems : list MenuItem.t) (ingredients : list Ingredient.t)
    (operationalCosts : list OperationalCost.t)
    (wasteHistory : list WasteRecord.t) : DashboardStats.t :=
  let totalRevenue :=
    fold_left (fun sum record => sum + SalesHistoryRecord.totalRevenue record)
              salesHistoryForRange 0 in
  let netProfit :=
    ProfitLossStats.netProfit
      (calculateProfitLoss now dateRange salesHistory menuItems operationalCosts
                           wasteHistory) in
  let lowStockCount :=
    List.length (filter (fun ing => Js.le (Ingredient.stockLevel ing)
                                     (Ingredient.reorderPoint ing)) ingredients) in
  let totalItemsSold :=
    fold_left (fun sum record => sum + SalesHistoryRecord.quantitySold record)
              salesHistoryForRange 0 in
  let averageMargin :=
    if (0 <? List.length menuItems)%nat
    then fold_left (fun sum item => sum + MenuItem.actualMargin item) menuItems 0
         / numberOfNat (List.length menuItems)
    else 0 in
  DashboardStats.mk totalRevenue netProfit lowStockCount totalItemsSold averageMargin.

(** ** Alerting: [marginAlerts] *)

Module MarginAlert.
Record t := mk {
  ingredientName : string;
  priceIncreasePercent : Q;
  affectedMenus : list string
}.
End MarginAlert.

Definition usesIngredient (id : Id) (m : MenuItem.t) : bool :=
  existsb (fun r => String.eqb (RecipeComponent.ingredientId r) id)
          (MenuItem.recipe m).

(** The body of [ingredients.forEach] in [marginAlerts]; [alerts.push] is
    the append at the end. *)
Definition marginAlertStep (menuItems : list MenuItem.t)
    (alerts : list MarginAlert.t) (ing : Ingredient.t) : list MarginAlert.t :=
  match Ingredient.previousPrice ing with
  | Some previousPrice =>
      if Js.truthy previousPrice && Js.gt (Ingredient.price ing) previousPrice
      then
        let priceIncreasePercent :=
          ((Ingredient.price ing - previousPrice) / previousPrice) * 100 in
        if Js.gt priceIncreasePercent 10 then
          let affectedMenus :=
            map MenuItem.name
                (filter (usesIngredient (Ingredient.id ing)) menuItems) in
          if (0 <? List.length affectedMenus)%nat
          then alerts ++ [MarginAlert.mk (Ingredient.name ing)
                                         (Js.round priceIncreasePercent)
                                         affectedMenus]
          else alerts
        else alerts
      else alerts
  | None => alerts
  end.

Definition marginAlerts (ingredients : list Ingredient.t)
    (menuItems : list MenuItem.t) : list MarginAlert.t :=
  fold_left (marginAlertStep menuItems) ingredients [].

(** ** Campaign performance *)

Module CampaignPerformance.
Record t := mk { daysRunning : Z; percentageChange : Q }.
End CampaignPerformance.

(** [set.has(x)] on a [Set] of strings built from a list. *)
Definition setHas (s : list Id) (x : Id) : bool := existsb (String.eqb x) s.

Section Campaign.
Variable now : Instant.
Variable campaign : ActiveCampaign.t.
Variable menuItems : list MenuItem.t.
Variable allSalesHistory : list SalesHistoryRecord.t.

Definition daysRunning : Z :=
  Js.ceil (inject_Z (now - ActiveCampaign.startDate campaign) / inject_Z msPerDay).

Definition involvedItemIds : list Id :=
  let involvedItemsMap :=
    JsMap.set String.eqb
      (JsMap.set String.eqb JsMap.empty
         (InvolvedItems.item1Name (ActiveCampaign.involvedItems campaign)) true)
      (InvolvedItems.item2Name (ActiveCampaign.involvedItems campaign)) true in
  map MenuItem.id
      (filter (fun m => JsMap.has String.eqb involvedItemsMap (MenuItem.name m))
              menuItems).

Definition avgDailyUnitsDuring : Q :=
  let startDate := ActiveCampaign.startDate campaign in
  let salesDuringCampaign :=
    filter (fun s => (startDate <=? dateOf (SalesHistoryRecord.date s))%Z
                     && setHas involvedItemIds (SalesHistoryRecord.menuItemId s))
           allSalesHistory in
  let totalUnitsDuring :=
    fold_left (fun sum s => sum + SalesHistoryRecord.quantitySold s)
              salesDuringCampaign 0 in
  totalUnitsDuring / Js.or_else (inject_Z daysRunning) 1.

Definition avgDailyUnitsBefore : Q :=
  let startDate := ActiveCampaign.startDate campaign in
  let beforeStartDate := minusDays startDate daysRunning in
  let salesBeforeCampaign :=
    filter (fun s => let d := dateOf (SalesHistoryRecord.date s) in
                     (beforeStartDate <=? d)%Z && (d <? startDate)%Z
                     && setHas involvedItemIds (SalesHistoryRecord.menuItemId s))
           allSalesHistory in
  let totalUnitsBefore :=
    fold_left (fun sum s => sum + SalesHistoryRecord.quantitySold s)
              salesBeforeCampaign 0 in
  totalUnitsBefore / Js.or_else (inject_Z daysRunning) 1.

Definition percentageChange : Q :=
  if Js.gt avgDailyUnitsBefore 0
  then ((avgDailyUnitsDuring - avgDailyUnitsBefore) / avgDailyUnitsBefore) * 100
  else if Js.gt avgDailyUnitsDuring 0 then 100
  else 0.
End Campaign.

Definition campaignPerformance (now : Instant)
    (activeCampaign : option ActiveCampaign.t) (menuItems : list MenuItem.t)
    (allSalesHistory : list SalesHistoryRecord.t)
  : option CampaignPerformance.t :=
  match activeCampaign with
  | None => None
  | Some campaign =>
      Some (CampaignPerformance.mk
              (daysRunning now campaign)
              (percentageChange now campaign menuItems allSalesHistory))
  end.

(** ** The quotients of the metric computations

    Every division of the metric computations with the test that guards
    it, the division being partial ([Js.div]): [None] is a quotient by
    [0]. *)
Module Quotient.

(** [menuItems]: [item.sellingPrice > 0
    ? ((item.sellingPrice - cogs) / item.sellingPrice) * 100 : 0]. *)
Definition actualMargin (sellingPrice cogs : Q) : option Q :=
  if Js.gt sellingPrice 0
  then option_map (fun q => q * 100) (Js.div (sellingPrice - cogs) sellingPrice)
  else Some 0.

(** [dashboardStats]: [menuItems.length > 0
    ? menuItems.reduce(...) / menuItems.length : 0]. *)
Definition averageMargin (menuItems : list MenuItem.t) : option Q :=
  if (0 <? List.length menuItems)%nat
  then Js.div (fold_left (fun sum item => sum + MenuItem.actualMargin item)
                         menuItems 0)
              (numberOfNat (List.length menuItems))
  else Some 0.

(** [calculateProfitLoss]: [cost.interval === 'monthly'
    ? cost.amount / 30 : cost.amount]. *)
Definition dailyCost (cost : OperationalCost.t) : option Q :=
  match OperationalCost.interval cost with
  | monthly => Js.div (OperationalCost.amount cost) 30
  | daily => Some (OperationalCost.amount cost)
  end.


(** [marginAlerts]: the percentage taken under
    [ing.previousPrice && ing.price > ing.previousPrice]; [NotTaken] when
    the test fails. *)
Inductive Guarded := NotTaken | Taken (quotient : option Q).

Definition priceIncreasePercent (ing : Ingredient.t) : Guarded :=
  match Ingredient.previousPrice ing with
  | Some previousPrice =>
      if Js.truthy previousPrice && Js.gt (Ingredient.price ing) previousPrice
      then Taken (option_map (fun q => q * 100)
                             (Js.div (Ingredient.price ing - previousPrice)
                                     previousPrice))
      else NotTaken
  | None => NotTaken
  end.

(** [campaignPerformance]:
    [Math.ceil((now - startDate) / (1000 * 60 * 60 * 24))]. *)
Definition daysRunning (now startDate : Instant) : option Z :=
  option_map Js.ceil (Js.div (inject_Z (now - startDate)) (inject_Z msPerDay)).


(** [campaignPerformance]: the percentage change of the two averages. *)
Definition percentageChange (avgDailyUnitsBefore avgDailyUnitsDuring : Q)
  : option Q :=
  if Js.gt avgDailyUnitsBefore 0
  then option_map (fun q => q * 100)
                  (Js.div (avgDailyUnitsDuring - avgDailyUnitsBefore)
                          avgDailyUnitsBefore)
  else if Js.gt avgDailyUnitsDuring 0 then Some 100
  else Some 0.

End Quotient.

(** ** The comparison series: [comparisonChartData] *)

Module ComparisonChartData.
Record t := mk { data : list Q }.
End ComparisonChartData.

(** One turn of the loop of [comparisonChartData] that lays out the days. *)
Definition comparisonInitStep (zone : Zone.t) (now : Instant) (dateRange : Z)
    (data : JsMap.t (K := Day) (V := Q)) (i : Z) : JsMap.t (K := Day) (V := Q) :=
  let date := setDateBack zone now (dateRange + i) in
  let dateString := isoDay date in
  JsMap.set Z.eqb data dateString 0.

Definition comparisonChartData (zone : Zone.t) (now : Instant) (dateRange : Z)
    (salesHistory : list SalesHistoryRecord.t) : ComparisonChartData.t :=
  let endDate := setDateBack zone now dateRange in
  let startDate := setDateBack zone now (dateRange * 2) in
  let salesForComparisonRange :=
    filter (fun record =>
              let recordDate := dateOf (SalesHistoryRecord.date record) in
              (startDate <=? recordDate)%Z && (recordDate <? endDate)%Z)
           salesHistory in
  let data :=
    fold_left (comparisonInitStep zone now dateRange) (countdown dateRange)
              JsMap.empty in
  let data := fold_left chartAddStep salesForComparisonRange data in
  ComparisonChartData.mk (JsMap.values data).

(** ** Inventory overview and waste cost per ingredient *)

Module InventoryOverviewStats.
Record t := mk {
  totalItems : nat;
  lowStockCount : nat;
  totalStockValue : Q;
  totalWasteCostLast30Days : Q
}.
End InventoryOverviewStats.

Definition inventoryOverviewStats (now : Instant) (ingredients : list Ingredient.t)
    (wasteHistory : list WasteRecord.t) : InventoryOverviewStats.t :=
  let totalItems := List.length ingredients in
  let lowStockCount :=
    List.length (filter (fun ing => Js.le (Ingredient.stockLevel ing)
                                          (Ingredient.reorderPoint ing)) ingredients) in
  let totalStockValue :=
    fold_left (fun sum ing => sum + Ingredient.price ing * Ingredient.stockLevel ing)
              ingredients 0 in
  let thirtyDaysAgo := minusDays now 30 in
  let totalWasteCostLast30Days :=
    fold_left (fun sum w => sum + WasteRecord.cost w)
              (filter (fun w => onOrAfter thirtyDaysAgo (WasteRecord.date w))
                      wasteHistory)
              0 in
  InventoryOverviewStats.mk totalItems lowStockCount totalStockValue
                            totalWasteCostLast30Days.

(** [{ ...ing, wasteCostLast30Days }]. *)
Module IngredientWithWasteCost.
Record t := mk { ingredient : Ingredient.t; wasteCostLast30Days : Q }.
End IngredientWithWasteCost.

(** The body of the [forEach] that fills [wasteCostMap]. *)
Definition wasteCostStep (wasteCostMap : JsMap.t (K := Id) (V := Q))
    (w : WasteRecord.t) : JsMap.t (K := Id) (V := Q) :=
  JsMap.set String.eqb wasteCostMap (WasteRecord.ingredientId w)
    (Js.opt_or_else (JsMap.get String.eqb wasteCostMap (WasteRecord.ingredientId w)) 0
     + WasteRecord.cost w).

Definition ingredientsWithWasteCost (now : Instant) (ingredients : list Ingredient.t)
    (wasteHistory : list WasteRecord.t) : list IngredientWithWasteCost.t :=
  let thirtyDaysAgo := minusDays now 30 in
  let wasteCostMap :=
    fold_left wasteCostStep
              (filter (fun w => onOrAfter thirtyDaysAgo (WasteRecord.date w))
                      wasteHistory)
              JsMap.empty in
  map (fun ing =>
         IngredientWithWasteCost.mk ing
           (Js.opt_or_else (JsMap.get String.eqb wasteCostMap (Ingredient.id ing)) 0))
      ingredients.

(** ** Waste by reason: [wasteSummary]

    [wasteReasons] is [Object.values(WasteReason)], an enumeration of
    [../types].  [wasteByReason] is an object, and the reason of a waste
    record is free text: the summary is described for plain keys, and is
    [None] when a reason is not one (the object then holds a string in
    place of a number, drops a cost, or lists its keys in another
    order). *)

Module WasteSummary.
Record t := mk { labels : list string; data : list Q }.
End WasteSummary.

(** The body of [wasteHistory.forEach], for a reason that is a plain
    key. *)
Definition wasteSummaryStep (wasteByReason : JsMap.t (K := string) (V := Q))
    (record : WasteRecord.t) : JsMap.t (K := string) (V := Q) :=
  JsMap.set String.eqb wasteByReason (WasteRecord.reason record)
    (Js.opt_or_else (JsMap.get String.eqb wasteByReason (WasteRecord.reason record)) 0
     + WasteRecord.cost record).

Definition wasteSummary (wasteReasons : list string)
    (wasteHistory : list WasteRecord.t) : option WasteSummary.t :=
  if forallb Js.plainKey wasteReasons
     && forallb (fun record => Js.plainKey (WasteRecord.reason record)) wasteHistory
  then
    let wasteByReason :=
      fold_left (fun acc r => JsMap.set String.eqb acc r 0) wasteReasons JsMap.empty in
    let wasteByReason := fold_left wasteSummaryStep wasteHistory wasteByReason in
    Some (WasteSummary.mk (JsMap.keys wasteByReason) (JsMap.values wasteByReason))
  else None.

(** ** Read notifications: [markNotificationsAsRead]

    [[...new Set(xs)]]: the elements of [xs] in the order of their first
    occurrence. *)
Fixpoint uniqueInOrder (seen xs : list string) : list string :=
  match xs with
  | [] => []
  | x :: rest =>
      if existsb (String.eqb x) seen
      then uniqueInOrder seen rest
      else x :: uniqueInOrder (x :: seen) rest
  end.

Definition markNotificationsAsRead (ids prev : list string) : list string :=
  uniqueInOrder [] (prev ++ ids).

(** ** Best and worst sellers: [detailedPerformanceStats] *)

(** [items.sort(compare)]: the sort is stable, and [compare(a, b) < 0]
    puts [a] before [b].  With a comparator that is a difference of
    numbers the result is the one sorted arrangement that keeps elements
    of equal rank in their order: [x] is put before the first element
    of the sorted rest that does not come strictly before it. *)
Fixpoint insertSorted {A} (compare : A -> A -> Q) (x : A) (sorted : list A) : list A :=
  match sorted with
  | [] => [x]
  | y :: rest =>
      if Js.lt (compare y x) 0
      then y :: insertSorted compare x rest
      else x :: y :: rest
  end.

Definition arraySort {A} (compare : A -> A -> Q) (items : list A) : list A :=
  fold_right (insertSorted compare) [] items.

Module SalesStat.
Record t := mk { units : Q; revenue : Q }.
End SalesStat.

(** [{ ...item, unitsSold, revenue }]. *)
Module PerformanceRow.
Record t := mk { item : MenuItem.t; unitsSold : Q; revenue : Q }.
End PerformanceRow.

Module PerformanceItem.
Record t := mk { id : Id; name : string; imageUrl : string; metric : Q }.
End PerformanceItem.

Module DetailedPerformanceStats.
Record t := mk {
  bestSellersByUnit : list PerformanceItem.t;
  highestRevenueItems : list PerformanceItem.t;
  mostProfitableItems : list PerformanceItem.t;
  leastProfitableItems : list PerformanceItem.t
}.
End DetailedPerformanceStats.

Inductive MetricKey := unitsSoldKey | revenueKey | actualMarginKey.
Inductive SortOrder := asc | desc.

(** [item[metricKey]]. *)
Definition metricOf (metricKey : MetricKey) (row : PerformanceRow.t) : Q :=
  match metricKey with
  | unitsSoldKey => PerformanceRow.unitsSold row
  | revenueKey => PerformanceRow.revenue row
  | actualMarginKey => MenuItem.actualMargin (PerformanceRow.item row)
  end.

Definition compareRows (metricKey : MetricKey) (sort : SortOrder)
    (a b : PerformanceRow.t) : Q :=
  match sort with
  | desc => metricOf metricKey b - metricOf metricKey a
  | asc => metricOf metricKey a - metricOf metricKey b
  end.

(** [createPerformanceList]: the list, and the array [items] as the sort
    in place leaves it for the next call. *)
Definition createPerformanceList (items : list PerformanceRow.t)
    (metricKey : MetricKey) (sort : SortOrder)
  : list PerformanceRow.t * list PerformanceItem.t :=
  let items := arraySort (compareRows metricKey sort) items in
  (items,
   map (fun row =>
          PerformanceItem.mk (MenuItem.id (PerformanceRow.item row))
                             (MenuItem.name (PerformanceRow.item row))
                             (MenuItem.imageUrl (PerformanceRow.item row))
                             (metricOf metricKey row))
       (firstn 3 items)).

(** The body of [salesHistoryForRange.forEach]. *)
Definition salesStatStep (salesStats : JsMap.t (K := Id) (V := SalesStat.t))
    (record : SalesHistoryRecord.t) : JsMap.t (K := Id) (V := SalesStat.t) :=
  match JsMap.get String.eqb salesStats (SalesHistoryRecord.menuItemId record) with
  | Some stat =>
      JsMap.set String.eqb salesStats (SalesHistoryRecord.menuItemId record)
        (SalesStat.mk
           (SalesStat.units stat + SalesHistoryRecord.quantitySold record)
           (SalesStat.revenue stat + SalesHistoryRecord.totalRevenue record))
  | None => salesStats
  end.

(** [salesStats[item.id]]; the first loop has put it there. *)
Definition salesStatOf (salesStats : JsMap.t (K := Id) (V := SalesStat.t))
    (item : MenuItem.t) : SalesStat.t :=
  match JsMap.get String.eqb salesStats (MenuItem.id item) with
  | Some stat => stat
  | None => SalesStat.mk 0 0
  end.

Definition detailedPerformanceStats (menuItems : list MenuItem.t)
    (salesHistoryForRange : list SalesHistoryRecord.t) : DetailedPerformanceStats.t :=
  let salesStats :=
    fold_left (fun stats item =>
                 JsMap.set String.eqb stats (MenuItem.id item) (SalesStat.mk 0 0))
              menuItems JsMap.empty in
  let salesStats := fold_left salesStatStep salesHistoryForRange salesStats in
  let performanceItems :=
    map (fun item =>
           PerformanceRow.mk item
             (SalesStat.units (salesStatOf salesStats item))
             (SalesStat.revenue (salesStatOf salesStats item)))
        menuItems in
  let bestSellersByUnit :=
    createPerformanceList performanceItems unitsSoldKey desc in
  let highestRevenueItems :=
    createPerformanceList (fst bestSellersByUnit) revenueKey desc in
  let mostProfitableItems :=
    createPerformanceList (fst highestRevenueItems) actualMarginKey desc in
  let leastProfitableItems :=
    createPerformanceList (fst mostProfitableItems) actualMarginKey asc in
  DetailedPerformanceStats.mk (snd bestSellersByUnit) (snd highestRevenueItems)
                              (snd mostProfitableItems) (snd leastProfitableItems).

(** ** The entity store, the hook's state and asynchronous calls *)

Module Outlet.
Record t := mk { id : Id; name : string }.
End Outlet.

(** The raw entities: the tables of the store, and the copy of them that
    [loadAllData] puts in the hook's state.  [DatabaseService] converts a
    row to an object field by field; both are one record here. *)
Module Snapshot.
Record t := mk {
  outlets : list Outlet.t;
  allIngredients : list Ingredient.t;
  menuItemsData : list MenuItemData.t;
  recipes : list RecipeRow.t;
  allSalesHistory : list SalesHistoryRecord.t;
  allOperationalCosts : list OperationalCost.t;
  allWasteHistory : list WasteRecord.t;
  allPendingOrders : list PendingOrder.t;
  activeCampaign : option ActiveCampaign.t
}.

Definition withIngredients (s : t) (l : list Ingredient.t) : t :=
  mk (outlets s) l (menuItemsData s) (recipes s) (allSalesHistory s)
     (allOperationalCosts s) (allWasteHistory s) (allPendingOrders s)
     (activeCampaign s).

Definition withSalesHistory (s : t) (l : list SalesHistoryRecord.t) : t :=
  mk (outlets s) (allIngredients s) (menuItemsData s) (recipes s) l
     (allOperationalCosts s) (allWasteHistory s) (allPendingOrders s)
     (activeCampaign s).

Definition withWasteHistory (s : t) (l : list WasteRecord.t) : t :=
  mk (outlets s) (allIngredients s) (menuItemsData s) (recipes s)
     (allSalesHistory s) (allOperationalCosts s) l (allPendingOrders s)
     (activeCampaign s).

Definition withPendingOrders (s : t) (l : list PendingOrder.t) : t :=
  mk (outlets s) (allIngredients s) (menuItemsData s) (recipes s)
     (allSalesHistory s) (allOperationalCosts s) (allWasteHistory s) l
     (activeCampaign s).
End Snapshot.

(** The [useState] cells of [useSupabaseData] that the metrics read. *)
Module HookState.
Record t := mk {
  snapshot : Snapshot.t;
  currentOutletId : Id;
  dateRange : Z
}.
End HookState.

(** The store, the hook and the store failures still to come: the n-th
    request to the store fails when the n-th entry of [faults] is [true];
    requests beyond the list succeed. *)
Module World.
Record t := mk {
  db : Snapshot.t;
  hook : HookState.t;
  faults : list bool
}.
End World.

Inductive outcome (A : Type) : Type :=
| Returned (a : A)
| Thrown.
Arguments Returned {A} a.
Arguments Thrown {A}.

(** An [async] function: it runs on the world and either returns or throws;
    what it wrote before throwing stays written. *)
Definition Async (A : Type) : Type := World.t -> outcome A * World.t.

Definition ret {A} (a : A) : Async A := fun w => (Returned a, w).

Definition bind {A B} (m : Async A) (k : A -> Async B) : Async B :=
  fun w =>
    match m w with
    | (Returned a, w') => k a w'
    | (Thrown, w') => (Thrown, w')
    end.

Declare Scope async_scope.
Delimit Scope async_scope with async.
Notation "x <- m ;; k" := (bind m (fun x => k))
  (at level 100, m at next level, right associativity) : async_scope.
Notation "m ;; k" := (bind m (fun _ => k))
  (at level 100, right associativity) : async_scope.
Open Scope async_scope.

(** [for (const x of xs) { await body(x) }]. *)
Fixpoint forEachAwait {A} (body : A -> Async unit) (xs : list A) : Async unit :=
  match xs with
  | [] => ret tt
  | x :: rest => body x ;; forEachAwait body rest
  end.

(** The same loop when the body also updates a local variable. *)
Fixpoint foldAwait {A S} (body : S -> A -> Async S) (xs : list A) (s : S) : Async S :=
  match xs with
  | [] => ret s
  | x :: rest => s' <- body s x ;; foldAwait body rest s'
  end.

(** One write request: [write] is what the store does to its tables, or
    [None] when it answers the request with an error. *)
Definition storeWrite (write : Snapshot.t -> option Snapshot.t) : Async unit :=
  fun w =>
    let rest := tl (World.faults w) in
    match World.faults w with
    | true :: _ => (Thrown, World.mk (World.db w) (World.hook w) rest)
    | _ =>
        match write (World.db w) with
        | Some db' => (Returned tt, World.mk db' (World.hook w) rest)
        | None => (Thrown, World.mk (World.db w) (World.hook w) rest)
        end
    end.

(** [Partial<Omit<MenuItem, 'id' | 'cogs' | 'actualMargin' | 'marginStatus'>>],
    the fields that [updateMenuItem] looks at; [None] is [undefined]. *)
Module MenuItemUpdate.
Record t := mk {
  name : option string;
  imageUrl : option string;
  sellingPrice : option Q;
  targetMargin : option Q
}.
End MenuItemUpdate.

(** A request whose error the caller does not look at. *)
Definition ignoringError (m : Async unit) : Async unit :=
  fun w => (Returned tt, snd (m w)).

Module DatabaseService.

Definition hasId (id : Id) (i : Ingredient.t) : bool :=
  String.eqb (Ingredient.id i) id.

(** [delete().eq('id', id)] on [ingredients]; the schema deletes with it
    the recipe and waste rows that reference the ingredient
    ([ON DELETE CASCADE]). *)
Definition deleteIngredient (id : Id) : Async unit :=
  storeWrite (fun db =>
    Some (Snapshot.mk
            (Snapshot.outlets db)
            (filter (fun i => negb (hasId id i)) (Snapshot.allIngredients db))
            (Snapshot.menuItemsData db)
            (filter (fun r => negb (String.eqb (RecipeRow.ingredientId r) id))
                    (Snapshot.recipes db))
            (Snapshot.allSalesHistory db)
            (Snapshot.allOperationalCosts db)
            (filter (fun r => negb (String.eqb (WasteRecord.ingredientId r) id))
                    (Snapshot.allWasteHistory db))
            (Snapshot.allPendingOrders db)
            (Snapshot.activeCampaign db))).

(** [updateIngredient(id, { stockLevel })]: [update(...).eq('id', id)]
    followed by [.single()], which is an error when no row matched. *)
Definition updateIngredient (id : Id) (stockLevel : Q) : Async unit :=
  storeWrite (fun db =>
    if existsb (hasId id) (Snapshot.allIngredients db)
    then Some (Snapshot.withIngredients db
                 (map (fun i => if hasId id i
                                then Ingredient.withStockLevel i stockLevel
                                else i)
                      (Snapshot.allIngredients db)))
    else None).

Definition addSalesRecord (sales : SalesHistoryRecord.t) : Async unit :=
  storeWrite (fun db =>
    Some (Snapshot.withSalesHistory db (Snapshot.allSalesHistory db ++ [sales]))).

Definition addWasteRecord (record : WasteRecord.t) : Async unit :=
  storeWrite (fun db =>
    Some (Snapshot.withWasteHistory db (Snapshot.allWasteHistory db ++ [record]))).

Definition deletePendingOrder (id : Id) : Async unit :=
  storeWrite (fun db =>
    Some (Snapshot.withPendingOrders db
            (filter (fun o => negb (String.eqb (PendingOrder.id o) id))
                    (Snapshot.allPendingOrders db)))).

(** [updateIngredient(id, { previousPrice, price })].  A row comes back
    through [item.previous_price ? parseFloat(item.previous_price) : undefined]:
    a previous price of 0 is read as none. *)
Definition updateIngredientPrice (id : Id) (previousPrice price : Q) : Async unit :=
  storeWrite (fun db =>
    if existsb (hasId id) (Snapshot.allIngredients db)
    then Some (Snapshot.withIngredients db
                 (map (fun i =>
                         if hasId id i
                         then Ingredient.mk (Ingredient.id i) (Ingredient.name i)
                                (Ingredient.unit i) price
                                (if Js.truthy previousPrice
                                 then Some previousPrice else None)
                                (Ingredient.stockLevel i)
                                (Ingredient.reorderPoint i) (Ingredient.outletId i)
                         else i)
                      (Snapshot.allIngredients db)))
    else None).

(** [delete().eq('id', id)] on [menu_items]; the schema deletes with it
    the recipe rows and the sales records of the menu item
    ([ON DELETE CASCADE]). *)
Definition deleteMenuItem (id : Id) : Async unit :=
  storeWrite (fun db =>
    Some (Snapshot.mk
            (Snapshot.outlets db)
            (Snapshot.allIngredients db)
            (filter (fun m => negb (String.eqb (MenuItemData.id m) id))
                    (Snapshot.menuItemsData db))
            (filter (fun r => negb (String.eqb (RecipeRow.menuItemId r) id))
                    (Snapshot.recipes db))
            (filter (fun r => negb (String.eqb (SalesHistoryRecord.menuItemId r) id))
                    (Snapshot.allSalesHistory db))
            (Snapshot.allOperationalCosts db)
            (Snapshot.allWasteHistory db)
            (Snapshot.allPendingOrders db)
            (Snapshot.activeCampaign db))).

(** An ingredient of the outlet [id] has the id [k]. *)
Definition ingredientOfOutlet (id : Id) (db : Snapshot.t) (k : Id) : bool :=
  existsb (fun i => String.eqb (Ingredient.outletId i) id && hasId k i)
          (Snapshot.allIngredients db).

(** [delete().eq('id', id)] on [outlets]; the schema deletes with it the
    ingredients, sales records, operational costs, waste records and
    pending orders of the outlet, and with the ingredients the recipe and
    waste rows that reference them ([ON DELETE CASCADE]). *)
Definition deleteOutlet (id : Id) : Async unit :=
  storeWrite (fun db =>
    Some (Snapshot.mk
            (filter (fun o => negb (String.eqb (Outlet.id o) id))
                    (Snapshot.outlets db))
            (filter (fun i => negb (String.eqb (Ingredient.outletId i) id))
                    (Snapshot.allIngredients db))
            (Snapshot.menuItemsData db)
            (filter (fun r => negb (ingredientOfOutlet id db (RecipeRow.ingredientId r)))
                    (Snapshot.recipes db))
            (filter (fun r => negb (String.eqb (SalesHistoryRecord.outletId r) id))
                    (Snapshot.allSalesHistory db))
            (filter (fun c => negb (String.eqb (OperationalCost.outletId c) id))
                    (Snapshot.allOperationalCosts db))
            (filter (fun r => negb (String.eqb (WasteRecord.outletId r) id)
                              && negb (ingredientOfOutlet id db
                                         (WasteRecord.ingredientId r)))
                    (Snapshot.allWasteHistory db))
            (filter (fun o => negb (String.eqb (PendingOrder.outletId o) id))
                    (Snapshot.allPendingOrders db))
            (Snapshot.activeCampaign db))).

(** [Object.keys(updateData).length > 0]. *)
Definition hasUpdate (menuItem : MenuItemUpdate.t) : bool :=
  match MenuItemUpdate.name menuItem, MenuItemUpdate.imageUrl menuItem,
        MenuItemUpdate.sellingPrice menuItem, MenuItemUpdate.targetMargin menuItem with
  | None, None, None, None => false
  | _, _, _, _ => true
  end.

Definition updateMenuItemRow (menuItem : MenuItemUpdate.t) (row : MenuItemData.t)
  : MenuItemData.t :=
  MenuItemData.mk (MenuItemData.id row)
    (match MenuItemUpdate.name menuItem with
     | Some name => name | None => MenuItemData.name row end)
    (match MenuItemUpdate.imageUrl menuItem with
     | Some imageUrl => imageUrl | None => MenuItemData.imageUrl row end)
    (match MenuItemUpdate.sellingPrice menuItem with
     | Some sellingPrice => sellingPrice | None => MenuItemData.sellingPrice row end)
    (match MenuItemUpdate.targetMargin menuItem with
     | Some targetMargin => targetMargin | None => MenuItemData.targetMargin row end)
    (MenuItemData.recipe row).

Definition samePair (r r' : RecipeRow.t) : bool :=
  String.eqb (RecipeRow.menuItemId r) (RecipeRow.menuItemId r')
  && String.eqb (RecipeRow.ingredientId r) (RecipeRow.ingredientId r').

Fixpoint distinctPairs (rows : list RecipeRow.t) : bool :=
  match rows with
  | [] => true
  | r :: rest => negb (existsb (samePair r) rest) && distinctPairs rest
  end.

(** The constraints of [recipes] on an insertion: the menu item and the
    ingredient of every row exist ([REFERENCES]), and no two rows, new or
    old, have the same menu item and ingredient ([UNIQUE]). *)
Definition acceptsRecipes (db : Snapshot.t) (rows : list RecipeRow.t) : bool :=
  forallb (fun r =>
             existsb (fun m => String.eqb (MenuItemData.id m) (RecipeRow.menuItemId r))
                     (Snapshot.menuItemsData db)
             && existsb (hasId (RecipeRow.ingredientId r)) (Snapshot.allIngredients db)
             && negb (existsb (samePair r) (Snapshot.recipes db)))
          rows
  && distinctPairs rows.

Definition withMenuItemsData (db : Snapshot.t) (l : list MenuItemData.t) : Snapshot.t :=
  Snapshot.mk (Snapshot.outlets db) (Snapshot.allIngredients db) l
    (Snapshot.recipes db) (Snapshot.allSalesHistory db)
    (Snapshot.allOperationalCosts db) (Snapshot.allWasteHistory db)
    (Snapshot.allPendingOrders db) (Snapshot.activeCampaign db).

Definition withRecipes (db : Snapshot.t) (l : list RecipeRow.t) : Snapshot.t :=
  Snapshot.mk (Snapshot.outlets db) (Snapshot.allIngredients db)
    (Snapshot.menuItemsData db) l (Snapshot.allSalesHistory db)
    (Snapshot.allOperationalCosts db) (Snapshot.allWasteHistory db)
    (Snapshot.allPendingOrders db) (Snapshot.activeCampaign db).

(** [updateMenuItem]: the row is updated when a field is given; when a
    recipe is given, the recipe rows of the menu item are deleted, the
    outcome of that request not being looked at, and the rows of the
    given recipe are inserted in one request. *)
Definition updateMenuItem (id : Id) (menuItem : MenuItemUpdate.t)
    (recipeIngredients : option (list RecipeComponent.t)) : Async unit :=
  (if hasUpdate menuItem
   then storeWrite (fun db =>
          Some (withMenuItemsData db
                  (map (fun row => if String.eqb (MenuItemData.id row) id
                                   then updateMenuItemRow menuItem row else row)
                       (Snapshot.menuItemsData db))))
   else ret tt) ;;
  match recipeIngredients with
  | Some recipeIngredients =>
      ignoringError
        (storeWrite (fun db =>
           Some (withRecipes db
                   (filter (fun r => negb (String.eqb (RecipeRow.menuItemId r) id))
                           (Snapshot.recipes db))))) ;;
      if (0 <? List.length recipeIngredients)%nat
      then
        let recipeData :=
          map (fun r => RecipeRow.mk id (RecipeComponent.ingredientId r)
                                     (RecipeComponent.quantity r))
              recipeIngredients in
        storeWrite (fun db =>
          if acceptsRecipes db recipeData
          then Some (withRecipes db (Snapshot.recipes db ++ recipeData))
          else None)
      else ret tt
  | None => ret tt
  end.

End DatabaseService.

(** [loadAllData]: eleven reads issued together; when one of them fails the
    error is caught and logged and the state keeps what it had. *)
Definition loadAllData (currentOutletId : Id) : Async unit :=
  fun w =>
    let answers := firstn 11 (World.faults w) in
    let rest := skipn 11 (World.faults w) in
    if existsb (fun failed => failed) answers
    then (Returned tt, World.mk (World.db w) (World.hook w) rest)
    else
      let outletsData := Snapshot.outlets (World.db w) in
      let outlet :=
        match outletsData with
        | first :: _ =>
            if String.eqb currentOutletId EmptyString
            then Outlet.id first
            else HookState.currentOutletId (World.hook w)
        | [] => HookState.currentOutletId (World.hook w)
        end in
      (Returned tt,
       World.mk (World.db w)
                (HookState.mk (World.db w) outlet
                              (HookState.dateRange (World.hook w)))
                rest).

(** ** The hook: outlet-scoped views and derived metrics

    The values a render of [useSupabaseData] computes from the state [st]
    at the instant [now], in the time zone [zone]. *)
Module Hook.
Section Render.
Variable st : HookState.t.
Variable zone : Zone.t.
Variable now : Instant.

Let snapshot := HookState.snapshot st.
Let currentOutletId := HookState.currentOutletId st.
Let dateRange := HookState.dateRange st.

Definition ingredients : list Ingredient.t :=
  filter (fun i => String.eqb (Ingredient.outletId i) currentOutletId)
         (Snapshot.allIngredients snapshot).
Definition salesHistory : list SalesHistoryRecord.t :=
  filter (fun s => String.eqb (SalesHistoryRecord.outletId s) currentOutletId)
         (Snapshot.allSalesHistory snapshot).
Definition operationalCosts : list OperationalCost.t :=
  filter (fun c => String.eqb (OperationalCost.outletId c) currentOutletId)
         (Snapshot.allOperationalCosts snapshot).
Definition wasteHistory : list WasteRecord.t :=
  filter (fun w => String.eqb (WasteRecord.outletId w) currentOutletId)
         (Snapshot.allWasteHistory snapshot).
Definition pendingOrders : list PendingOrder.t :=
  filter (fun p => String.eqb (PendingOrder.outletId p) currentOutletId)
         (Snapshot.allPendingOrders snapshot).

Definition menuItems : list MenuItem.t :=
  menuItems ingredients (Snapshot.menuItemsData snapshot)
            (Snapshot.recipes snapshot).

Definition salesHistoryForRange : list SalesHistoryRecord.t :=
  salesHistoryForRange now dateRange salesHistory.

Definition dashboardStats : DashboardStats.t :=
  dashboardStats now dateRange salesHistoryForRange salesHistory menuItems
                 ingredients operationalCosts wasteHistory.

Definition chartData : ChartData.t :=
  chartData zone now dateRange salesHistoryForRange.

Definition marginAlerts : list MarginAlert.t :=
  marginAlerts ingredients menuItems.

Definition profitLossStats : ProfitLossStats.t :=
  calculateProfitLoss now dateRange salesHistory menuItems operationalCosts
                      wasteHistory.

Definition campaignPerformance : option CampaignPerformance.t :=
  campaignPerformance now (Snapshot.activeCampaign snapshot) menuItems
                      (Snapshot.allSalesHistory snapshot).
(** [MenuItem & { ingredients: (Ingredient & { quantity })[] }]. *)
Definition getMenuItemById (id : option Id)
  : option (MenuItem.t * list (Ingredient.t * Q)) :=
  match id with
  | None => None
  | Some id =>
      if String.eqb id EmptyString then None
      else
        match find (fun item => String.eqb (MenuItem.id item) id) menuItems with
        | None => None
        | Some menuItem =>
            let ingredientsMap := ingredientsMapOf ingredients in
            let populatedIngredients :=
              flat_map
                (fun component =>
                   match JsMap.get String.eqb ingredientsMap
                                   (RecipeComponent.ingredientId component) with
                   | Some ingredient =>
                       [(ingredient, RecipeComponent.quantity component)]
                   | None => []
                   end)
                (MenuItem.recipe menuItem) in
            Some (menuItem, populatedIngredients)
        end
  end.

Definition comparisonChartData : ComparisonChartData.t :=
  comparisonChartData zone now dateRange salesHistory.

Definition inventoryOverviewStats : InventoryOverviewStats.t :=
  inventoryOverviewStats now ingredients wasteHistory.

Definition ingredientsWithWasteCost : list IngredientWithWasteCost.t :=
  ingredientsWithWasteCost now ingredients wasteHistory.

Definition wasteSummary (wasteReasons : list string) : option WasteSummary.t :=
  wasteSummary wasteReasons wasteHistory.

Definition detailedPerformanceStats : DetailedPerformanceStats.t :=
  detailedPerformanceStats menuItems salesHistoryForRange.

(** The body of [menuItem.recipe.forEach] in [checkStockAvailability]. *)
Definition requireStep (soldCount : Q)
    (requiredIngredients : JsMap.t (K := Id) (V := Q))
    (component : RecipeComponent.t) : JsMap.t (K := Id) (V := Q) :=
  let currentRequired :=
    Js.opt_or_else
      (JsMap.get String.eqb requiredIngredients
                 (RecipeComponent.ingredientId component)) 0 in
  JsMap.set String.eqb requiredIngredients (RecipeComponent.ingredientId component)
    (currentRequired + RecipeComponent.quantity component * soldCount).

(** The body of the first [menuItems.forEach] in [checkStockAvailability]. *)
Definition requireItemStep (sales : JsMap.t (K := Id) (V := Q))
    (requiredIngredients : JsMap.t (K := Id) (V := Q)) (menuItem : MenuItem.t)
  : JsMap.t (K := Id) (V := Q) :=
  let soldCount :=
    Js.opt_or_else (JsMap.get String.eqb sales (MenuItem.id menuItem)) 0 in
  if Js.gt soldCount 0
  then fold_left (requireStep soldCount) (MenuItem.recipe menuItem)
                 requiredIngredients
  else requiredIngredients.

Definition requiredIngredientsOf (sales : JsMap.t (K := Id) (V := Q))
  : JsMap.t (K := Id) (V := Q) :=
  fold_left (requireItemStep sales) menuItems JsMap.empty.

(** The test of [menuItem.recipe.find] in [checkStockAvailability]. *)
Definition insufficientComponent
    (requiredIngredients stockMap : JsMap.t (K := Id) (V := Q))
    (component : RecipeComponent.t) : bool :=
  let needed :=
    Js.opt_or_else
      (JsMap.get String.eqb requiredIngredients
                 (RecipeComponent.ingredientId component)) 0 in
  let available :=
    Js.opt_or_else
      (JsMap.get String.eqb stockMap (RecipeComponent.ingredientId component)) 0 in
  Js.gt needed available.

Definition stockWarning (ingredientName : string) : string :=
  ("Stok " ++ ingredientName ++ " mungkin tidak cukup untuk memenuhi penjualan.")%string.

(** The body of the second [menuItems.forEach] in [checkStockAvailability]. *)
Definition warnStep (sales requiredIngredients stockMap : JsMap.t (K := Id) (V := Q))
    (warnings : JsMap.t (K := Id) (V := string)) (menuItem : MenuItem.t)
  : JsMap.t (K := Id) (V := string) :=
  let soldCount :=
    Js.opt_or_else (JsMap.get String.eqb sales (MenuItem.id menuItem)) 0 in
  if Js.gt soldCount 0 then
    match find (insufficientComponent requiredIngredients stockMap)
               (MenuItem.recipe menuItem) with
    | Some insufficient =>
        match find (fun i => String.eqb (Ingredient.id i)
                               (RecipeComponent.ingredientId insufficient))
                   ingredients with
        | Some ingredient =>
            JsMap.set String.eqb warnings (MenuItem.id menuItem)
                      (stockWarning (Ingredient.name ingredient))
        | None => warnings
        end
    | None => warnings
    end
  else warnings.

Definition checkStockAvailability (sales : JsMap.t (K := Id) (V := Q))
  : JsMap.t (K := Id) (V := string) :=
  let requiredIngredients := requiredIngredientsOf sales in
  let stockMap :=
    JsMap.of_entries String.eqb
      (map (fun i => (Ingredient.id i, Ingredient.stockLevel i)) ingredients) in
  fold_left (warnStep sales requiredIngredients stockMap) menuItems JsMap.empty.
End Render.

(** The mutation callbacks.  A callback reads the state [st] of the
    render that created it, not the state of the moment it runs. *)

Module DeleteResult.
Record t := mk { success : bool; message : option string }.
End DeleteResult.

(** [Omit<WasteRecord, 'id' | 'cost' | 'outletId'>]. *)
Module WasteInput.
Record t := mk {
  date : Day;
  ingredientId : Id;
  quantity : Q;
  reason : string
}.
End WasteInput.

Definition findIngredient (id : Id) (l : list Ingredient.t) : option Ingredient.t :=
  find (fun i => String.eqb (Ingredient.id i) id) l.

Section Callbacks.
Variable st : HookState.t.

Let snapshot := HookState.snapshot st.
Let currentOutletId := HookState.currentOutletId st.

Definition deleteIngredient (id : Id) : Async DeleteResult.t :=
  let isUsedInRecipe :=
    existsb (fun r => String.eqb (RecipeRow.ingredientId r) id)
            (Snapshot.recipes snapshot) in
  if isUsedInRecipe
  then ret (DeleteResult.mk false
              (Some "Bahan ini masih digunakan dalam resep. Hapus dari resep terlebih dahulu."%string))
  else
    DatabaseService.deleteIngredient id ;;
    loadAllData currentOutletId ;;
    ret (DeleteResult.mk true None).

Definition addWasteRecord (record : WasteInput.t) : Async unit :=
  match findIngredient (WasteInput.ingredientId record) (ingredients st) with
  | None => ret tt
  | Some ingredient =>
      let cost := Ingredient.price ingredient * WasteInput.quantity record in
      DatabaseService.addWasteRecord
        (WasteRecord.mk (WasteInput.date record)
                        (WasteInput.ingredientId record)
                        (WasteInput.quantity record)
                        (WasteInput.reason record)
                        cost currentOutletId) ;;
      DatabaseService.updateIngredient (WasteInput.ingredientId record)
        (Js.max 0 (Ingredient.stockLevel ingredient - WasteInput.quantity record)) ;;
      loadAllData currentOutletId
  end.

(** The body of [order.items.forEach] in [receiveStock]. *)
Definition receiveStep (updatedStockMap : JsMap.t (K := Id) (V := Q))
    (item : OrderItem.t) : JsMap.t (K := Id) (V := Q) :=
  JsMap.set String.eqb updatedStockMap (OrderItem.ingredientId item)
    (Js.opt_or_else
       (JsMap.get String.eqb updatedStockMap (OrderItem.ingredientId item)) 0
     + OrderItem.quantityToOrder item).

Definition receiveStock (orderId : Id) : Async unit :=
  match find (fun o => String.eqb (PendingOrder.id o) orderId) (pendingOrders st) with
  | None => ret tt
  | Some order =>
      let updatedStockMap :=
        fold_left receiveStep (PendingOrder.items order) JsMap.empty in
      forEachAwait
        (fun entry =>
           let ingredientId := fst entry in
           let additionalStock := snd entry in
           match findIngredient ingredientId (Snapshot.allIngredients snapshot) with
           | Some ingredient =>
               DatabaseService.updateIngredient ingredientId
                 (Ingredient.stockLevel ingredient + additionalStock)
           | None => ret tt
           end)
        (JsMap.entries updatedStockMap) ;;
      DatabaseService.deletePendingOrder orderId ;;
      loadAllData currentOutletId
  end.

(** The body of [menuItem.recipe.forEach] in [processDailySales]. *)
Definition consumeStep (currentOutletIngredients : list Ingredient.t)
    (soldCount : Q) (ingredientsToUpdate : JsMap.t (K := Id) (V := Q))
    (component : RecipeComponent.t) : JsMap.t (K := Id) (V := Q) :=
  match findIngredient (RecipeComponent.ingredientId component)
                       currentOutletIngredients with
  | Some outletIngredient =>
      let currentConsumption :=
        Js.opt_or_else
          (JsMap.get String.eqb ingredientsToUpdate (Ingredient.id outletIngredient))
          0 in
      JsMap.set String.eqb ingredientsToUpdate (Ingredient.id outletIngredient)
        (currentConsumption + RecipeComponent.quantity component * soldCount)
  | None => ingredientsToUpdate
  end.

(** [sales] is the object [Record<string, number>] of units sold per
    menu item id; [now] is the instant of [new Date()]. *)
Definition processDailySales (now : Instant)
    (sales : JsMap.t (K := Id) (V := Q)) : Async (list Ingredient.t) :=
  let today := isoDay now in
  let currentOutletIngredients := ingredients st in
  ingredientsToUpdate <-
    foldAwait
      (fun ingredientsToUpdate menuItem =>
         let soldCount :=
           Js.opt_or_else (JsMap.get String.eqb sales (MenuItem.id menuItem)) 0 in
         if Js.gt soldCount 0 then
           DatabaseService.addSalesRecord
             (SalesHistoryRecord.mk today (MenuItem.id menuItem) soldCount
                (soldCount * MenuItem.sellingPrice menuItem) currentOutletId) ;;
           ret (fold_left (consumeStep currentOutletIngredients soldCount)
                          (MenuItem.recipe menuItem) ingredientsToUpdate)
         else ret ingredientsToUpdate)
      (menuItems st) JsMap.empty ;;
  forEachAwait
    (fun entry =>
       let ingredientId := fst entry in
       let consumption := snd entry in
       match findIngredient ingredientId (ingredients st) with
       | Some ingredient =>
           DatabaseService.updateIngredient ingredientId
             (Js.max 0 (Ingredient.stockLevel ingredient - consumption))
       | None => ret tt
       end)
    (JsMap.entries ingredientsToUpdate) ;;
  loadAllData currentOutletId ;;
  ret (ingredients st).

Definition updateIngredientPrice (id : Id) (newPrice : Q) : Async unit :=
  match findIngredient id (Snapshot.allIngredients snapshot) with
  | Some ingredient =>
      DatabaseService.updateIngredientPrice id (Ingredient.price ingredient) newPrice ;;
      loadAllData currentOutletId
  | None => ret tt
  end.

Definition updateIngredientStock (id : Id) (newStock : Q) : Async unit :=
  DatabaseService.updateIngredient id newStock ;;
  loadAllData currentOutletId.

Definition deleteMenuItem (id : Id) : Async unit :=
  DatabaseService.deleteMenuItem id ;;
  loadAllData currentOutletId.

Definition deleteOutlet (id : Id) : Async DeleteResult.t :=
  if (List.length (Snapshot.outlets snapshot) <=? 1)%nat
  then ret (DeleteResult.mk false
              (Some "Tidak dapat menghapus satu-satunya cabang."%string))
  else if String.eqb id currentOutletId
  then ret (DeleteResult.mk false
              (Some "Tidak dapat menghapus cabang yang sedang aktif. Silakan pindah ke cabang lain terlebih dahulu."%string))
  else
    let hasData :=
      existsb (fun i => String.eqb (Ingredient.outletId i) id)
              (Snapshot.allIngredients snapshot)
      || existsb (fun s => String.eqb (SalesHistoryRecord.outletId s) id)
                 (Snapshot.allSalesHistory snapshot)
      || existsb (fun o => String.eqb (OperationalCost.outletId o) id)
                 (Snapshot.allOperationalCosts snapshot) in
    if hasData
    then ret (DeleteResult.mk false
                (Some "Cabang ini memiliki data terkait (inventaris, penjualan, dll.) dan tidak dapat dihapus."%string))
    else
      DatabaseService.deleteOutlet id ;;
      loadAllData currentOutletId ;;
      ret (DeleteResult.mk true None).

Definition updateMenuItem (updatedItem : MenuItemData.t) : Async unit :=
  let recipeIngredients :=
    map (fun r => RecipeComponent.mk (RecipeComponent.ingredientId r)
                                     (RecipeComponent.quantity r))
        (MenuItemData.recipe updatedItem) in
  DatabaseService.updateMenuItem (MenuItemData.id updatedItem)
    (MenuItemUpdate.mk (Some (MenuItemData.name updatedItem))
                       (Some (MenuItemData.imageUrl updatedItem))
                       (Some (MenuItemData.sellingPrice updatedItem))
                       (Some (MenuItemData.targetMargin updatedItem)))
    (Some recipeIngredients) ;;
  loadAllData currentOutletId.
End Callbacks.
End Hook.

(** * Vocabulary of the specification *)

(** "Kept" records of a period of [days] days: [date >= now - days]. *)
Definition keptSince (now : Instant) (days : Z) (d : Day) : bool :=
  onOrAfter (minusDays now days) d.

Definition keptSales (now : Instant) (days : Z)
    (salesHistory : list SalesHistoryRecord.t) : list SalesHistoryRecord.t :=
  filter (fun s => keptSince now days (SalesHistoryRecord.date s)) salesHistory.

(** The menu item of a sale still exists. *)
Definition knownMenuItem (menuItems : list MenuItem.t)
    (sale : SalesHistoryRecord.t) : bool :=
  existsb (fun m => String.eqb (MenuItem.id m) (SalesHistoryRecord.menuItemId sale))
          menuItems.

(** The reading of the specification in which the revenue of a statement
    counts every kept sale, whatever became of its menu item. *)
Definition revenueCountsEveryKeptSale (now : Instant) (periodDays : Z)
    (salesHistory : list SalesHistoryRecord.t) (menuItems : list MenuItem.t)
    (operationalCosts : list OperationalCost.t)
    (wasteHistory : list WasteRecord.t) : Prop :=
  ProfitLossStats.totalRevenue
    (calculateProfitLoss now periodDays salesHistory menuItems operationalCosts
                         wasteHistory)
  == Qsum (map SalesHistoryRecord.totalRevenue (keptSales now periodDays salesHistory)).

(** What one recipe component adds to the cost of goods: the price of the
    ingredient the mapping holds for it times the quantity, or 0. *)
Definition componentCost (ingredients : list Ingredient.t)
    (component : RecipeComponent.t) : Q :=
  match JsMap.get String.eqb (ingredientsMapOf ingredients)
                  (RecipeComponent.ingredientId component) with
  | Some ingredient =>
      Ingredient.price ingredient * RecipeComponent.quantity component
  | None => 0
  end.

(** The revenue of one calendar day: the sum of [totalRevenue] over the
    records dated that day. *)
Definition dayRevenue (d : Day) (records : list SalesHistoryRecord.t) : Q :=
  Qsum (map SalesHistoryRecord.totalRevenue
            (filter (fun r => (SalesHistoryRecord.date r =? d)%Z) records)).

(** The [W] calendar days ending today. *)
Definition inWindow (now : Instant) (W : nat) (d : Day) : bool :=
  ((isoDay now - Z.of_nat W <? d) && (d <=? isoDay now))%Z.





(** Some recipe component references the ingredient. *)
Definition usedInRecipe (recipes : list RecipeRow.t) (id : Id) : Prop :=
  exists r, In r recipes /\ RecipeRow.ingredientId r = id.

(** The hook holds what the store holds: the state after a successful
    [loadAllData] with no other writer. *)
Definition inSync (w : World.t) : Prop :=
  HookState.snapshot (World.hook w) = World.db w.

(** The store answers the next request. *)
Definition storeAnswers (w : World.t) : Prop :=
  hd false (World.faults w) = false.

(** No request to the store fails. *)
Definition storeAvailable (w : World.t) : Prop := World.faults w = [].

(** Running a callback of the current render on a world. *)
Definition run {A} (callback : HookState.t -> Async A) (w : World.t)
  : outcome A * World.t :=
  callback (World.hook w) w.

(** The stock invariant: no ingredient has a negative stock level. *)
Definition stockNonneg (s : Snapshot.t) : Prop :=
  Forall (fun i => 0 <= Ingredient.stockLevel i) (Snapshot.allIngredients s).

(** The stock level the store holds for an ingredient id. *)
Definition stockOf (s : Snapshot.t) (id : Id) : option Q :=
  option_map Ingredient.stockLevel
             (Hook.findIngredient id (Snapshot.allIngredients s)).

(** [id] is the primary key of [ingredients]. *)
Definition uniqueIngredientIds (s : Snapshot.t) : Prop :=
  NoDup (map Ingredient.id (Snapshot.allIngredients s)).

(** Units of a menu item in a batch of daily sales: [sales[id] || 0]. *)
Definition soldCountOf (sales : JsMap.t (K := Id) (V := Q)) (m : MenuItem.t) : Q :=
  Js.opt_or_else (JsMap.get String.eqb sales (MenuItem.id m)) 0.

(** What selling [q] units of a recipe takes of an ingredient:
    [component.quantity * q], over the components for that ingredient. *)
Definition recipeConsumption (id : Id) (q : Q) (recipe : list RecipeComponent.t) : Q :=
  Qsum (map (fun c => RecipeComponent.quantity c * q)
            (filter (fun c => String.eqb (RecipeComponent.ingredientId c) id) recipe)).

(** What a batch of daily sales takes of an ingredient. *)
Definition consumption (sales : JsMap.t (K := Id) (V := Q))
    (menuItems : list MenuItem.t) (id : Id) : Q :=
  Qsum (map (fun m => if Js.gt (soldCountOf sales m) 0
                      then recipeConsumption id (soldCountOf sales m) (MenuItem.recipe m)
                      else 0)
            menuItems).

(** Some menu item sold in the batch has the ingredient in its recipe. *)
Definition consumed (sales : JsMap.t (K := Id) (V := Q))
    (menuItems : list MenuItem.t) (id : Id) : Prop :=
  exists m c, In m menuItems /\ 0 < soldCountOf sales m
              /\ In c (MenuItem.recipe m)
              /\ RecipeComponent.ingredientId c = id.

(** The quantity of an ingredient on an order. *)
Definition orderedQuantity (order : PendingOrder.t) (id : Id) : Q :=
  Qsum (map OrderItem.quantityToOrder
            (filter (fun item => String.eqb (OrderItem.ingredientId item) id)
                    (PendingOrder.items order))).

Definition orderedNonneg (orders : list PendingOrder.t) : Prop :=
  forall o item, In o orders -> In item (PendingOrder.items o) ->
                 0 <= OrderItem.quantityToOrder item.

(** An asynchronous computation that keeps the stock invariant of the
    store, whether it returns or throws. *)
Definition keepsStockNonneg {A} (m : Async A) : Prop :=
  forall w, stockNonneg (World.db w) -> stockNonneg (World.db (snd (m w))).

(** The value a map of numbers holds for a key, 0 without the key. *)
Definition valueOr0 (m : JsMap.t (K := Id) (V := Q)) (k : Id) : Q :=
  match JsMap.get String.eqb m k with Some v => v | None => 0 end.

(** The loop that writes the stock levels computed from a map of
    quantities: the ingredient is looked up in [src], the level written is
    [level ingredient quantity]. *)
Definition writeLevels (src : list Ingredient.t) (level : Ingredient.t -> Q -> Q)
    (entry : Id * Q) : Async unit :=
  match Hook.findIngredient (fst entry) src with
  | Some ingredient =>
      DatabaseService.updateIngredient (fst entry) (level ingredient (snd entry))
  | None => ret tt
  end.

(** What that loop makes of one row of the store. *)
Definition writtenRow (src : list Ingredient.t) (level : Ingredient.t -> Q -> Q)
    (quantities : JsMap.t (K := Id) (V := Q)) (row : Ingredient.t) : Ingredient.t :=
  match JsMap.get String.eqb quantities (Ingredient.id row) with
  | Some v =>
      match Hook.findIngredient (Ingredient.id row) src with
      | Some ingredient => Ingredient.withStockLevel row (level ingredient v)
      | None => row
      end
  | None => row
  end.

(** The map of quantities that the first loop of [processDailySales]
    builds, and the sales records it sends to the store, when no request
    fails. *)
Definition consumptionMap (currentOutletIngredients : list Ingredient.t)
    (sales : JsMap.t (K := Id) (V := Q)) (menuItems : list MenuItem.t)
    (acc : JsMap.t (K := Id) (V := Q)) : JsMap.t (K := Id) (V := Q) :=
  fold_left
    (fun acc m =>
       if Js.gt (soldCountOf sales m) 0
       then fold_left (Hook.consumeStep currentOutletIngredients (soldCountOf sales m))
                      (MenuItem.recipe m) acc
       else acc)
    menuItems acc.

Definition newSalesRecords (today : Day) (outletId : Id)
    (sales : JsMap.t (K := Id) (V := Q)) (menuItems : list MenuItem.t)
  : list SalesHistoryRecord.t :=
  flat_map
    (fun m =>
       if Js.gt (soldCountOf sales m) 0
       then [SalesHistoryRecord.mk today (MenuItem.id m) (soldCountOf sales m)
               (soldCountOf sales m * MenuItem.sellingPrice m) outletId]
       else [])
    menuItems.

(** The ingredient id is known to the list searched. *)
Definition found (id : Id) (l : list Ingredient.t) : Prop :=
  Hook.findIngredient id l <> None.

(** The day count of a clock reading, rounded up: the cutoff of a period
    depends on the clock through it alone. *)
Definition clockDay (now : Instant) : Z := (- ((- now) / msPerDay))%Z.

(** The [W] calendar days before the [W] days ending today. *)
Definition inComparisonWindow (now : Instant) (W : nat) (d : Day) : bool :=
  ((isoDay now - 2 * Z.of_nat W <? d) && (d <=? isoDay now - Z.of_nat W))%Z.

(** The waste cost of an ingredient over the last 30 days. *)
Definition wasteCostOf (now : Instant) (wasteHistory : list WasteRecord.t)
    (id : Id) : Q :=
  Qsum (map WasteRecord.cost
            (filter (fun w => String.eqb (WasteRecord.ingredientId w) id)
                    (filter (fun w => keptSince now 30 (WasteRecord.date w))
                            wasteHistory))).

(** The stock level the outlet holds of an ingredient, 0 for an
    ingredient it does not hold. *)
Definition availableStock (ingredients : list Ingredient.t) (id : Id) : Q :=
  match Hook.findIngredient id ingredients with
  | Some i => Ingredient.stockLevel i
  | None => 0
  end.

(** The batch of sales takes more of the ingredient of a recipe component
    than the outlet holds. *)
Definition shortComponent (st : HookState.t) (sales : JsMap.t (K := Id) (V := Q))
    (c : RecipeComponent.t) : Prop :=
  availableStock (Hook.ingredients st) (RecipeComponent.ingredientId c)
  < consumption sales (Hook.menuItems st) (RecipeComponent.ingredientId c).

(** Every recipe component of a menu item sold in the batch names an
    ingredient of the outlet. *)
Definition soldFromOutlet (st : HookState.t) (sales : JsMap.t (K := Id) (V := Q))
  : Prop :=
  forall m c, In m (Hook.menuItems st) -> 0 < soldCountOf sales m ->
              In c (MenuItem.recipe m) ->
              found (RecipeComponent.ingredientId c) (Hook.ingredients st).

(** The units of a menu item in a list of sales records. *)
Definition unitsSold (m : MenuItem.t) (sales : list SalesHistoryRecord.t) : Q :=
  Qsum (map SalesHistoryRecord.quantitySold
            (filter (fun s => String.eqb (SalesHistoryRecord.menuItemId s)
                                         (MenuItem.id m)) sales)).

(** What an operational cost comes to per day: a monthly amount counts
    for a thirtieth. *)
Definition dailyAmount (cost : OperationalCost.t) : Q :=
  match OperationalCost.interval cost with
  | monthly => OperationalCost.amount cost / 30
  | daily => OperationalCost.amount cost
  end.

(** What makes [deleteOutlet] refuse: the outlet is the only one, it is
    the current one, or the hook's state holds an ingredient, a sales
    record or an operational cost of it. *)
Definition outletInUse (st : HookState.t) (id : Id) : Prop :=
  (List.length (Snapshot.outlets (HookState.snapshot st)) <= 1)%nat
  \/ id = HookState.currentOutletId st
  \/ (exists i, In i (Snapshot.allIngredients (HookState.snapshot st))
                /\ Ingredient.outletId i = id)
  \/ (exists s, In s (Snapshot.allSalesHistory (HookState.snapshot st))
                /\ SalesHistoryRecord.outletId s = id)
  \/ (exists c, In c (Snapshot.allOperationalCosts (HookState.snapshot st))
                /\ OperationalCost.outletId c = id).

(** The foreign key of [sales_history] to [menu_items]: the menu item of
    every sales record exists. *)
Definition salesKnown (s : Snapshot.t) : Prop :=
  forall r, In r (Snapshot.allSalesHistory s) ->
            exists m, In m (Snapshot.menuItemsData s)
                      /\ MenuItemData.id m = SalesHistoryRecord.menuItemId r.

(** What a stock mutation may do to the store: add sales records and
    waste records, change stock levels, delete pending orders.  The other
    tables, the set of ingredients and every other column of an
    ingredient are what they were. *)
Definition stockFrame (s s' : Snapshot.t) : Prop :=
  Snapshot.outlets s' = Snapshot.outlets s
  /\ Snapshot.menuItemsData s' = Snapshot.menuItemsData s
  /\ Snapshot.recipes s' = Snapshot.recipes s
  /\ Snapshot.allOperationalCosts s' = Snapshot.allOperationalCosts s
  /\ Snapshot.activeCampaign s' = Snapshot.activeCampaign s
  /\ map (fun i => Ingredient.withStockLevel i 0) (Snapshot.allIngredients s')
     = map (fun i => Ingredient.withStockLevel i 0) (Snapshot.allIngredients s)
  /\ (exists added,
        Snapshot.allSalesHistory s' = Snapshot.allSalesHistory s ++ added)
  /\ (exists added,
        Snapshot.allWasteHistory s' = Snapshot.allWasteHistory s ++ added)
  /\ (forall o, In o (Snapshot.allPendingOrders s') ->
                In o (Snapshot.allPendingOrders s)).

(** The pending orders are what they were. *)
Definition samePendingOrders (s s' : Snapshot.t) : Prop :=
  Snapshot.allPendingOrders s' = Snapshot.allPendingOrders s.

(** A computation that only writes to the store: it leaves the state of
    the hook alone, and the store it leaves is related to the one it
    found, whether it returns or throws. *)
Definition writesOnly (R : Snapshot.t -> Snapshot.t -> Prop) {A} (m : Async A)
  : Prop :=
  forall w, World.hook (snd (m w)) = World.hook w
            /\ R (World.db w) (World.db (snd (m w))).

(** A computation that always returns and does not write to the store. *)
Definition readsOnly {A} (m : Async A) : Prop :=
  forall w, exists a w', m w = (Returned a, w') /\ World.db w' = World.db w.

(** The revenue of a menu item in a list of sales records. *)
Definition revenueSold (m : MenuItem.t) (sales : list SalesHistoryRecord.t) : Q :=
  Qsum (map SalesHistoryRecord.totalRevenue
            (filter (fun s => String.eqb (SalesHistoryRecord.menuItemId s)
                                         (MenuItem.id m)) sales)).

(** A list of performance items ranks the menu items by a metric: it
    shows the first three (all, of fewer) of an arrangement of the menu
    items in which no item is [better] than one before it, each with its
    metric. *)
Definition ranked (better : Q -> Q -> Prop) (metric : MenuItem.t -> Q)
    (menuItems : list MenuItem.t) (l : list PerformanceItem.t) : Prop :=
  exists top rest,
    Permutation menuItems (top ++ rest)
    /\ List.length top = Nat.min 3 (List.length menuItems)
    /\ Forall2 (fun e m => PerformanceItem.id e = MenuItem.id m
                           /\ PerformanceItem.name e = MenuItem.name m
                           /\ PerformanceItem.imageUrl e = MenuItem.imageUrl m
                           /\ PerformanceItem.metric e == metric m)
               l top
    /\ StronglySorted (fun a b => better (metric a) (metric b)) top
    /\ forall a b, In a top -> In b rest -> better (metric a) (metric b).

(** The store after the first two requests of [updateMenuItem] with a
    recipe: the row of the menu item updated, its recipe rows deleted. *)
Definition menuItemCleared (db : Snapshot.t) (id : Id) (menuItem : MenuItemUpdate.t)
  : Snapshot.t :=
  DatabaseService.withRecipes
    (DatabaseService.withMenuItemsData db
       (map (fun row => if String.eqb (MenuItemData.id row) id
                        then DatabaseService.updateMenuItemRow menuItem row else row)
            (Snapshot.menuItemsData db)))
    (filter (fun r => negb (String.eqb (RecipeRow.menuItemId r) id))
            (Snapshot.recipes db)).

(** The recipe rows of a menu item. *)
Definition recipeRowsOf (id : Id) (recipe : list RecipeComponent.t) : list RecipeRow.t :=
  map (fun r => RecipeRow.mk id (RecipeComponent.ingredientId r)
                             (RecipeComponent.quantity r)) recipe.

(** All the fields of a menu item, as an update. *)
Definition fieldsOf (item : MenuItemData.t) : MenuItemUpdate.t :=
  MenuItemUpdate.mk (Some (MenuItemData.name item)) (Some (MenuItemData.imageUrl item))
                    (Some (MenuItemData.sellingPrice item))
                    (Some (MenuItemData.targetMargin item)).



(** The reading of the specification in which no stock mutation leaves a
    negative stock level, for the update of one stock level. *)
Definition stockUpdateKeepsNonneg (w : World.t) (id : Id) (newStock : Q) : Prop :=
  stockNonneg (World.db w) ->
  stockNonneg
    (World.db (snd (run (fun st => Hook.updateIngredientStock st id newStock) w))).

(** The reading of the specification in which a sale of [q] units of a
    menu item takes [component.quantity * q] from the stock of each
    ingredient of its recipe, whichever outlet holds it. *)
Definition saleTakesFromEveryRecipeIngredient (w : World.t) (now : Instant)
    (m : MenuItem.t) (q : Q) : Prop :=
  forall c i,
    In c (MenuItem.recipe m) ->
    In i (Snapshot.allIngredients (World.db w)) ->
    Ingredient.id i = RecipeComponent.ingredientId c ->
    exists s,
      stockOf
        (World.db
           (snd (run (fun st => Hook.processDailySales st now [(MenuItem.id m, q)]) w)))
        (Ingredient.id i)
      = Some s
      /\ s == Js.max 0 (Ingredient.stockLevel i - RecipeComponent.quantity c * q).



(** * Properties *)

(** ** Comparisons *)

Lemma gt_iff (a b : Q) : Js.gt a b = true <-> b < a.
Proof.
  unfold Js.gt. rewrite Qgt_alt. destruct (a ?= b); split; congruence.
Qed.

Lemma lt_iff (a b : Q) : Js.lt a b = true <-> a < b.
Proof.
  unfold Js.lt. rewrite Qlt_alt. destruct (a ?= b); split; congruence.
Qed.

Lemma ge_iff (a b : Q) : Js.ge a b = true <-> b <= a.
Proof.
  unfold Js.ge. destruct (a ?= b) eqn:E; split; intros H;
    try reflexivity; try discriminate.
  - apply Qeq_alt in E. rewrite E. apply Qle_refl.
  - apply Qlt_alt in E. apply Qle_not_lt in H. contradiction.
  - apply Qgt_alt in E. now apply Qlt_le_weak.
Qed.

Lemma le_iff (a b : Q) : Js.le a b = true <-> a <= b.
Proof.
  unfold Js.le. rewrite Qle_alt. destruct (a ?= b); split; congruence.
Qed.

Lemma gt_false_iff (a b : Q) : Js.gt a b = false <-> a <= b.
Proof.
  rewrite <- le_iff. unfold Js.gt, Js.le. destruct (a ?= b); split; congruence.
Qed.

Lemma lt_false_iff (a b : Q) : Js.lt a b = false <-> b <= a.
Proof.
  rewrite <- ge_iff. unfold Js.lt, Js.ge. destruct (a ?= b); split; congruence.
Qed.

Lemma ge_false_iff (a b : Q) : Js.ge a b = false <-> a < b.
Proof.
  rewrite <- lt_iff. unfold Js.lt, Js.ge. destruct (a ?= b); split; congruence.
Qed.

Lemma truthy_iff (a : Q) : Js.truthy a = true <-> ~ a == 0.
Proof.
  unfold Js.truthy. rewrite negb_true_iff, <- Qeq_bool_iff.
  destruct (Qeq_bool a 0); split; congruence.
Qed.

Lemma max_nonneg (x : Q) : 0 <= Js.max 0 x.
Proof. apply Q.le_max_l. Qed.

(** ** Sums *)

Lemma fold_sum_shift {A} (f : A -> Q) (l : list A) (a : Q) :
  fold_left (fun s x => s + f x) l a == a + fold_left (fun s x => s + f x) l 0.
Proof.
  revert a. induction l as [|x l IH]; intros a; simpl.
  - ring.
  - rewrite (IH (a + f x)), (IH (0 + f x)). ring.
Qed.

Lemma Qsum_nil : Qsum [] = 0.
Proof. reflexivity. Qed.

Lemma Qsum_shift (l : list Q) (a : Q) : fold_left Qplus l a == a + Qsum l.
Proof.
  unfold Qsum. revert a. induction l as [|x l IH]; intros a; simpl.
  - ring.
  - rewrite (IH (a + x)), (IH (0 + x)). ring.
Qed.

Lemma Qsum_cons (x : Q) (l : list Q) : Qsum (x :: l) == x + Qsum l.
Proof.
  unfold Qsum at 1. simpl. rewrite Qsum_shift. ring.
Qed.

Lemma Qsum_app (l1 l2 : list Q) : Qsum (l1 ++ l2) == Qsum l1 + Qsum l2.
Proof.
  induction l1 as [|x l1 IH]; simpl.
  - rewrite Qsum_nil. ring.
  - rewrite !Qsum_cons, IH. ring.
Qed.

Lemma fold_sum_map {A} (f : A -> Q) (l : list A) :
  fold_left (fun s x => s + f x) l 0 == Qsum (map f l).
Proof.
  induction l as [|x l IH]; simpl.
  - reflexivity.
  - rewrite Qsum_cons, fold_sum_shift, IH. ring.
Qed.

Lemma Qsum_map_ext {A} (f g : A -> Q) (l : list A) :
  (forall x, In x l -> f x == g x) -> Qsum (map f l) == Qsum (map g l).
Proof.
  induction l as [|x l IH]; intros H; simpl.
  - reflexivity.
  - rewrite !Qsum_cons, IH, (H x).
    + reflexivity.
    + now left.
    + intros y Hy. apply H. now right.
Qed.

Lemma Qsum_map_plus {A} (f g : A -> Q) (l : list A) :
  Qsum (map (fun x => f x + g x) l) == Qsum (map f l) + Qsum (map g l).
Proof.
  induction l as [|x l IH]; simpl.
  - rewrite Qsum_nil. ring.
  - rewrite !Qsum_cons, IH. ring.
Qed.

Lemma Qsum_map_zero {A} (l : list A) : Qsum (map (fun _ => 0) l) == 0.
Proof.
  induction l as [|x l IH]; simpl.
  - reflexivity.
  - rewrite Qsum_cons, IH. ring.
Qed.

(** ** Insertion-ordered maps *)

Section JsMapFacts.
Context {K V : Type} (eqb : K -> K -> bool).
Hypothesis eqb_spec : forall x y, reflect (x = y) (eqb x y).

Lemma get_set (m : JsMap.t) (k k' : K) (v : V) :
  JsMap.get eqb (JsMap.set eqb m k v) k'
  = if eqb k k' then Some v else JsMap.get eqb m k'.
Proof.
  induction m as [|[a x] m IH]; simpl.
  - reflexivity.
  - destruct (eqb_spec a k) as [->|Hak]; simpl.
    + destruct (eqb_spec k k'); reflexivity.
    + rewrite IH. destruct (eqb_spec a k') as [->|Hak'].
      * destruct (eqb_spec k k'); congruence.
      * reflexivity.
Qed.

Lemma keys_set_present (m : JsMap.t) (k : K) (v : V) :
  In k (JsMap.keys (V := V) m) -> JsMap.keys (JsMap.set eqb m k v) = JsMap.keys m.
Proof.
  unfold JsMap.keys.
  induction m as [|[a x] m IH]; simpl; intros H.
  - contradiction.
  - destruct (eqb_spec a k) as [->|Hak]; simpl.
    + reflexivity.
    + f_equal. apply IH. destruct H; congruence.
Qed.

Lemma keys_set_absent (m : JsMap.t) (k : K) (v : V) :
  ~ In k (JsMap.keys (V := V) m) ->
  JsMap.keys (JsMap.set eqb m k v) = JsMap.keys m ++ [k].
Proof.
  unfold JsMap.keys.
  induction m as [|[a x] m IH]; simpl; intros H.
  - reflexivity.
  - destruct (eqb_spec a k) as [->|Hak]; simpl.
    + exfalso. apply H. now left.
    + f_equal. apply IH. intros Hin. apply H. now right.
Qed.

Lemma get_None_iff (m : JsMap.t) (k : K) :
  JsMap.get eqb m k = None <-> ~ In k (JsMap.keys (V := V) m).
Proof.
  unfold JsMap.keys.
  induction m as [|[a x] m IH]; simpl.
  - tauto.
  - destruct (eqb_spec a k) as [->|Hak].
    + split; [discriminate | intros H; exfalso; apply H; now left].
    + rewrite IH. split; intros H.
      * intros [E|Hin]; [congruence | contradiction].
      * intros Hin. apply H. now right.
Qed.

Lemma get_In (m : JsMap.t) (k : K) (v : V) :
  JsMap.get eqb m k = Some v -> In (k, v) m.
Proof.
  induction m as [|[a x] m IH]; simpl.
  - discriminate.
  - destruct (eqb_spec a k) as [->|Hak].
    + intros E. injection E as ->. now left.
    + intros E. right. now apply IH.
Qed.

Lemma In_get (m : JsMap.t) (k : K) (v : V) :
  NoDup (JsMap.keys m) -> In (k, v) m -> JsMap.get eqb m k = Some v.
Proof.
  unfold JsMap.keys.
  induction m as [|[a x] m IH]; simpl; intros ND Hin.
  - contradiction.
  - inversion ND as [|? ? Hnot ND']; subst.
    destruct Hin as [E|Hin].
    + injection E as -> ->. destruct (eqb_spec k k); congruence.
    + destruct (eqb_spec a k) as [->|Hak].
      * exfalso. apply Hnot. change k with (fst (k, v)). now apply in_map.
      * now apply IH.
Qed.

Lemma keys_NoDup_set (m : JsMap.t) (k : K) (v : V) :
  NoDup (JsMap.keys (V := V) m) -> NoDup (JsMap.keys (JsMap.set eqb m k v)).
Proof.
  unfold JsMap.keys.
  induction m as [|[a x] m IH]; simpl; intros ND.
  - constructor; [tauto | constructor].
  - inversion ND as [|? ? Hnot ND']; subst.
    destruct (eqb_spec a k) as [->|Hak]; simpl.
    + constructor; assumption.
    + constructor.
      * destruct (in_dec (fun x y => reflect_dec _ _ (eqb_spec x y)) k (map fst m))
          as [Hin|Hout].
        -- fold (JsMap.keys (JsMap.set eqb m k v)).
           rewrite keys_set_present by exact Hin. exact Hnot.
        -- fold (JsMap.keys (JsMap.set eqb m k v)).
           rewrite keys_set_absent by exact Hout.
           intros Hin. apply in_app_or in Hin. destruct Hin as [Hin|[E|[]]];
             [contradiction | congruence].
      * now apply IH.
Qed.

(** The values of a map are the values of its keys, in order. *)
Lemma values_by_get (m : JsMap.t) (d : V) :
  NoDup (JsMap.keys m) ->
  JsMap.values m
  = map (fun k => match JsMap.get eqb m k with Some v => v | None => d end)
        (JsMap.keys m).
Proof.
  unfold JsMap.values, JsMap.keys.
  induction m as [|[a x] m IH]; simpl; intros ND.
  - reflexivity.
  - inversion ND as [|? ? Hnot ND']; subst.
    destruct (eqb_spec a a); [|congruence].
    f_equal. rewrite (IH ND'). apply map_ext_in.
    intros k Hk. destruct (eqb_spec a k) as [->|]; [contradiction | reflexivity].
Qed.

(** [new Map(entries)]: of two entries with one key the later one stays. *)
Lemma of_entries_snoc (es : list (K * V)) (e : K * V) :
  JsMap.of_entries eqb (es ++ [e])
  = JsMap.set eqb (JsMap.of_entries eqb es) (fst e) (snd e).
Proof. unfold JsMap.of_entries. now rewrite fold_left_app. Qed.

Lemma get_of_entries (es : list (K * V)) (k : K) :
  JsMap.get eqb (JsMap.of_entries eqb es) k
  = option_map snd (find (fun e => eqb (fst e) k) (rev es)).
Proof.
  induction es as [|e es IH] using rev_ind.
  - reflexivity.
  - rewrite of_entries_snoc, get_set, rev_app_distr. simpl.
    destruct (eqb (fst e) k); [reflexivity | exact IH].
Qed.

Lemma get_of_entries_None (es : list (K * V)) (k : K) :
  JsMap.get eqb (JsMap.of_entries eqb es) k = None
  <-> forall e, In e es -> fst e <> k.
Proof.
  rewrite get_of_entries. split.
  - intros H e He Hk.
    destruct (find (fun e => eqb (fst e) k) (rev es)) eqn:F; [discriminate|].
    assert (eqb (fst e) k = false) as N
      by (apply (find_none _ _ F e); now apply in_rev in He).
    destruct (eqb_spec (fst e) k); congruence.
  - intros H. destruct (find (fun e => eqb (fst e) k) (rev es)) eqn:F; [|reflexivity].
    apply find_some in F. destruct F as [Hin Hk].
    apply in_rev in Hin. destruct (eqb_spec (fst p) k); [|discriminate].
    exfalso. now apply (H p).
Qed.

Lemma get_of_entries_Some (es : list (K * V)) (k : K) (v : V) :
  JsMap.get eqb (JsMap.of_entries eqb es) k = Some v -> In (k, v) es.
Proof.
  rewrite get_of_entries.
  destruct (find (fun e => eqb (fst e) k) (rev es)) as [[k' v']|] eqn:F;
    [|discriminate].
  simpl. intros E. injection E as ->.
  apply find_some in F. destruct F as [Hin Hk]. simpl in Hk.
  destruct (eqb_spec k' k); [subst | discriminate]. now apply in_rev.
Qed.

Lemma get_of_entries_unique (es : list (K * V)) (k : K) (v : V) :
  NoDup (map fst es) -> In (k, v) es ->
  JsMap.get eqb (JsMap.of_entries eqb es) k = Some v.
Proof.
  intros ND Hin.
  destruct (JsMap.get eqb (JsMap.of_entries eqb es) k) as [v'|] eqn:G.
  - apply get_of_entries_Some in G. f_equal.
    clear - ND Hin G. induction es as [|[a x] es IH]; simpl in *; [contradiction|].
    inversion ND as [|? ? Hnot ND']; subst.
    destruct Hin as [E|Hin], G as [E'|G].
    + congruence.
    + injection E as -> ->. exfalso. apply Hnot.
      change k with (fst (k, v')). now apply in_map.
    + injection E' as -> ->. exfalso. apply Hnot.
      change k with (fst (k, v)). now apply in_map.
    + now apply IH.
  - exfalso. rewrite get_of_entries_None in G. now apply (G (k, v)).
Qed.
End JsMapFacts.

Lemma string_eqb_spec (x y : string) : reflect (x = y) (String.eqb x y).
Proof. apply String.eqb_spec. Qed.

Lemma Z_eqb_spec (x y : Z) : reflect (x = y) (Z.eqb x y).
Proof. apply Z.eqb_spec. Qed.

(** ** Profit and loss *)

Lemma menuItemsMap_known (menuItems : list MenuItem.t) (sale : SalesHistoryRecord.t) :
  JsMap.get String.eqb
    (JsMap.of_entries String.eqb (map (fun item => (MenuItem.id item, item)) menuItems))
    (SalesHistoryRecord.menuItemId sale) = None
  <-> knownMenuItem menuItems sale = false.
Proof.
  rewrite (get_of_entries_None _ string_eqb_spec). unfold knownMenuItem.
  split.
  - intros H. apply not_true_is_false. intros E.
    apply existsb_exists in E. destruct E as [m [Hin Hm]].
    apply String.eqb_eq in Hm.
    apply (H (MenuItem.id m, m)); [|exact Hm].
    apply in_map_iff. now exists m.
  - intros H e He Hk. apply in_map_iff in He. destruct He as [m [<- Hin]].
    simpl in Hk. assert (existsb
      (fun m => String.eqb (MenuItem.id m) (SalesHistoryRecord.menuItemId sale))
      menuItems = true) as E; [|congruence].
    apply existsb_exists. exists m. split; [exact Hin | now apply String.eqb_eq].
Qed.

(** Sales whose menu item is missing leave the running totals as they are. *)
Lemma profitLossStep_known_only (menuItems : list MenuItem.t)
    (sales : list SalesHistoryRecord.t) (acc : Q * Q) :
  let menuItemsMap :=
    JsMap.of_entries String.eqb (map (fun item => (MenuItem.id item, item)) menuItems) in
  fold_left (profitLossStep menuItemsMap) sales acc
  = fold_left (profitLossStep menuItemsMap) (filter (knownMenuItem menuItems) sales) acc.
Proof.
  intros menuItemsMap. revert acc.
  induction sales as [|s sales IH]; intros acc; simpl.
  - reflexivity.
  - destruct (knownMenuItem menuItems s) eqn:Kn; simpl.
    + apply IH.
    + apply menuItemsMap_known in Kn. unfold profitLossStep at 2.
      fold menuItemsMap in Kn. rewrite Kn. apply IH.
Qed.

Lemma profitLossStep_revenue (menuItems : list MenuItem.t)
    (sales : list SalesHistoryRecord.t) (acc : Q * Q) :
  let menuItemsMap :=
    JsMap.of_entries String.eqb (map (fun item => (MenuItem.id item, item)) menuItems) in
  (forall s, In s sales -> knownMenuItem menuItems s = true) ->
  fst (fold_left (profitLossStep menuItemsMap) sales acc)
  == fst acc + Qsum (map SalesHistoryRecord.totalRevenue sales).
Proof.
  intros menuItemsMap. revert acc.
  induction sales as [|s sales IH]; intros acc Hk; simpl.
  - rewrite Qsum_nil. ring.
  - rewrite IH by (intros; apply Hk; now right).
    rewrite Qsum_cons. unfold profitLossStep.
    destruct (JsMap.get String.eqb menuItemsMap (SalesHistoryRecord.menuItemId s))
      eqn:G; simpl.
    + ring.
    + apply menuItemsMap_known in G. rewrite (Hk s) in G; [discriminate | now left].
Qed.

Lemma filter_comm {A} (f g : A -> bool) (l : list A) :
  filter f (filter g l) = filter g (filter f l).
Proof.
  induction l as [|x l IH]; simpl; [reflexivity|].
  destruct (f x) eqn:F, (g x) eqn:G; simpl; rewrite ?F, ?G, IH; reflexivity.
Qed.

(** C1 (as amended).  In the statement of a period, [totalRevenue] is the
    sum of [sale.totalRevenue] over the kept sales whose menu item still
    exists.  A kept sale whose menu item is missing is skipped as a whole:
    the statement is the one computed from the history without such sales,
    so the sale adds neither revenue nor cost of goods. *)
Theorem profitLoss_revenue_of_known_items
    (now : Instant) (periodDays : Z) (salesHistory : list SalesHistoryRecord.t)
    (menuItems : list MenuItem.t) (operationalCosts : list OperationalCost.t)
    (wasteHistory : list WasteRecord.t) :
  let statement :=
    calculateProfitLoss now periodDays salesHistory menuItems operationalCosts
                        wasteHistory in
  ProfitLossStats.totalRevenue statement
  == Qsum (map SalesHistoryRecord.totalRevenue
               (filter (knownMenuItem menuItems)
                       (keptSales now periodDays salesHistory)))
  /\ calculateProfitLoss now periodDays
       (filter (knownMenuItem menuItems) salesHistory) menuItems operationalCosts
       wasteHistory
     = statement.
Proof.
  simpl. split.
  - unfold calculateProfitLoss. simpl.
    rewrite profitLossStep_known_only.
    rewrite profitLossStep_revenue.
    + simpl. unfold keptSales, keptSince. ring.
    + intros s Hs. apply filter_In in Hs. tauto.
  - unfold calculateProfitLoss.
    rewrite (filter_comm _ (knownMenuItem menuItems)).
    rewrite <- profitLossStep_known_only. reflexivity.
Qed.

(** C1, as the claim words it, fails: one sale of revenue 100 dated today,
    whose menu item is no longer in the menu, is kept by a 30-day period and
    yet the statement's revenue is 0. *)
Lemma profitLoss_revenue_skips_orphan_sale :
  ~ revenueCountsEveryKeptSale (20000 * msPerDay) 30
      [SalesHistoryRecord.mk 20000 "deleted-item" 1 100 "outlet-1"] [] [] [].
Proof.
  unfold revenueCountsEveryKeptSale. vm_compute. discriminate.
Qed.

Lemma keptSince_clockDay (now : Instant) (days : Z) (d : Day) :
  keptSince now days d = (clockDay now <=? d + days)%Z.
Proof.
  unfold keptSince, onOrAfter, minusDays, dateOf, clockDay.
  assert (0 < msPerDay)%Z as Hpos by (unfold msPerDay; lia).
  pose proof (Z.mod_pos_bound (- now) msPerDay Hpos) as Hmod.
  pose proof (Z.div_mod (- now) msPerDay ltac:(lia)) as Hdiv.
  apply eq_true_iff_eq. rewrite !Z.leb_le. nia.
Qed.

(** Two clock readings with one [clockDay] give one statement. *)
Lemma calculateProfitLoss_clock (now1 now2 : Instant) (periodDays : Z)
    (salesHistory : list SalesHistoryRecord.t) (menuItems : list MenuItem.t)
    (operationalCosts : list OperationalCost.t)
    (wasteHistory : list WasteRecord.t) :
  clockDay now1 = clockDay now2 ->
  calculateProfitLoss now1 periodDays salesHistory menuItems operationalCosts
                      wasteHistory
  = calculateProfitLoss now2 periodDays salesHistory menuItems operationalCosts
                        wasteHistory.
Proof.
  intros E. unfold calculateProfitLoss.
  rewrite (filter_ext
             (fun r => onOrAfter (minusDays now1 periodDays) (SalesHistoryRecord.date r))
             (fun r => onOrAfter (minusDays now2 periodDays) (SalesHistoryRecord.date r)))
    by (intros r; change (keptSince now1 periodDays (SalesHistoryRecord.date r)
                          = keptSince now2 periodDays (SalesHistoryRecord.date r));
        now rewrite !keptSince_clockDay, E).
  rewrite (filter_ext
             (fun r => onOrAfter (minusDays now1 periodDays) (WasteRecord.date r))
             (fun r => onOrAfter (minusDays now2 periodDays) (WasteRecord.date r)))
    by (intros r; change (keptSince now1 periodDays (WasteRecord.date r)
                          = keptSince now2 periodDays (WasteRecord.date r));
        now rewrite !keptSince_clockDay, E).
  reflexivity.
Qed.

(** C10.  For one state of the hook, the net profit of the dashboard
    statistics is the net profit of the profit and loss statement: both
    come from [calculateProfitLoss] on the same arguments, and the two
    readings of the clock, taken within one day count, select the same
    records. *)
Theorem dashboard_netProfit_is_statement_netProfit
    (st : HookState.t) (now1 now2 : Instant)
    (same_day : clockDay now1 = clockDay now2) :
  DashboardStats.netProfit (Hook.dashboardStats st now1)
  = ProfitLossStats.netProfit (Hook.profitLossStats st now2).
Proof.
  unfold Hook.dashboardStats, dashboardStats, Hook.profitLossStats.
  cbn [DashboardStats.netProfit].
  now rewrite (calculateProfitLoss_clock now1 now2).
Qed.

Lemma dashboard_netProfit_is_statement_netProfit_witness :
  let cake := MenuItemData.mk "m1" "Cake" "" 400 50 [] in
  let db := Snapshot.mk [Outlet.mk "outlet-1" "Main"]
              [Ingredient.mk "i1" "Flour" "kg" 20 None 5 2 "outlet-1"]
              [cake] [RecipeRow.mk "m1" "i1" 3]
              [SalesHistoryRecord.mk 19999 "m1" 2 800 "outlet-1"]
              [OperationalCost.mk "c1" "Rent" 300 monthly "outlet-1"]
              [] [] None in
  let st := HookState.mk db "outlet-1" 30 in
  DashboardStats.netProfit (Hook.dashboardStats st (20000 * msPerDay + 5000))
  = ProfitLossStats.netProfit (Hook.profitLossStats st (20000 * msPerDay + 5007))
  /\ ProfitLossStats.netProfit (Hook.profitLossStats st (20000 * msPerDay + 5007))
     == 380.
Proof.
  intros cake db st. split.
  - apply dashboard_netProfit_is_statement_netProfit. reflexivity.
  - vm_compute. reflexivity.
Defined.

(** ** Recipe costing *)

Lemma menuItems_In (ingredients : list Ingredient.t)
    (menuItemsData : list MenuItemData.t) (recipes : list RecipeRow.t)
    (m : MenuItem.t) :
  In m (menuItems ingredients menuItemsData recipes) ->
  exists item, In item menuItemsData
               /\ m = costMenuItem (ingredientsMapOf ingredients) recipes item.
Proof.
  unfold menuItems. intros H. apply in_map_iff in H.
  destruct H as [item [<- Hin]]. now exists item.
Qed.

Lemma cogs_fold (ingredients : list Ingredient.t) (recipe : list RecipeComponent.t) :
  fold_left (cogsStep (ingredientsMapOf ingredients)) recipe 0
  == Qsum (map (componentCost ingredients) recipe).
Proof.
  rewrite <- fold_sum_map. reflexivity.
Qed.

Lemma ingredientsMap_absent (ingredients : list Ingredient.t) (id : Id) :
  (forall i, In i ingredients -> Ingredient.id i <> id) ->
  JsMap.get String.eqb (ingredientsMapOf ingredients) id = None.
Proof.
  intros H. unfold ingredientsMapOf.
  apply (get_of_entries_None _ string_eqb_spec).
  intros e He. apply in_map_iff in He. destruct He as [i [<- Hi]]. simpl.
  now apply H.
Qed.

Lemma ingredientsMap_present (ingredients : list Ingredient.t) (i : Ingredient.t) :
  NoDup (map Ingredient.id ingredients) -> In i ingredients ->
  JsMap.get String.eqb (ingredientsMapOf ingredients) (Ingredient.id i) = Some i.
Proof.
  intros ND Hi. unfold ingredientsMapOf.
  apply (get_of_entries_unique _ string_eqb_spec).
  - rewrite map_map. exact ND.
  - apply in_map_iff. now exists i.
Qed.

(** C2.  The cost of goods of a menu item is the sum over its recipe of
    what each component adds: nothing for an ingredient that is not among
    the ingredients, price times quantity for the ingredient with that id.
    The margin is [(sellingPrice - cogs) / sellingPrice * 100] for a
    positive selling price and 0 otherwise; an empty recipe costs 0 and
    gives a margin of 100 at a positive selling price. *)
Theorem menuItem_cogs_and_margin
    (ingredients : list Ingredient.t) (menuItemsData : list MenuItemData.t)
    (recipes : list RecipeRow.t) (m : MenuItem.t)
    (costed : In m (menuItems ingredients menuItemsData recipes)) :
  MenuItem.cogs m == Qsum (map (componentCost ingredients) (MenuItem.recipe m))
  /\ (forall c, In c (MenuItem.recipe m) ->
        (forall i, In i ingredients ->
                   Ingredient.id i <> RecipeComponent.ingredientId c) ->
        componentCost ingredients c = 0)
  /\ (forall c i, In c (MenuItem.recipe m) ->
        NoDup (map Ingredient.id ingredients) -> In i ingredients ->
        Ingredient.id i = RecipeComponent.ingredientId c ->
        componentCost ingredients c
        = Ingredient.price i * RecipeComponent.quantity c)
  /\ (0 < MenuItem.sellingPrice m ->
      MenuItem.actualMargin m
      == (MenuItem.sellingPrice m - MenuItem.cogs m) / MenuItem.sellingPrice m * 100)
  /\ (MenuItem.sellingPrice m <= 0 -> MenuItem.actualMargin m == 0)
  /\ (MenuItem.recipe m = [] ->
      MenuItem.cogs m == 0
      /\ (0 < MenuItem.sellingPrice m -> MenuItem.actualMargin m == 100)).
Proof.
  apply menuItems_In in costed. destruct costed as [item [_ ->]].
  unfold costMenuItem. simpl.
  set (recipe := map _ (filter _ recipes)).
  refine (conj _ (conj _ (conj _ (conj _ (conj _ _))))).
  - apply cogs_fold.
  - intros c _ Habsent. unfold componentCost.
    now rewrite ingredientsMap_absent.
  - intros c i _ ND Hi E. unfold componentCost.
    rewrite <- E, ingredientsMap_present by assumption. reflexivity.
  - intros Hpos. apply gt_iff in Hpos. rewrite Hpos. reflexivity.
  - intros Hneg. apply gt_false_iff in Hneg. rewrite Hneg. reflexivity.
  - intros ->. simpl. split; [reflexivity|].
    intros Hpos. apply gt_iff in Hpos as G. rewrite G.
    field. intros Z. rewrite Z in Hpos. now apply Qlt_irrefl in Hpos.
Qed.

Lemma menuItem_cogs_and_margin_witness :
  let ingredients := [Ingredient.mk "i1" "Flour" "kg" 20 None 5 2 "outlet-1"] in
  let rows := [RecipeRow.mk "m1" "i1" 3; RecipeRow.mk "m1" "i9" 7;
               RecipeRow.mk "m2" "i1" 1] in
  let item := MenuItemData.mk "m1" "Cake" "" 400 50 [] in
  let m := costMenuItem (ingredientsMapOf ingredients) rows item in
  In m (menuItems ingredients [item] rows)
  /\ MenuItem.cogs m == 60
  /\ MenuItem.actualMargin m == 85.
Proof.
  intros ingredients rows item m.
  assert (In m (menuItems ingredients [item] rows)) as Hin by (left; reflexivity).
  split; [exact Hin|].
  destruct (menuItem_cogs_and_margin _ _ _ _ Hin) as [Hcogs [_ [_ [Hmargin _]]]].
  split.
  - rewrite Hcogs. vm_compute. reflexivity.
  - rewrite Hmargin; vm_compute; reflexivity.
Defined.

Lemma classifyMargin_spec (actualMargin targetMargin : Q) :
  let diff := actualMargin - targetMargin in
  (0 <= diff -> classifyMargin actualMargin targetMargin = Safe)
  /\ (-10 <= diff -> diff < 0 -> classifyMargin actualMargin targetMargin = Warning)
  /\ (diff < -10 -> classifyMargin actualMargin targetMargin = Danger).
Proof.
  intros diff. unfold classifyMargin. fold diff.
  destruct (Js.lt diff 0) eqn:L0, (Js.ge diff (-10)) eqn:G10,
           (Js.lt diff (-10)) eqn:L10; simpl;
    try apply lt_iff in L0; try apply lt_false_iff in L0;
    try apply ge_iff in G10; try apply ge_false_iff in G10;
    try apply lt_iff in L10;
    try apply lt_false_iff in L10;
    refine (conj _ (conj _ _)); intros; try reflexivity; try lra.
Qed.

(** C3.  With [diff = actualMargin - targetMargin], the status of a menu
    item is Safe for [diff >= 0], Warning for [-10 <= diff < 0] and Danger
    for [diff < -10]; so a margin on target is Safe, one 10 points under
    it is Warning and one 10.01 points under it is Danger. *)
Theorem marginStatus_classification
    (ingredients : list Ingredient.t) (menuItemsData : list MenuItemData.t)
    (recipes : list RecipeRow.t) (m : MenuItem.t)
    (costed : In m (menuItems ingredients menuItemsData recipes)) :
  let diff := MenuItem.actualMargin m - MenuItem.targetMargin m in
  (0 <= diff -> MenuItem.marginStatus m = Safe)
  /\ (-10 <= diff -> diff < 0 -> MenuItem.marginStatus m = Warning)
  /\ (diff < -10 -> MenuItem.marginStatus m = Danger)
  /\ (MenuItem.actualMargin m == MenuItem.targetMargin m ->
      MenuItem.marginStatus m = Safe)
  /\ (MenuItem.actualMargin m == MenuItem.targetMargin m - 10 ->
      MenuItem.marginStatus m = Warning)
  /\ (MenuItem.actualMargin m == MenuItem.targetMargin m - (1001 # 100) ->
      MenuItem.marginStatus m = Danger).
Proof.
  apply menuItems_In in costed. destruct costed as [item [_ ->]].
  unfold costMenuItem. simpl.
  set (actualMargin := if Js.gt _ 0 then _ else 0).
  destruct (classifyMargin_spec actualMargin (MenuItemData.targetMargin item))
    as [HS [HW HD]].
  refine (conj HS (conj HW (conj HD (conj _ (conj _ _))))); intros E.
  - apply HS. lra.
  - apply HW; lra.
  - apply HD. lra.
Qed.

Lemma marginStatus_classification_witness :
  let ingredients := [Ingredient.mk "i1" "Flour" "kg" 50 None 5 2 "outlet-1"] in
  let rows := [RecipeRow.mk "m1" "i1" 1; RecipeRow.mk "m2" "i1" 1;
               RecipeRow.mk "m3" "i1" 1] in
  let onTarget := MenuItemData.mk "m1" "Cake" "" 100 50 [] in
  let tenUnder := MenuItemData.mk "m2" "Pie" "" 100 60 [] in
  let justBelow := MenuItemData.mk "m3" "Tart" "" 100 (6001 # 100) [] in
  let costed := costMenuItem (ingredientsMapOf ingredients) rows in
  MenuItem.marginStatus (costed onTarget) = Safe
  /\ MenuItem.marginStatus (costed tenUnder) = Warning
  /\ MenuItem.marginStatus (costed justBelow) = Danger.
Proof.
  intros ingredients rows onTarget tenUnder justBelow costed.
  assert (forall item, In item [onTarget; tenUnder; justBelow] ->
            In (costed item)
               (menuItems ingredients [onTarget; tenUnder; justBelow] rows)) as Hin.
  { intros item H. unfold menuItems. now apply in_map. }
  refine (conj _ (conj _ _)).
  - destruct (marginStatus_classification _ _ _ _ (Hin onTarget (or_introl eq_refl)))
      as [_ [_ [_ [H _]]]].
    apply H. vm_compute. reflexivity.
  - destruct (marginStatus_classification _ _ _ _
                (Hin tenUnder (or_intror (or_introl eq_refl))))
      as [_ [_ [_ [_ [H _]]]]].
    apply H. vm_compute. reflexivity.
  - destruct (marginStatus_classification _ _ _ _
                (Hin justBelow (or_intror (or_intror (or_introl eq_refl)))))
      as [_ [_ [_ [_ [_ H]]]]].
    apply H. vm_compute. reflexivity.
Defined.

(** ** The daily revenue series *)

(** Without a clock change, [setDate] moves an instant by whole days of
    [msPerDay]. *)
Lemma setDateBack_steady (zone : Zone.t) (t : Instant) (n : Z) :
  Zone.steady zone -> setDateBack zone t n = minusDays t n.
Proof.
  intros [offset [Hat Hlocal]].
  unfold setDateBack, utcOfLocal, localTime, minusDays.
  rewrite Hat, Hlocal. lia.
Qed.

Lemma steady_fixed (offset : Z) : Zone.steady (Zone.fixed offset).
Proof. exists offset. split; intros; reflexivity. Qed.

Lemma isoDay_minusDays (now : Instant) (i : Z) :
  isoDay (minusDays now i) = (isoDay now - i)%Z.
Proof.
  unfold isoDay, minusDays.
  replace (now - i * msPerDay)%Z with (now + (- i) * msPerDay)%Z by lia.
  rewrite Z.div_add by (unfold msPerDay; lia). lia.
Qed.

Lemma set_absent {V} (m : JsMap.t (K := Z) (V := V)) (k : Z) (v : V) :
  ~ In k (JsMap.keys m) -> JsMap.set Z.eqb m k v = m ++ [(k, v)].
Proof.
  unfold JsMap.keys. induction m as [|[a x] m IH]; simpl; intros H.
  - reflexivity.
  - destruct (Z.eqb_spec a k) as [->|Hak].
    + exfalso. apply H. now left.
    + f_equal. apply IH. intros Hin. apply H. now right.
Qed.

(** The first loop of [chartData] lays out one zero entry per day, in the
    order of the loop. *)
Lemma chartInit_fold (zone : Zone.t) (now : Instant) (steps : list Z)
    (ls : list Day) :
  NoDup (ls ++ map (fun i => isoDay (setDateBack zone now i)) steps) ->
  fold_left (chartInitStep zone now) steps (map (fun d => (d, 0)) ls, ls)
  = (map (fun d => (d, 0))
         (ls ++ map (fun i => isoDay (setDateBack zone now i)) steps),
     ls ++ map (fun i => isoDay (setDateBack zone now i)) steps).
Proof.
  revert ls. induction steps as [|i steps IH]; intros ls ND; simpl.
  - now rewrite app_nil_r.
  - unfold chartInitStep at 2. simpl.
    rewrite set_absent.
    + change [(isoDay (setDateBack zone now i), 0)]
        with (map (fun d : Day => (d, 0)) [isoDay (setDateBack zone now i)]).
      rewrite <- map_app.
      rewrite IH; rewrite <- app_assoc; simpl; [reflexivity | exact ND].
    + unfold JsMap.keys. rewrite map_map. simpl. rewrite map_id.
      apply NoDup_remove_2 in ND. intros Hin. apply ND.
      apply in_or_app. now left.
Qed.

Lemma countdown_days (zone : Zone.t) (now : Instant) (W : nat) :
  Zone.steady zone ->
  map (fun i => isoDay (setDateBack zone now i)) (countdown (Z.of_nat W))
  = map (fun k => (isoDay now - Z.of_nat k)%Z) (rev (seq 0 W)).
Proof.
  intros steady. unfold countdown. rewrite Nat2Z.id, map_map.
  apply map_ext. intros k. rewrite (setDateBack_steady _ _ _ steady).
  apply isoDay_minusDays.
Qed.

Lemma window_days_NoDup (today : Day) (W : nat) :
  NoDup (map (fun k => (today - Z.of_nat k)%Z) (rev (seq 0 W))).
Proof.
  apply Injective_map_NoDup.
  - intros x y E. lia.
  - apply NoDup_rev, seq_NoDup.
Qed.

Lemma window_days_In (now : Instant) (W : nat) (d : Day) :
  In d (map (fun k => (isoDay now - Z.of_nat k)%Z) (rev (seq 0 W)))
  <-> inWindow now W d = true.
Proof.
  unfold inWindow. rewrite andb_true_iff, Z.ltb_lt, Z.leb_le, in_map_iff.
  split.
  - intros [k [<- Hk]]. apply in_rev, in_seq in Hk. lia.
  - intros [Hlo Hhi]. exists (Z.to_nat (isoDay now - d)). split; [lia|].
    apply in_rev. rewrite rev_involutive. apply in_seq. lia.
Qed.


(** The second loop of [chartData] keeps the days and adds to each day the
    revenue of the records dated that day. *)
Lemma chartAdd_keys (records : list SalesHistoryRecord.t)
    (data : JsMap.t (K := Day) (V := Q)) :
  JsMap.keys (fold_left chartAddStep records data) = JsMap.keys data.
Proof.
  revert data. induction records as [|r records IH]; intros data; simpl.
  - reflexivity.
  - rewrite IH. unfold chartAddStep.
    destruct (JsMap.get Z.eqb data (SalesHistoryRecord.date r)) as [v|] eqn:G.
    + apply (keys_set_present _ Z_eqb_spec).
      apply (get_In _ Z_eqb_spec) in G. unfold JsMap.keys.
      change (SalesHistoryRecord.date r) with (fst (SalesHistoryRecord.date r, v)).
      now apply in_map.
    + reflexivity.
Qed.

Lemma chartAdd_get (records : list SalesHistoryRecord.t)
    (data : JsMap.t (K := Day) (V := Q)) (d : Day) (v0 : Q) :
  JsMap.get Z.eqb data d = Some v0 ->
  exists v, JsMap.get Z.eqb (fold_left chartAddStep records data) d = Some v
            /\ v == v0 + dayRevenue d records.
Proof.
  unfold dayRevenue.
  revert data v0. induction records as [|r records IH]; intros data v0 G; simpl.
  - exists v0. split; [exact G | rewrite Qsum_nil; ring].
  - unfold chartAddStep at 2.
    destruct (JsMap.get Z.eqb data (SalesHistoryRecord.date r)) as [x|] eqn:Gr.
    + destruct (Z.eqb_spec (SalesHistoryRecord.date r) d) as [E|N].
      * rewrite E in Gr. assert (x = v0) as -> by congruence.
        destruct (IH (JsMap.set Z.eqb data (SalesHistoryRecord.date r)
                        (v0 + SalesHistoryRecord.totalRevenue r))
                     (v0 + SalesHistoryRecord.totalRevenue r)) as [v [Hv Ev]].
        { rewrite (get_set _ Z_eqb_spec), E, Z.eqb_refl. reflexivity. }
        exists v. split; [exact Hv|]. simpl. rewrite Qsum_cons, Ev. ring.
      * destruct (IH (JsMap.set Z.eqb data (SalesHistoryRecord.date r)
                        (x + SalesHistoryRecord.totalRevenue r)) v0) as [v [Hv Ev]].
        { rewrite (get_set _ Z_eqb_spec).
          destruct (Z.eqb_spec (SalesHistoryRecord.date r) d); [contradiction|].
          exact G. }
        exists v. split; [exact Hv | exact Ev].
    + destruct (Z.eqb_spec (SalesHistoryRecord.date r) d) as [E|N].
      * rewrite E in Gr. congruence.
      * apply IH. exact G.
Qed.

Lemma zero_entries_get (days : list Day) (d : Day) :
  In d days -> JsMap.get Z.eqb (map (fun d => (d, 0)) days) d = Some 0.
Proof.
  induction days as [|a days IH]; simpl; intros H.
  - contradiction.
  - destruct (Z.eqb_spec a d) as [->|N]; [reflexivity|].
    apply IH. destruct H; congruence.
Qed.

(** A day of the window is on or after the cutoff of the period, so the
    records dated that day are all in [salesHistoryForRange]. *)
Lemma window_day_kept (before now : Instant) (W : nat) (d : Day) :
  (before <= now)%Z ->
  inWindow now W d = true ->
  onOrAfter (minusDays before (Z.of_nat W)) d = true.
Proof.
  unfold inWindow, onOrAfter, minusDays, dateOf, isoDay. intros Hle.
  rewrite andb_true_iff, Z.ltb_lt, Z.leb_le, Z.leb_le. intros [Hlo _].
  assert (0 < msPerDay)%Z as Hpos by (unfold msPerDay; lia).
  pose proof (Z.mod_pos_bound now msPerDay Hpos) as Hmod.
  pose proof (Z.div_mod now msPerDay ltac:(lia)) as Hdiv.
  nia.
Qed.

Lemma dayRevenue_in_range (before now : Instant) (W : nat) (d : Day)
    (salesHistory : list SalesHistoryRecord.t) :
  (before <= now)%Z ->
  inWindow now W d = true ->
  dayRevenue d (salesHistoryForRange before (Z.of_nat W) salesHistory)
  = dayRevenue d salesHistory.
Proof.
  intros Hle Hd. unfold dayRevenue, salesHistoryForRange. f_equal. f_equal.
  induction salesHistory as [|r l IH]; simpl; [reflexivity|].
  destruct (Z.eqb_spec (SalesHistoryRecord.date r) d) as [E|N].
  - rewrite E, (window_day_kept _ _ _ _ Hle Hd). simpl.
    rewrite E, Z.eqb_refl, IH. reflexivity.
  - destruct (onOrAfter _ (SalesHistoryRecord.date r)); simpl; [|exact IH].
    destruct (Z.eqb_spec (SalesHistoryRecord.date r) d); [contradiction | exact IH].
Qed.

Lemma indicator_sum (days : list Day) (d : Day) (x : Q) :
  NoDup days ->
  Qsum (map (fun d' => if (d =? d')%Z then x else 0) days)
  == if existsb (Z.eqb d) days then x else 0.
Proof.
  induction days as [|a days IH]; intros ND; simpl.
  - reflexivity.
  - inversion ND as [|? ? Hnot ND']; subst. rewrite Qsum_cons, (IH ND').
    destruct (Z.eqb_spec d a) as [->|N]; simpl; [|ring].
    destruct (existsb (Z.eqb a) days) eqn:E; [|ring].
    apply existsb_exists in E. destruct E as [y [Hy Ey]].
    apply Z.eqb_eq in Ey. subst. contradiction.
Qed.

Lemma dayRevenue_cons (d : Day) (r : SalesHistoryRecord.t)
    (l : list SalesHistoryRecord.t) :
  dayRevenue d (r :: l)
  == (if (SalesHistoryRecord.date r =? d)%Z
      then SalesHistoryRecord.totalRevenue r else 0)
     + dayRevenue d l.
Proof.
  unfold dayRevenue. simpl.
  destruct (SalesHistoryRecord.date r =? d)%Z; simpl.
  - apply Qsum_cons.
  - ring.
Qed.

Lemma series_sum (days : list Day) (salesHistory : list SalesHistoryRecord.t) :
  NoDup days ->
  Qsum (map (fun d => dayRevenue d salesHistory) days)
  == Qsum (map SalesHistoryRecord.totalRevenue
               (filter (fun r => existsb (Z.eqb (SalesHistoryRecord.date r)) days)
                       salesHistory)).
Proof.
  intros ND. induction salesHistory as [|r l IH]; simpl.
  - unfold dayRevenue. simpl. apply Qsum_map_zero.
  - rewrite (Qsum_map_ext _
              (fun d => (if (SalesHistoryRecord.date r =? d)%Z
                         then SalesHistoryRecord.totalRevenue r else 0)
                        + dayRevenue d l))
      by (intros; apply dayRevenue_cons).
    rewrite Qsum_map_plus, IH, (indicator_sum _ _ _ ND).
    destruct (existsb (Z.eqb (SalesHistoryRecord.date r)) days); simpl.
    + rewrite Qsum_cons. ring.
    + ring.
Qed.

Lemma existsb_window (now : Instant) (W : nat) (d : Day) :
  existsb (Z.eqb d) (map (fun k => (isoDay now - Z.of_nat k)%Z) (rev (seq 0 W)))
  = inWindow now W d.
Proof.
  apply eq_true_iff_eq. rewrite <- window_days_In, existsb_exists. split.
  - intros [x [Hx E]]. apply Z.eqb_eq in E. now subst.
  - intros H. exists d. split; [exact H | apply Z.eqb_refl].
Qed.




(** ** Price-spike alerts *)










(** ** Campaign performance *)







(** ** Deleting an ingredient *)

Lemma usedInRecipe_iff (recipes : list RecipeRow.t) (id : Id) :
  existsb (fun r => String.eqb (RecipeRow.ingredientId r) id) recipes = true
  <-> usedInRecipe recipes id.
Proof.
  unfold usedInRecipe. rewrite existsb_exists.
  split; intros [r [Hr E]]; exists r; split; try exact Hr; now apply String.eqb_eq.
Qed.

Lemma filter_all {A} (f : A -> bool) (l : list A) :
  (forall x, In x l -> f x = true) -> filter f l = l.
Proof.
  induction l as [|x l IH]; intros H; simpl; [reflexivity|].
  rewrite (H x) by now left. f_equal. apply IH. intros y Hy. apply H. now right.
Qed.

(** C8.  When a recipe component of the hook's state references the
    ingredient, [deleteIngredient] returns [{success: false, message}]
    without a request to the store: store, state and pending failures are
    what they were.  When none does and the store answers the request, the
    ingredient's rows are deleted, every other ingredient stays, and the
    result is [{success: true}]; the recipes of a store in step with the
    hook are untouched. *)
Theorem deleteIngredient_guard (w : World.t) (id : Id) :
  let recipes := Snapshot.recipes (HookState.snapshot (World.hook w)) in
  (usedInRecipe recipes id ->
   exists message,
     run (fun st => Hook.deleteIngredient st id) w
     = (Returned (Hook.DeleteResult.mk false (Some message)), w))
  /\ (~ usedInRecipe recipes id -> storeAnswers w ->
      exists w',
        run (fun st => Hook.deleteIngredient st id) w
        = (Returned (Hook.DeleteResult.mk true None), w')
        /\ (forall i, In i (Snapshot.allIngredients (World.db w'))
                      <-> In i (Snapshot.allIngredients (World.db w))
                          /\ Ingredient.id i <> id)
        /\ (inSync w ->
            Snapshot.recipes (World.db w') = Snapshot.recipes (World.db w))).
Proof.
  intros recipes. unfold run, Hook.deleteIngredient. fold recipes. split.
  - intros Hused. apply usedInRecipe_iff in Hused. rewrite Hused.
    eexists. reflexivity.
  - intros Hfree Hanswer.
    destruct (existsb _ recipes) eqn:E;
      [apply usedInRecipe_iff in E; contradiction|].
    unfold bind, DatabaseService.deleteIngredient, storeWrite.
    unfold storeAnswers in Hanswer.
    assert (forall db' fs,
              exists w', (let (o, w1) := loadAllData
                                           (HookState.currentOutletId (World.hook w))
                                           (World.mk db' (World.hook w) fs) in
                          match o with
                          | Returned _ => ret (Hook.DeleteResult.mk true None) w1
                          | Thrown => (Thrown, w1)
                          end)
                         = (Returned (Hook.DeleteResult.mk true None), w')
                         /\ World.db w' = db') as Hload.
    { intros db' fs. unfold loadAllData. cbn [World.db World.hook World.faults].
      destruct (existsb _ (firstn 11 fs)); eexists; split; reflexivity. }
    destruct (World.faults w) as [|[] fs] eqn:F; simpl in Hanswer;
      try discriminate;
      match goal with
      | |- context [loadAllData _ (World.mk ?d _ ?f)] =>
          destruct (Hload d f) as [w' [Hrun Hdb]]
      end;
      exists w'; (split; [exact Hrun|]); rewrite Hdb; simpl;
      (split;
       [ intros i; rewrite filter_In; unfold DatabaseService.hasId;
         rewrite negb_true_iff;
         destruct (String.eqb_spec (Ingredient.id i) id);
         split; intros [? ?]; split; congruence
       | intros Hsync; unfold inSync in Hsync; unfold recipes in E;
         rewrite Hsync in E; apply filter_all; intros r Hr;
         apply negb_true_iff;
         destruct (String.eqb (RecipeRow.ingredientId r) id) eqn:Er;
         [|reflexivity];
         assert (existsb (fun r0 => String.eqb (RecipeRow.ingredientId r0) id)
                         (Snapshot.recipes (World.db w)) = true) as X
           by (apply existsb_exists; now exists r);
         congruence ]).
Qed.

Lemma deleteIngredient_guard_witness :
  let flour := Ingredient.mk "i1" "Flour" "kg" 20 None 5 2 "outlet-1" in
  let salt := Ingredient.mk "i2" "Salt" "kg" 3 None 1 1 "outlet-1" in
  let db := Snapshot.mk [Outlet.mk "outlet-1" "Main"] [flour; salt]
              [MenuItemData.mk "m1" "Cake" "" 400 50 []]
              [RecipeRow.mk "m1" "i1" 3] [] [] [] [] None in
  let w := World.mk db (HookState.mk db "outlet-1" 30) [false; true] in
  fst (run (fun st => Hook.deleteIngredient st "i1") w)
  = Returned (Hook.DeleteResult.mk false
      (Some "Bahan ini masih digunakan dalam resep. Hapus dari resep terlebih dahulu."%string))
  /\ snd (run (fun st => Hook.deleteIngredient st "i1") w) = w
  /\ fst (run (fun st => Hook.deleteIngredient st "i2") w)
     = Returned (Hook.DeleteResult.mk true None)
  /\ Snapshot.allIngredients
       (World.db (snd (run (fun st => Hook.deleteIngredient st "i2") w)))
     = [flour].
Proof.
  intros flour salt db w.
  destruct (deleteIngredient_guard w "i1") as [Hused _].
  destruct (deleteIngredient_guard w "i2") as [_ Hfree].
  destruct Hused as [message Hrun].
  { exists (RecipeRow.mk "m1" "i1" 3). split; [now left | reflexivity]. }
  destruct Hfree as [w' [Hrun' _]].
  { intros [r [[<-|[]] E]]. discriminate. }
  { reflexivity. }
  rewrite Hrun, Hrun'. simpl.
  refine (conj _ (conj eq_refl (conj eq_refl _))).
  - vm_compute in Hrun. injection Hrun as <-. reflexivity.
  - vm_compute in Hrun'. injection Hrun' as <-. reflexivity.
Defined.

(** ** The stock invariant *)

Lemma keeps_ret {A} (a : A) : keepsStockNonneg (ret a).
Proof. intros w H. exact H. Qed.

Lemma keeps_bind {A B} (m : Async A) (k : A -> Async B) :
  keepsStockNonneg m -> (forall a, keepsStockNonneg (k a)) ->
  keepsStockNonneg (bind m k).
Proof.
  intros Hm Hk w H. unfold bind. specialize (Hm w H).
  destruct (m w) as [[a|] w']; simpl in *.
  - now apply Hk.
  - exact Hm.
Qed.

Lemma keeps_forEachAwait {A} (body : A -> Async unit) (xs : list A) :
  (forall x, In x xs -> keepsStockNonneg (body x)) ->
  keepsStockNonneg (forEachAwait body xs).
Proof.
  induction xs as [|x xs IH]; intros H; simpl.
  - apply keeps_ret.
  - apply keeps_bind.
    + apply H. now left.
    + intros _. apply IH. intros y Hy. apply H. now right.
Qed.

Lemma keeps_foldAwait {A S} (body : S -> A -> Async S) (xs : list A) (s : S) :
  (forall s x, keepsStockNonneg (body s x)) ->
  keepsStockNonneg (foldAwait body xs s).
Proof.
  intros H. revert s. induction xs as [|x xs IH]; intros s; simpl.
  - apply keeps_ret.
  - apply keeps_bind; [apply H | intros s'; apply IH].
Qed.

Lemma keeps_storeWrite (write : Snapshot.t -> option Snapshot.t) :
  (forall db db', write db = Some db' -> stockNonneg db -> stockNonneg db') ->
  keepsStockNonneg (storeWrite write).
Proof.
  intros Hw w H. unfold storeWrite.
  destruct (World.faults w) as [|[] fs]; simpl; try exact H;
    destruct (write (World.db w)) eqn:E; simpl; eauto.
Qed.

Lemma keeps_updateIngredient (id : Id) (stockLevel : Q) :
  0 <= stockLevel ->
  keepsStockNonneg (DatabaseService.updateIngredient id stockLevel).
Proof.
  intros Hs. apply keeps_storeWrite. intros db db' E H.
  destruct (existsb _ _); [|discriminate]. injection E as <-.
  unfold stockNonneg in *. simpl. apply Forall_map.
  apply Forall_impl with (2 := H). intros i Hi.
  destruct (DatabaseService.hasId id i); [exact Hs | exact Hi].
Qed.

Lemma keeps_addSalesRecord (sales : SalesHistoryRecord.t) :
  keepsStockNonneg (DatabaseService.addSalesRecord sales).
Proof.
  apply keeps_storeWrite. intros db db' E H. injection E as <-. exact H.
Qed.

Lemma keeps_addWasteRecord (record : WasteRecord.t) :
  keepsStockNonneg (DatabaseService.addWasteRecord record).
Proof.
  apply keeps_storeWrite. intros db db' E H. injection E as <-. exact H.
Qed.

Lemma keeps_deletePendingOrder (id : Id) :
  keepsStockNonneg (DatabaseService.deletePendingOrder id).
Proof.
  apply keeps_storeWrite. intros db db' E H. injection E as <-. exact H.
Qed.

Lemma keeps_loadAllData (currentOutletId : Id) :
  keepsStockNonneg (loadAllData currentOutletId).
Proof.
  intros w H. unfold loadAllData. destruct (existsb _ _); exact H.
Qed.

Lemma keeps_processDailySales (st : HookState.t) (now : Instant)
    (sales : JsMap.t (K := Id) (V := Q)) :
  keepsStockNonneg (Hook.processDailySales st now sales).
Proof.
  unfold Hook.processDailySales.
  apply keeps_bind.
  - apply keeps_foldAwait. intros acc m.
    destruct (Js.gt _ 0).
    + apply keeps_bind; [apply keeps_addSalesRecord | intros _; apply keeps_ret].
    + apply keeps_ret.
  - intros quantities. apply keeps_bind.
    + apply keeps_forEachAwait. intros entry _. simpl.
      destruct (Hook.findIngredient _ _).
      * apply keeps_updateIngredient, max_nonneg.
      * apply keeps_ret.
    + intros _. apply keeps_bind; [apply keeps_loadAllData | intros _; apply keeps_ret].
Qed.

Lemma keeps_addWasteRecord_callback (st : HookState.t) (record : Hook.WasteInput.t) :
  keepsStockNonneg (Hook.addWasteRecord st record).
Proof.
  unfold Hook.addWasteRecord.
  destruct (Hook.findIngredient _ _); [|apply keeps_ret].
  apply keeps_bind; [apply keeps_addWasteRecord | intros _].
  apply keeps_bind; [apply keeps_updateIngredient, max_nonneg | intros _].
  apply keeps_loadAllData.
Qed.

Lemma or_else_nonneg (v : Q) : 0 <= v -> 0 <= Js.or_else v 0.
Proof. intros H. unfold Js.or_else. destruct (Js.truthy v); [exact H | apply Qle_refl]. Qed.

Lemma set_values_Forall (P : Q -> Prop) (m : JsMap.t (K := Id) (V := Q))
    (k : Id) (v : Q) :
  Forall (fun e => P (snd e)) m -> P v ->
  Forall (fun e => P (snd e)) (JsMap.set String.eqb m k v).
Proof.
  intros Hm Hv. induction m as [|[a x] m IH]; simpl.
  - constructor; [exact Hv | constructor].
  - inversion Hm as [|? ? Ha Hm']; subst.
    destruct (String.eqb a k); constructor; auto.
Qed.

Lemma receiveStep_nonneg (items : list OrderItem.t)
    (acc : JsMap.t (K := Id) (V := Q)) :
  (forall item, In item items -> 0 <= OrderItem.quantityToOrder item) ->
  Forall (fun e => 0 <= snd e) acc ->
  Forall (fun e => 0 <= snd e) (fold_left Hook.receiveStep items acc).
Proof.
  revert acc. induction items as [|item items IH]; intros acc Hq Hacc; simpl.
  - exact Hacc.
  - apply IH; [intros; apply Hq; now right|].
    unfold Hook.receiveStep. apply set_values_Forall; [exact Hacc|].
    assert (0 <= OrderItem.quantityToOrder item) as Hi by (apply Hq; now left).
    assert (0 <= Js.opt_or_else
                   (JsMap.get String.eqb acc (OrderItem.ingredientId item)) 0) as Hv.
    { destruct (JsMap.get String.eqb acc (OrderItem.ingredientId item)) as [v|] eqn:G;
        simpl; [|apply Qle_refl].
      apply or_else_nonneg. apply (get_In _ string_eqb_spec) in G.
      rewrite Forall_forall in Hacc. exact (Hacc _ G). }
    lra.
Qed.

Lemma keeps_receiveStock (st : HookState.t) (orderId : Id) :
  stockNonneg (HookState.snapshot st) ->
  orderedNonneg (Hook.pendingOrders st) ->
  keepsStockNonneg (Hook.receiveStock st orderId).
Proof.
  intros Hsnap Hord. unfold Hook.receiveStock.
  destruct (find _ (Hook.pendingOrders st)) as [order|] eqn:F; [|apply keeps_ret].
  apply find_some in F. destruct F as [Horder _].
  apply keeps_bind.
  - apply keeps_forEachAwait. intros entry Hentry. simpl.
    destruct (Hook.findIngredient _ _) as [ingredient|] eqn:Fi; [|apply keeps_ret].
    apply keeps_updateIngredient.
    apply find_some in Fi. destruct Fi as [Hin _].
    unfold stockNonneg in Hsnap. rewrite Forall_forall in Hsnap.
    specialize (Hsnap _ Hin).
    assert (Forall (fun e : Id * Q => 0 <= snd e)
                   (fold_left Hook.receiveStep (PendingOrder.items order) JsMap.empty))
      as Hvals.
    { apply receiveStep_nonneg; [|constructor].
      intros item Hitem. exact (Hord order item Horder Hitem). }
    rewrite Forall_forall in Hvals. specialize (Hvals _ Hentry). lra.
  - intros _. apply keeps_bind; [apply keeps_deletePendingOrder | intros _].
    apply keeps_loadAllData.
Qed.

(** ** Runs without store failure *)

Lemma storeWrite_available (write : Snapshot.t -> option Snapshot.t)
    (db db' : Snapshot.t) (hook : HookState.t) :
  write db = Some db' ->
  storeWrite write (World.mk db hook []) = (Returned tt, World.mk db' hook []).
Proof. intros E. unfold storeWrite. simpl. now rewrite E. Qed.

Lemma storeWrite_total (f : Snapshot.t -> Snapshot.t)
    (db : Snapshot.t) (hook : HookState.t) :
  storeWrite (fun db => Some (f db)) (World.mk db hook [])
  = (Returned tt, World.mk (f db) hook []).
Proof. reflexivity. Qed.

Lemma loadAllData_available (currentOutletId : Id) (db : Snapshot.t)
    (hook : HookState.t) :
  exists hook',
    loadAllData currentOutletId (World.mk db hook [])
    = (Returned tt, World.mk db hook' [])
    /\ HookState.snapshot hook' = db.
Proof. unfold loadAllData. simpl. eexists. split; reflexivity. Qed.

Lemma withIngredients_same (db : Snapshot.t) :
  Snapshot.withIngredients db (Snapshot.allIngredients db) = db.
Proof. now destruct db. Qed.

Lemma withIngredients_twice (db : Snapshot.t) (l1 l2 : list Ingredient.t) :
  Snapshot.withIngredients (Snapshot.withIngredients db l1) l2
  = Snapshot.withIngredients db l2.
Proof. reflexivity. Qed.

Lemma allIngredients_with (db : Snapshot.t) (l : list Ingredient.t) :
  Snapshot.allIngredients (Snapshot.withIngredients db l) = l.
Proof. reflexivity. Qed.

Lemma withSalesHistory_same (db : Snapshot.t) :
  Snapshot.withSalesHistory db (Snapshot.allSalesHistory db) = db.
Proof. now destruct db. Qed.

Lemma hasId_iff (k : Id) (row : Ingredient.t) :
  DatabaseService.hasId k row = true <-> Ingredient.id row = k.
Proof. unfold DatabaseService.hasId. apply String.eqb_eq. Qed.

Lemma existsb_hasId_map (k : Id) (g : Ingredient.t -> Ingredient.t)
    (l : list Ingredient.t) :
  (forall row, Ingredient.id (g row) = Ingredient.id row) ->
  existsb (DatabaseService.hasId k) (map g l) = existsb (DatabaseService.hasId k) l.
Proof.
  intros Hg. induction l as [|row l IH]; simpl; [reflexivity|].
  rewrite IH. unfold DatabaseService.hasId. now rewrite Hg.
Qed.

Lemma get_head_absent {V} (k k' : Id) (v : V) (m : JsMap.t (K := Id) (V := V)) :
  JsMap.get String.eqb ((k, v) :: m) k'
  = if String.eqb k k' then Some v else JsMap.get String.eqb m k'.
Proof. reflexivity. Qed.

(** The loop of writes turns each row of the store into its written row. *)
Lemma writeLevels_run (src : list Ingredient.t) (level : Ingredient.t -> Q -> Q)
    (quantities : JsMap.t (K := Id) (V := Q)) :
  forall (db : Snapshot.t) (hook : HookState.t),
    NoDup (JsMap.keys quantities) ->
    (forall k, In k (JsMap.keys quantities) -> found k src ->
               existsb (DatabaseService.hasId k) (Snapshot.allIngredients db) = true) ->
    forEachAwait (writeLevels src level) (JsMap.entries quantities)
                 (World.mk db hook [])
    = (Returned tt,
       World.mk (Snapshot.withIngredients db
                   (map (writtenRow src level quantities)
                        (Snapshot.allIngredients db)))
                hook []).
Proof.
  unfold JsMap.entries.
  induction quantities as [|[k v] es IH]; intros db hook ND Hex.
  - simpl. unfold ret. f_equal. f_equal.
    rewrite (map_ext _ (fun row => row)) by reflexivity.
    now rewrite map_id, withIngredients_same.
  - unfold JsMap.keys in ND. simpl in ND.
    inversion ND as [|? ? Hnot ND']; subst.
    assert (JsMap.get String.eqb es k = None) as Gk
      by (now apply (get_None_iff _ string_eqb_spec)).
    cbn [forEachAwait]. unfold bind, writeLevels at 1. cbn [fst snd].
    destruct (Hook.findIngredient k src) as [ing|] eqn:F.
    + assert (existsb (DatabaseService.hasId k) (Snapshot.allIngredients db) = true)
        as Ex.
      { apply Hex; [now left | unfold found; congruence]. }
      unfold DatabaseService.updateIngredient.
      rewrite (storeWrite_available _ db
                 (Snapshot.withIngredients db
                    (map (fun i => if DatabaseService.hasId k i
                                   then Ingredient.withStockLevel i (level ing v)
                                   else i)
                         (Snapshot.allIngredients db))))
        by (now rewrite Ex).
      rewrite IH.
      * f_equal. f_equal.
        rewrite withIngredients_twice, allIngredients_with. f_equal.
        rewrite map_map. apply map_ext. intros row. unfold writtenRow.
        rewrite get_head_absent.
        destruct (DatabaseService.hasId k row) eqn:Hk.
        -- apply hasId_iff in Hk. simpl. rewrite Hk, Gk, String.eqb_refl, F.
           reflexivity.
        -- assert (String.eqb k (Ingredient.id row) = false) as Nk.
           { apply not_true_is_false. intros E. apply String.eqb_eq in E.
             symmetry in E. apply hasId_iff in E. congruence. }
           now rewrite Nk.
      * exact ND'.
      * intros k' Hk' Hf. rewrite allIngredients_with.
        rewrite existsb_hasId_map
          by (intros row; destruct (DatabaseService.hasId k row); reflexivity).
        apply Hex; [now right | exact Hf].
    + unfold ret. rewrite IH.
      * f_equal. f_equal. f_equal. apply map_ext. intros row.
        unfold writtenRow. rewrite get_head_absent.
        destruct (String.eqb_spec k (Ingredient.id row)) as [E|N];
          [|reflexivity].
        rewrite <- E, F, Gk. reflexivity.
      * exact ND'.
      * intros k' Hk' Hf. apply Hex; [now right | exact Hf].
Qed.

Lemma writtenRow_id (src : list Ingredient.t) (level : Ingredient.t -> Q -> Q)
    (quantities : JsMap.t (K := Id) (V := Q)) (row : Ingredient.t) :
  Ingredient.id (writtenRow src level quantities row) = Ingredient.id row.
Proof.
  unfold writtenRow. destruct (JsMap.get _ _ _); [|reflexivity].
  destruct (Hook.findIngredient _ _); reflexivity.
Qed.

Lemma find_map_same_id (k : Id) (g : Ingredient.t -> Ingredient.t)
    (l : list Ingredient.t) :
  (forall row, Ingredient.id (g row) = Ingredient.id row) ->
  Hook.findIngredient k (map g l) = option_map g (Hook.findIngredient k l).
Proof.
  intros Hg. unfold Hook.findIngredient.
  induction l as [|row l IH]; simpl; [reflexivity|].
  rewrite Hg. destruct (String.eqb (Ingredient.id row) k); [reflexivity | exact IH].
Qed.

Lemma find_unique (l : list Ingredient.t) (i : Ingredient.t) :
  NoDup (map Ingredient.id l) -> In i l ->
  Hook.findIngredient (Ingredient.id i) l = Some i.
Proof.
  unfold Hook.findIngredient.
  induction l as [|row l IH]; simpl; intros ND Hin; [contradiction|].
  inversion ND as [|? ? Hnot ND']; subst.
  destruct Hin as [->|Hin].
  - now rewrite String.eqb_refl.
  - destruct (String.eqb_spec (Ingredient.id row) (Ingredient.id i)) as [E|N].
    + exfalso. apply Hnot. rewrite E. now apply in_map.
    + now apply IH.
Qed.

Lemma NoDup_map_filter {A B} (key : A -> B) (f : A -> bool) (l : list A) :
  NoDup (map key l) -> NoDup (map key (filter f l)).
Proof.
  induction l as [|x l IH]; simpl; intros ND; [constructor|].
  inversion ND as [|? ? Hnot ND']; subst.
  destruct (f x); simpl; [|now apply IH].
  constructor; [|now apply IH].
  intros Hin. apply Hnot. apply in_map_iff in Hin.
  destruct Hin as [y [E Hy]]. apply filter_In in Hy.
  rewrite <- E. apply in_map. tauto.
Qed.

(** ** Maps of accumulated quantities *)

Lemma or_else_zero (v : Q) : Js.or_else v 0 == v.
Proof.
  unfold Js.or_else. destruct (Js.truthy v) eqn:T; [reflexivity|].
  unfold Js.truthy in T. apply negb_false_iff, Qeq_bool_iff in T.
  now symmetry.
Qed.

Lemma opt_or_else_value (m : JsMap.t (K := Id) (V := Q)) (k : Id) :
  Js.opt_or_else (JsMap.get String.eqb m k) 0 == valueOr0 m k.
Proof.
  unfold valueOr0, Js.opt_or_else.
  destruct (JsMap.get String.eqb m k); [apply or_else_zero | reflexivity].
Qed.

Lemma accumulate_value (m : JsMap.t (K := Id) (V := Q)) (k k' : Id) (x : Q) :
  valueOr0 (JsMap.set String.eqb m k
              (Js.opt_or_else (JsMap.get String.eqb m k) 0 + x)) k'
  == valueOr0 m k' + (if String.eqb k k' then x else 0).
Proof.
  unfold valueOr0 at 1. rewrite (get_set _ string_eqb_spec).
  destruct (String.eqb_spec k k') as [<-|N].
  - rewrite opt_or_else_value. reflexivity.
  - fold (valueOr0 m k'). ring.
Qed.

Lemma accumulate_absent (m : JsMap.t (K := Id) (V := Q)) (k k' : Id) (v : Q) :
  JsMap.get String.eqb (JsMap.set String.eqb m k v) k' = None
  <-> JsMap.get String.eqb m k' = None /\ k <> k'.
Proof.
  rewrite (get_set _ string_eqb_spec).
  destruct (String.eqb_spec k k');
    [split; [discriminate | intros [_ N]; contradiction] | tauto].
Qed.

Lemma findIngredient_id (k : Id) (l : list Ingredient.t) (i : Ingredient.t) :
  Hook.findIngredient k l = Some i -> In i l /\ Ingredient.id i = k.
Proof.
  unfold Hook.findIngredient. intros F. apply find_some in F.
  destruct F as [Hin E]. apply String.eqb_eq in E. now split.
Qed.

Lemma recipeConsumption_cons (k : Id) (q : Q) (c : RecipeComponent.t)
    (recipe : list RecipeComponent.t) :
  recipeConsumption k q (c :: recipe)
  == (if String.eqb (RecipeComponent.ingredientId c) k
      then RecipeComponent.quantity c * q else 0)
     + recipeConsumption k q recipe.
Proof.
  unfold recipeConsumption. simpl.
  destruct (String.eqb (RecipeComponent.ingredientId c) k); simpl.
  - apply Qsum_cons.
  - ring.
Qed.

Section Consumption.
Variable ings : list Ingredient.t.

Lemma consumeStep_value (q : Q) (recipe : list RecipeComponent.t) :
  forall (acc : JsMap.t (K := Id) (V := Q)) (k : Id),
    valueOr0 (fold_left (Hook.consumeStep ings q) recipe acc) k
    == valueOr0 acc k
       + match Hook.findIngredient k ings with
         | Some _ => recipeConsumption k q recipe
         | None => 0
         end.
Proof.
  induction recipe as [|c recipe IH]; intros acc k; simpl.
  - unfold recipeConsumption. simpl. rewrite Qsum_nil.
    destruct (Hook.findIngredient k ings); ring.
  - rewrite IH. unfold Hook.consumeStep.
    destruct (Hook.findIngredient (RecipeComponent.ingredientId c) ings)
      as [oi|] eqn:F.
    + apply findIngredient_id in F as Hoi. destruct Hoi as [_ Eid].
      rewrite accumulate_value, Eid.
      destruct (String.eqb_spec (RecipeComponent.ingredientId c) k) as [E|N].
      * rewrite <- E, F, recipeConsumption_cons, String.eqb_refl. ring.
      * destruct (Hook.findIngredient k ings); [|ring].
        rewrite recipeConsumption_cons.
        destruct (String.eqb_spec (RecipeComponent.ingredientId c) k);
          [contradiction | ring].
    + destruct (Hook.findIngredient k ings) eqn:Fk; [|ring].
      rewrite recipeConsumption_cons.
      destruct (String.eqb_spec (RecipeComponent.ingredientId c) k) as [E|N];
        [|ring].
      rewrite E in F. congruence.
Qed.

Lemma consumeStep_absent (q : Q) (recipe : list RecipeComponent.t) :
  forall (acc : JsMap.t (K := Id) (V := Q)) (k : Id),
    JsMap.get String.eqb (fold_left (Hook.consumeStep ings q) recipe acc) k = None
    <-> JsMap.get String.eqb acc k = None
        /\ (found k ings ->
            forall c, In c recipe -> RecipeComponent.ingredientId c <> k).
Proof.
  unfold found.
  induction recipe as [|c recipe IH]; intros acc k; simpl.
  - intuition.
  - rewrite IH. unfold Hook.consumeStep at 1.
    destruct (Hook.findIngredient (RecipeComponent.ingredientId c) ings)
      as [oi|] eqn:F.
    + apply findIngredient_id in F as Hoi. destruct Hoi as [_ Eid].
      rewrite accumulate_absent, Eid. split.
      * intros [[G N] H]. split; [exact G|].
        intros Hf c' [<-|Hc']; [exact N | now apply H].
      * intros [G H]. split; [split; [exact G|] |].
        -- intros E. rewrite <- E in H. apply (H ltac:(congruence) c); [now left | reflexivity].
        -- intros Hf c' Hc'. apply H; [exact Hf | now right].
    + split.
      * intros [G H]. split; [exact G|].
        intros Hf c' [<-|Hc']; [|now apply H].
        intros E. rewrite E in F. contradiction.
      * intros [G H]. split; [exact G|].
        intros Hf c' Hc'. apply H; [exact Hf | now right].
Qed.

Lemma consumeStep_keys (q : Q) (recipe : list RecipeComponent.t) :
  forall acc : JsMap.t (K := Id) (V := Q),
    NoDup (JsMap.keys acc) ->
    NoDup (JsMap.keys (fold_left (Hook.consumeStep ings q) recipe acc)).
Proof.
  induction recipe as [|c recipe IH]; intros acc ND; simpl; [exact ND|].
  apply IH. unfold Hook.consumeStep.
  destruct (Hook.findIngredient _ ings); [|exact ND].
  now apply (keys_NoDup_set _ string_eqb_spec).
Qed.

Variable sales : JsMap.t (K := Id) (V := Q).

Lemma consumption_cons (m : MenuItem.t) (menuItems : list MenuItem.t) (k : Id) :
  consumption sales (m :: menuItems) k
  == (if Js.gt (soldCountOf sales m) 0
      then recipeConsumption k (soldCountOf sales m) (MenuItem.recipe m)
      else 0)
     + consumption sales menuItems k.
Proof. unfold consumption. cbn [map]. apply Qsum_cons. Qed.

Lemma consumptionMap_value (menuItems : list MenuItem.t) :
  forall (acc : JsMap.t (K := Id) (V := Q)) (k : Id),
    valueOr0 (consumptionMap ings sales menuItems acc) k
    == valueOr0 acc k
       + match Hook.findIngredient k ings with
         | Some _ => consumption sales menuItems k
         | None => 0
         end.
Proof.
  unfold consumptionMap.
  induction menuItems as [|m menuItems IH]; intros acc k; cbn [fold_left].
  - unfold consumption. cbn [map]. rewrite Qsum_nil.
    destruct (Hook.findIngredient k ings); ring.
  - rewrite IH.
    destruct (Hook.findIngredient k ings) eqn:F.
    + rewrite consumption_cons.
      destruct (Js.gt (soldCountOf sales m) 0); [|ring].
      rewrite consumeStep_value, F. ring.
    + destruct (Js.gt (soldCountOf sales m) 0); [|ring].
      rewrite consumeStep_value, F. ring.
Qed.

Lemma consumptionMap_absent (menuItems : list MenuItem.t) :
  forall (acc : JsMap.t (K := Id) (V := Q)) (k : Id),
    JsMap.get String.eqb (consumptionMap ings sales menuItems acc) k = None
    <-> JsMap.get String.eqb acc k = None
        /\ (found k ings -> ~ consumed sales menuItems k).
Proof.
  unfold consumptionMap, consumed.
  induction menuItems as [|m menuItems IH]; intros acc k; simpl.
  - split; [|tauto]. intros G. split; [exact G|].
    intros _ [m [c [[] _]]].
  - rewrite IH. destruct (Js.gt (soldCountOf sales m) 0) eqn:Sold.
    + rewrite consumeStep_absent. apply gt_iff in Sold. split.
      * intros [[G Hm] H]. split; [exact G|].
        intros Hf [m' [c [[<-|Hm'] [Hq [Hc E]]]]].
        -- now apply (Hm Hf c).
        -- apply (H Hf). now exists m', c.
      * intros [G H]. split; [split; [exact G|] |].
        -- intros Hf c Hc E. apply (H Hf). exists m, c. tauto.
        -- intros Hf [m' [c [Hm' Hrest]]]. apply (H Hf). exists m', c. tauto.
    + apply gt_false_iff in Sold. split.
      * intros [G H]. split; [exact G|].
        intros Hf [m' [c [[<-|Hm'] [Hq [Hc E]]]]].
        -- apply Qle_not_lt in Sold. contradiction.
        -- apply (H Hf). now exists m', c.
      * intros [G H]. split; [exact G|].
        intros Hf [m' [c [Hm' Hrest]]]. apply (H Hf). exists m', c. tauto.
Qed.

Lemma consumptionMap_keys (menuItems : list MenuItem.t) :
  forall acc : JsMap.t (K := Id) (V := Q),
    NoDup (JsMap.keys acc) ->
    NoDup (JsMap.keys (consumptionMap ings sales menuItems acc)).
Proof.
  unfold consumptionMap.
  induction menuItems as [|m menuItems IH]; intros acc ND; simpl; [exact ND|].
  apply IH. destruct (Js.gt _ 0); [now apply consumeStep_keys | exact ND].
Qed.

(** A key of the map is the id of an ingredient of the list searched. *)
Lemma consumptionMap_found (menuItems : list MenuItem.t) (k : Id) :
  JsMap.get String.eqb (consumptionMap ings sales menuItems JsMap.empty) k <> None ->
  found k ings.
Proof.
  intros H Hf. apply H. apply consumptionMap_absent. split; [reflexivity|].
  intros Hfound. contradiction.
Qed.

End Consumption.

(** ** Recording daily sales, without store failure *)

Lemma stockOf_written (src : list Ingredient.t) (level : Ingredient.t -> Q -> Q)
    (quantities : JsMap.t (K := Id) (V := Q)) (db0 db : Snapshot.t)
    (i i' : Ingredient.t) :
  uniqueIngredientIds db -> In i (Snapshot.allIngredients db) ->
  Hook.findIngredient (Ingredient.id i) src = Some i' ->
  stockOf (Snapshot.withIngredients db0
             (map (writtenRow src level quantities) (Snapshot.allIngredients db)))
          (Ingredient.id i)
  = Some (match JsMap.get String.eqb quantities (Ingredient.id i) with
          | Some v => level i' v
          | None => Ingredient.stockLevel i
          end).
Proof.
  intros ND Hin F. unfold stockOf. rewrite allIngredients_with.
  rewrite find_map_same_id by apply writtenRow_id.
  rewrite (find_unique _ _ ND Hin). simpl. unfold writtenRow. rewrite F.
  destruct (JsMap.get String.eqb quantities (Ingredient.id i)); reflexivity.
Qed.

Lemma stockOf_written_absent (src : list Ingredient.t) (level : Ingredient.t -> Q -> Q)
    (quantities : JsMap.t (K := Id) (V := Q)) (db0 db : Snapshot.t) (k : Id) :
  JsMap.get String.eqb quantities k = None ->
  stockOf (Snapshot.withIngredients db0
             (map (writtenRow src level quantities) (Snapshot.allIngredients db)))
          k
  = stockOf db k.
Proof.
  intros G. unfold stockOf. rewrite allIngredients_with.
  rewrite find_map_same_id by apply writtenRow_id.
  destruct (Hook.findIngredient k (Snapshot.allIngredients db)) as [row|] eqn:F;
    [|reflexivity].
  apply findIngredient_id in F. destruct F as [_ E].
  simpl. unfold writtenRow. now rewrite E, G.
Qed.

Lemma saleLoop_run (ings : list Ingredient.t) (today : Day) (outletId : Id)
    (sales : JsMap.t (K := Id) (V := Q)) (menuItems : list MenuItem.t) :
  forall (acc : JsMap.t (K := Id) (V := Q)) (db : Snapshot.t) (hook : HookState.t),
    foldAwait
      (fun ingredientsToUpdate menuItem =>
         let soldCount :=
           Js.opt_or_else (JsMap.get String.eqb sales (MenuItem.id menuItem)) 0 in
         if Js.gt soldCount 0 then
           DatabaseService.addSalesRecord
             (SalesHistoryRecord.mk today (MenuItem.id menuItem) soldCount
                (soldCount * MenuItem.sellingPrice menuItem) outletId) ;;
           ret (fold_left (Hook.consumeStep ings soldCount)
                          (MenuItem.recipe menuItem) ingredientsToUpdate)
         else ret ingredientsToUpdate)
      menuItems acc (World.mk db hook [])
    = (Returned (consumptionMap ings sales menuItems acc),
       World.mk (Snapshot.withSalesHistory db
                   (Snapshot.allSalesHistory db
                    ++ newSalesRecords today outletId sales menuItems))
                hook []).
Proof.
  induction menuItems as [|m menuItems IH]; intros acc db hook.
  - simpl. unfold ret. now rewrite app_nil_r, withSalesHistory_same.
  - cbn [foldAwait]. unfold bind at 1. cbv zeta.
    change (Js.opt_or_else (JsMap.get String.eqb sales (MenuItem.id m)) 0)
      with (soldCountOf sales m).
    unfold consumptionMap, newSalesRecords. cbn [fold_left flat_map].
    fold (newSalesRecords today outletId sales menuItems).
    destruct (Js.gt (soldCountOf sales m) 0).
    + unfold bind at 1, DatabaseService.addSalesRecord.
      rewrite storeWrite_total.
      unfold ret at 1. rewrite IH. unfold consumptionMap.
      f_equal. f_equal. destruct db; unfold Snapshot.withSalesHistory; simpl.
      now rewrite <- app_assoc.
    + unfold ret at 1. rewrite IH. reflexivity.
Qed.

Lemma ingredients_subset (st : HookState.t) (i : Ingredient.t) :
  In i (Hook.ingredients st) ->
  In i (Snapshot.allIngredients (HookState.snapshot st)).
Proof. unfold Hook.ingredients. intros H. apply filter_In in H. tauto. Qed.

(** The run of [processDailySales] on a store that answers and is in step
    with the hook. *)
Lemma processDailySales_run (db : Snapshot.t) (hook : HookState.t)
    (now : Instant) (sales : JsMap.t (K := Id) (V := Q)) :
  HookState.snapshot hook = db ->
  exists hook',
    Hook.processDailySales hook now sales (World.mk db hook [])
    = (Returned (Hook.ingredients hook),
       World.mk
         (Snapshot.withIngredients
            (Snapshot.withSalesHistory db
               (Snapshot.allSalesHistory db
                ++ newSalesRecords (isoDay now) (HookState.currentOutletId hook)
                                   sales (Hook.menuItems hook)))
            (map (writtenRow (Hook.ingredients hook)
                    (fun ingredient consumption =>
                       Js.max 0 (Ingredient.stockLevel ingredient - consumption))
                    (consumptionMap (Hook.ingredients hook) sales
                                    (Hook.menuItems hook) JsMap.empty))
                 (Snapshot.allIngredients db)))
         hook' []).
Proof.
  intros Hsync. unfold Hook.processDailySales.
  unfold bind at 1. rewrite saleLoop_run.
  unfold bind at 1.
  change (forEachAwait _ (JsMap.entries ?m))
    with (forEachAwait
            (writeLevels (Hook.ingredients hook)
               (fun ingredient consumption =>
                  Js.max 0 (Ingredient.stockLevel ingredient - consumption)))
            (JsMap.entries m)).
  rewrite writeLevels_run.
  - unfold bind at 1.
    destruct (loadAllData_available (HookState.currentOutletId hook)
                (Snapshot.withIngredients
                   (Snapshot.withSalesHistory db
                      (Snapshot.allSalesHistory db
                       ++ newSalesRecords (isoDay now)
                            (HookState.currentOutletId hook) sales
                            (Hook.menuItems hook)))
                   (map (writtenRow (Hook.ingredients hook)
                           (fun ingredient consumption =>
                              Js.max 0 (Ingredient.stockLevel ingredient - consumption))
                           (consumptionMap (Hook.ingredients hook) sales
                                           (Hook.menuItems hook) JsMap.empty))
                        (Snapshot.allIngredients db)))
                hook) as [hook' [Hload _]].
    exists hook'.
    change (Snapshot.allIngredients (Snapshot.withSalesHistory db ?l))
      with (Snapshot.allIngredients db).
    rewrite Hload. reflexivity.
  - apply consumptionMap_keys. constructor.
  - intros k _ Hf. unfold found in Hf.
    destruct (Hook.findIngredient k (Hook.ingredients hook)) as [ing|] eqn:F;
      [|congruence].
    apply findIngredient_id in F. destruct F as [Hin E].
    apply ingredients_subset in Hin. rewrite Hsync in Hin.
    change (Snapshot.allIngredients (Snapshot.withSalesHistory db ?l))
      with (Snapshot.allIngredients db).
    apply existsb_exists. exists ing. split; [exact Hin | now apply hasId_iff].
Qed.

Lemma Qsum_map_single {A} (key : A -> Id) (f : A -> Q) (l : list A) (x : A) :
  NoDup (map key l) -> In x l ->
  (forall y, In y l -> key y <> key x -> f y == 0) ->
  Qsum (map f l) == f x.
Proof.
  induction l as [|a l IH]; simpl; intros ND Hin H; [contradiction|].
  inversion ND as [|? ? Hnot ND']; subst. rewrite Qsum_cons.
  destruct Hin as [->|Hin].
  - rewrite (Qsum_map_ext f (fun _ => 0)), Qsum_map_zero; [ring|].
    intros y Hy. apply H; [now right|].
    intros E. apply Hnot. rewrite <- E. now apply in_map.
  - assert (f a == 0) as Ha.
    { apply H; [now left|]. intros E. apply Hnot. rewrite E. now apply in_map. }
    rewrite Ha, (IH ND' Hin); [ring|].
    intros y Hy. apply H. now right.
Qed.

Lemma filter_none {A} (f : A -> bool) (l : list A) :
  (forall y, In y l -> f y = false) -> filter f l = [].
Proof.
  induction l as [|a l IH]; simpl; intros H; [reflexivity|].
  rewrite (H a) by now left. apply IH. intros y Hy. apply H. now right.
Qed.

Lemma filter_unique_key {A} (key : A -> Id) (l : list A) (x : A) :
  NoDup (map key l) -> In x l ->
  filter (fun y => String.eqb (key y) (key x)) l = [x].
Proof.
  induction l as [|a l IH]; simpl; intros ND Hin; [contradiction|].
  inversion ND as [|? ? Hnot ND']; subst.
  destruct Hin as [->|Hin].
  - rewrite String.eqb_refl. f_equal. apply filter_none.
    intros y Hy. apply String.eqb_neq. intros E. apply Hnot.
    rewrite <- E. now apply in_map.
  - destruct (String.eqb_spec (key a) (key x)) as [E|N].
    + exfalso. apply Hnot. rewrite E. now apply in_map.
    + now apply IH.
Qed.

(** One menu item sold, [q] units: the batch takes [component.quantity * q]
    of the ingredient of each component of its recipe. *)
Lemma single_sale_consumption (menuItems : list MenuItem.t) (m : MenuItem.t)
    (q : Q) (c : RecipeComponent.t) :
  NoDup (map MenuItem.id menuItems) -> In m menuItems -> 0 < q ->
  NoDup (map RecipeComponent.ingredientId (MenuItem.recipe m)) ->
  In c (MenuItem.recipe m) ->
  consumption [(MenuItem.id m, q)] menuItems (RecipeComponent.ingredientId c)
  == RecipeComponent.quantity c * q
  /\ consumed [(MenuItem.id m, q)] menuItems (RecipeComponent.ingredientId c).
Proof.
  intros NDm Hm Hq NDc Hc.
  assert (soldCountOf [(MenuItem.id m, q)] m = q) as Sold.
  { unfold soldCountOf. simpl. rewrite String.eqb_refl. simpl.
    unfold Js.or_else.
    assert (Js.truthy q = true) as T; [|now rewrite T].
    apply truthy_iff. intros Z. rewrite Z in Hq. now apply Qlt_irrefl in Hq. }
  split.
  - unfold consumption.
    rewrite (Qsum_map_single MenuItem.id _ menuItems m NDm Hm).
    + rewrite Sold. apply gt_iff in Hq. rewrite Hq.
      unfold recipeConsumption.
      rewrite (filter_unique_key RecipeComponent.ingredientId _ c NDc Hc).
      simpl. rewrite Qsum_cons, Qsum_nil. ring.
    + intros y _ N. unfold soldCountOf. simpl.
      destruct (String.eqb_spec (MenuItem.id m) (MenuItem.id y)) as [E|_];
        [congruence|].
      reflexivity.
  - exists m, c. rewrite Sold. tauto.
Qed.

(** ** Receiving an order and recording waste, without store failure *)

Lemma receiveStep_value (items : list OrderItem.t) :
  forall (acc : JsMap.t (K := Id) (V := Q)) (k : Id),
    valueOr0 (fold_left Hook.receiveStep items acc) k
    == valueOr0 acc k
       + Qsum (map OrderItem.quantityToOrder
                   (filter (fun item => String.eqb (OrderItem.ingredientId item) k)
                           items)).
Proof.
  induction items as [|item items IH]; intros acc k; cbn [fold_left filter].
  - cbn [map]. rewrite Qsum_nil. ring.
  - rewrite IH. unfold Hook.receiveStep. rewrite accumulate_value.
    destruct (String.eqb (OrderItem.ingredientId item) k); cbn [map].
    + rewrite Qsum_cons. ring.
    + ring.
Qed.

Lemma receiveStep_absent (items : list OrderItem.t) :
  forall (acc : JsMap.t (K := Id) (V := Q)) (k : Id),
    JsMap.get String.eqb (fold_left Hook.receiveStep items acc) k = None
    <-> JsMap.get String.eqb acc k = None
        /\ forall item, In item items -> OrderItem.ingredientId item <> k.
Proof.
  induction items as [|item items IH]; intros acc k; simpl.
  - intuition.
  - rewrite IH. unfold Hook.receiveStep at 1. rewrite accumulate_absent. split.
    + intros [[G N] H]. split; [exact G|].
      intros it [<-|Hit]; [exact N | now apply H].
    + intros [G H]. split; [split; [exact G | apply H; now left] |].
      intros it Hit. apply H. now right.
Qed.

Lemma receiveStep_keys (items : list OrderItem.t) :
  forall acc : JsMap.t (K := Id) (V := Q),
    NoDup (JsMap.keys acc) ->
    NoDup (JsMap.keys (fold_left Hook.receiveStep items acc)).
Proof.
  induction items as [|item items IH]; intros acc ND; simpl; [exact ND|].
  apply IH. unfold Hook.receiveStep. now apply (keys_NoDup_set _ string_eqb_spec).
Qed.

Lemma receiveStock_run (db : Snapshot.t) (hook : HookState.t) (orderId : Id)
    (order : PendingOrder.t) :
  HookState.snapshot hook = db ->
  find (fun o => String.eqb (PendingOrder.id o) orderId) (Hook.pendingOrders hook)
  = Some order ->
  exists hook',
    Hook.receiveStock hook orderId (World.mk db hook [])
    = (Returned tt,
       World.mk
         (Snapshot.withPendingOrders
            (Snapshot.withIngredients db
               (map (writtenRow (Snapshot.allIngredients db)
                       (fun ingredient additionalStock =>
                          Ingredient.stockLevel ingredient + additionalStock)
                       (fold_left Hook.receiveStep (PendingOrder.items order)
                                  JsMap.empty))
                    (Snapshot.allIngredients db)))
            (filter (fun o => negb (String.eqb (PendingOrder.id o) orderId))
                    (Snapshot.allPendingOrders db)))
         hook' []).
Proof.
  intros Hsync Hfind. unfold Hook.receiveStock. rewrite Hfind, Hsync.
  unfold bind at 1.
  change (forEachAwait _ (JsMap.entries ?m))
    with (forEachAwait
            (writeLevels (Snapshot.allIngredients db)
               (fun ingredient additionalStock =>
                  Ingredient.stockLevel ingredient + additionalStock))
            (JsMap.entries m)).
  rewrite writeLevels_run.
  - unfold bind at 1, DatabaseService.deletePendingOrder.
    rewrite storeWrite_total.
    match goal with
    | |- context [loadAllData ?c (World.mk ?d ?h [])] =>
        destruct (loadAllData_available c d h) as [hook' [Hload _]]
    end.
    exists hook'. rewrite Hload. reflexivity.
  - apply receiveStep_keys. constructor.
  - intros k _ Hf. unfold found in Hf.
    destruct (Hook.findIngredient k (Snapshot.allIngredients db)) as [ing|] eqn:F;
      [|congruence].
    apply findIngredient_id in F. destruct F as [Hin E].
    apply existsb_exists. exists ing. split; [exact Hin | now apply hasId_iff].
Qed.

Lemma addWasteRecord_run (db : Snapshot.t) (hook : HookState.t)
    (record : Hook.WasteInput.t) (ingredient : Ingredient.t) :
  HookState.snapshot hook = db ->
  Hook.findIngredient (Hook.WasteInput.ingredientId record) (Hook.ingredients hook)
  = Some ingredient ->
  exists hook',
    Hook.addWasteRecord hook record (World.mk db hook [])
    = (Returned tt,
       World.mk
         (Snapshot.withIngredients
            (Snapshot.withWasteHistory db
               (Snapshot.allWasteHistory db
                ++ [WasteRecord.mk (Hook.WasteInput.date record)
                      (Hook.WasteInput.ingredientId record)
                      (Hook.WasteInput.quantity record)
                      (Hook.WasteInput.reason record)
                      (Ingredient.price ingredient * Hook.WasteInput.quantity record)
                      (HookState.currentOutletId hook)]))
            (map (fun i =>
                    if DatabaseService.hasId (Hook.WasteInput.ingredientId record) i
                    then Ingredient.withStockLevel i
                           (Js.max 0 (Ingredient.stockLevel ingredient
                                      - Hook.WasteInput.quantity record))
                    else i)
                 (Snapshot.allIngredients db)))
         hook' []).
Proof.
  intros Hsync Hfind. unfold Hook.addWasteRecord. rewrite Hfind.
  unfold bind at 1, DatabaseService.addWasteRecord. rewrite storeWrite_total.
  unfold bind at 1, DatabaseService.updateIngredient.
  apply findIngredient_id in Hfind. destruct Hfind as [Hin E].
  apply ingredients_subset in Hin. rewrite Hsync in Hin.
  erewrite storeWrite_available.
  - match goal with
    | |- context [loadAllData ?c (World.mk ?d ?h [])] =>
        destruct (loadAllData_available c d h) as [hook' [Hload _]]
    end.
    exists hook'. rewrite Hload. reflexivity.
  - change (Snapshot.allIngredients (Snapshot.withWasteHistory db ?l))
      with (Snapshot.allIngredients db).
    assert (existsb (DatabaseService.hasId (Hook.WasteInput.ingredientId record))
                    (Snapshot.allIngredients db) = true) as Ex.
    { apply existsb_exists. exists ingredient. split; [exact Hin | now apply hasId_iff]. }
    rewrite Ex. reflexivity.
Qed.

(** ** Effects on the stock *)

Lemma max_level_compat (s v v' : Q) :
  v == v' -> Js.max 0 (s - v) == Js.max 0 (s - v').
Proof. intros E. unfold Js.max. now rewrite E. Qed.

Lemma outlet_ingredient_found (db : Snapshot.t) (hook : HookState.t)
    (i : Ingredient.t) :
  HookState.snapshot hook = db -> uniqueIngredientIds db ->
  In i (Hook.ingredients hook) ->
  In i (Snapshot.allIngredients db)
  /\ Hook.findIngredient (Ingredient.id i) (Hook.ingredients hook) = Some i.
Proof.
  intros Hsync ND Hi. split.
  - apply ingredients_subset in Hi. now rewrite Hsync in Hi.
  - apply find_unique; [|exact Hi]. unfold Hook.ingredients.
    apply NoDup_map_filter. now rewrite Hsync.
Qed.

Lemma processDailySales_stock (w : World.t) (now : Instant)
    (sales : JsMap.t (K := Id) (V := Q)) :
  inSync w -> storeAvailable w -> uniqueIngredientIds (World.db w) ->
  exists w',
    run (fun st => Hook.processDailySales st now sales) w
    = (Returned (Hook.ingredients (World.hook w)), w')
    /\ (forall i, In i (Hook.ingredients (World.hook w)) ->
         (consumed sales (Hook.menuItems (World.hook w)) (Ingredient.id i) ->
          exists s, stockOf (World.db w') (Ingredient.id i) = Some s
                    /\ s == Js.max 0 (Ingredient.stockLevel i
                                      - consumption sales
                                          (Hook.menuItems (World.hook w))
                                          (Ingredient.id i)))
         /\ (~ consumed sales (Hook.menuItems (World.hook w)) (Ingredient.id i) ->
             stockOf (World.db w') (Ingredient.id i)
             = Some (Ingredient.stockLevel i)))
    /\ (forall k, ~ found k (Hook.ingredients (World.hook w)) ->
                  stockOf (World.db w') k = stockOf (World.db w) k).
Proof.
  destruct w as [db hook faults]. unfold inSync, storeAvailable, run.
  cbn [World.db World.hook World.faults]. intros Hsync -> ND.
  destruct (processDailySales_run db hook now sales Hsync) as [hook' Hrun].
  eexists. split; [exact Hrun|]. cbn [World.db]. split.
  2:{ intros k Hk.
      rewrite (stockOf_written_absent _ _ _ _ db k); [reflexivity|].
      apply consumptionMap_absent. split; [reflexivity|].
      intros Hf. contradiction. }
  intros i Hi.
  destruct (outlet_ingredient_found db hook i Hsync ND Hi) as [Hin Hfind].
  rewrite (stockOf_written _ _ _ _ db i i ND Hin Hfind).
  set (cm := consumptionMap (Hook.ingredients hook) sales (Hook.menuItems hook)
                            JsMap.empty).
  pose proof (consumptionMap_value (Hook.ingredients hook) sales
                (Hook.menuItems hook) JsMap.empty (Ingredient.id i)) as Hval.
  pose proof (consumptionMap_absent (Hook.ingredients hook) sales
                (Hook.menuItems hook) JsMap.empty (Ingredient.id i)) as Habs.
  fold cm in Hval, Habs. rewrite Hfind in Hval.
  assert (found (Ingredient.id i) (Hook.ingredients hook)) as Hf
    by (unfold found; congruence).
  split.
  - intros Hc.
    destruct (JsMap.get String.eqb cm (Ingredient.id i)) as [v|] eqn:G.
    + eexists. split; [reflexivity|]. apply max_level_compat.
      unfold valueOr0 in Hval. rewrite G in Hval. simpl in Hval.
      rewrite Hval. ring.
    + exfalso. destruct Habs as [Habs _]. destruct (Habs eq_refl) as [_ N].
      now apply N.
  - intros Hn. destruct Habs as [_ Habs].
    rewrite Habs; [reflexivity|]. split; [reflexivity | intros _; exact Hn].
Qed.

Lemma addWasteRecord_stock (w : World.t) (record : Hook.WasteInput.t)
    (i : Ingredient.t) :
  inSync w -> storeAvailable w -> uniqueIngredientIds (World.db w) ->
  Hook.findIngredient (Hook.WasteInput.ingredientId record)
                      (Hook.ingredients (World.hook w)) = Some i ->
  exists w',
    run (fun st => Hook.addWasteRecord st record) w = (Returned tt, w')
    /\ stockOf (World.db w) (Hook.WasteInput.ingredientId record)
       = Some (Ingredient.stockLevel i)
    /\ stockOf (World.db w') (Hook.WasteInput.ingredientId record)
       = Some (Js.max 0 (Ingredient.stockLevel i - Hook.WasteInput.quantity record)).
Proof.
  destruct w as [db hook faults]. unfold inSync, storeAvailable, run.
  cbn [World.db World.hook World.faults]. intros Hsync -> ND Hfind.
  destruct (addWasteRecord_run db hook record i Hsync Hfind) as [hook' Hrun].
  eexists. split; [exact Hrun|]. cbn [World.db].
  apply findIngredient_id in Hfind as Hi. destruct Hi as [Hi E].
  destruct (outlet_ingredient_found db hook i Hsync ND Hi) as [Hin _].
  pose proof (find_unique _ _ ND Hin) as Hdb. rewrite E in Hdb.
  unfold stockOf. rewrite allIngredients_with.
  rewrite find_map_same_id
    by (intros row; destruct (DatabaseService.hasId _ row); reflexivity).
  rewrite Hdb. simpl.
  assert (DatabaseService.hasId (Hook.WasteInput.ingredientId record) i = true) as H
    by (now apply hasId_iff).
  rewrite H. split; reflexivity.
Qed.

Lemma receiveStock_stock (w : World.t) (orderId : Id) (order : PendingOrder.t) :
  inSync w -> storeAvailable w -> uniqueIngredientIds (World.db w) ->
  find (fun o => String.eqb (PendingOrder.id o) orderId)
       (Hook.pendingOrders (World.hook w)) = Some order ->
  exists w',
    run (fun st => Hook.receiveStock st orderId) w = (Returned tt, w')
    /\ (forall i, In i (Snapshot.allIngredients (World.db w)) ->
          exists s, stockOf (World.db w') (Ingredient.id i) = Some s
                    /\ s == Ingredient.stockLevel i
                            + orderedQuantity order (Ingredient.id i))
    /\ (forall o, In o (Snapshot.allPendingOrders (World.db w'))
                  <-> In o (Snapshot.allPendingOrders (World.db w))
                      /\ PendingOrder.id o <> orderId).
Proof.
  destruct w as [db hook faults]. unfold inSync, storeAvailable, run.
  cbn [World.db World.hook World.faults]. intros Hsync -> ND Hfind.
  destruct (receiveStock_run db hook orderId order Hsync Hfind) as [hook' Hrun].
  eexists. split; [exact Hrun|]. cbn [World.db]. split.
  - intros i Hin.
    pose proof (find_unique _ _ ND Hin) as Hdb.
    change (stockOf (Snapshot.withPendingOrders (Snapshot.withIngredients db ?l) ?p))
      with (stockOf (Snapshot.withIngredients db l)).
    rewrite (stockOf_written _ _ _ _ db i i ND Hin Hdb).
    set (usm := fold_left Hook.receiveStep (PendingOrder.items order) JsMap.empty).
    pose proof (receiveStep_value (PendingOrder.items order) JsMap.empty
                  (Ingredient.id i)) as Hval.
    fold usm in Hval. fold (orderedQuantity order (Ingredient.id i)) in Hval.
    unfold valueOr0 in Hval. simpl in Hval.
    destruct (JsMap.get String.eqb usm (Ingredient.id i)) as [v|];
      eexists; (split; [reflexivity|]); revert Hval;
      generalize (orderedQuantity order (Ingredient.id i));
      generalize (Ingredient.stockLevel i); intros; lra.
  - intros o. cbn [Snapshot.allPendingOrders Snapshot.withPendingOrders].
    rewrite filter_In, negb_true_iff.
    destruct (String.eqb_spec (PendingOrder.id o) orderId);
      split; intros [? ?]; split; congruence.
Qed.

(** C9 (as amended).  Recording daily sales, recording waste and
    receiving an order keep every stock level non-negative, whether or
    not the store fails on the way (for an order: from non-negative stock
    in the hook and non-negative ordered quantities).  On a store that
    answers, in step
    with the hook and with unique ingredient ids:
    - daily sales leave an ingredient of the outlet at
      [max 0 (stock - consumption)] when a sold menu item uses it, and as
      it was otherwise, and leave the stock of any other id as it was;
      selling [q] units of one menu item leaves each ingredient of its
      recipe held by the outlet at
      [max 0 (stock - component.quantity * q)];
    - waste of quantity [q] leaves the ingredient at [max 0 (stock - q)];
    - receiving an order leaves each ingredient at its stock plus the
      quantity ordered of it, and the order is no longer pending. *)
Theorem stock_mutations (w : World.t) :
  let st := World.hook w in
  (stockNonneg (World.db w) ->
   (forall now sales,
      stockNonneg
        (World.db (snd (run (fun st => Hook.processDailySales st now sales) w))))
   /\ (forall record,
         stockNonneg
           (World.db (snd (run (fun st => Hook.addWasteRecord st record) w))))
   /\ (forall orderId,
         stockNonneg (HookState.snapshot st) ->
         orderedNonneg (Hook.pendingOrders st) ->
         stockNonneg
           (World.db (snd (run (fun st => Hook.receiveStock st orderId) w)))))
  /\ (inSync w -> storeAvailable w -> uniqueIngredientIds (World.db w) ->
      (forall now sales,
         exists w',
           run (fun st => Hook.processDailySales st now sales) w
           = (Returned (Hook.ingredients st), w')
           /\ (forall i, In i (Hook.ingredients st) ->
                (consumed sales (Hook.menuItems st) (Ingredient.id i) ->
                 exists s,
                   stockOf (World.db w') (Ingredient.id i) = Some s
                   /\ s == Js.max 0 (Ingredient.stockLevel i
                                     - consumption sales (Hook.menuItems st)
                                                   (Ingredient.id i)))
                /\ (~ consumed sales (Hook.menuItems st) (Ingredient.id i) ->
                    stockOf (World.db w') (Ingredient.id i)
                    = Some (Ingredient.stockLevel i)))
           /\ (forall k, ~ found k (Hook.ingredients st) ->
                         stockOf (World.db w') k = stockOf (World.db w) k))
      /\ (forall now m q c i,
            In m (Hook.menuItems st) -> 0 < q ->
            NoDup (map MenuItem.id (Hook.menuItems st)) ->
            NoDup (map RecipeComponent.ingredientId (MenuItem.recipe m)) ->
            In c (MenuItem.recipe m) ->
            In i (Hook.ingredients st) ->
            Ingredient.id i = RecipeComponent.ingredientId c ->
            exists w' s,
              run (fun st => Hook.processDailySales st now [(MenuItem.id m, q)]) w
              = (Returned (Hook.ingredients st), w')
              /\ stockOf (World.db w') (Ingredient.id i) = Some s
              /\ s == Js.max 0 (Ingredient.stockLevel i
                                - RecipeComponent.quantity c * q))
      /\ (forall record i,
            Hook.findIngredient (Hook.WasteInput.ingredientId record)
                                (Hook.ingredients st) = Some i ->
            exists w',
              run (fun st => Hook.addWasteRecord st record) w = (Returned tt, w')
              /\ stockOf (World.db w) (Hook.WasteInput.ingredientId record)
                 = Some (Ingredient.stockLevel i)
              /\ stockOf (World.db w') (Hook.WasteInput.ingredientId record)
                 = Some (Js.max 0 (Ingredient.stockLevel i
                                   - Hook.WasteInput.quantity record)))
      /\ (forall orderId order,
            find (fun o => String.eqb (PendingOrder.id o) orderId)
                 (Hook.pendingOrders st) = Some order ->
            exists w',
              run (fun st => Hook.receiveStock st orderId) w = (Returned tt, w')
              /\ (forall i, In i (Snapshot.allIngredients (World.db w)) ->
                    exists s,
                      stockOf (World.db w') (Ingredient.id i) = Some s
                      /\ s == Ingredient.stockLevel i
                              + orderedQuantity order (Ingredient.id i))
              /\ (forall o, In o (Snapshot.allPendingOrders (World.db w'))
                            <-> In o (Snapshot.allPendingOrders (World.db w))
                                /\ PendingOrder.id o <> orderId))).
Proof.
  intros st. split.
  - intros Hnonneg. refine (conj _ (conj _ _)).
    + intros now sales. now apply keeps_processDailySales.
    + intros record. now apply keeps_addWasteRecord_callback.
    + intros orderId Hsnap Hord. now apply keeps_receiveStock.
  - intros Hsync Havail ND. refine (conj _ (conj _ (conj _ _))).
    + intros now sales. now apply processDailySales_stock.
    + intros now m q c i Hm Hq NDm NDc Hc Hi E.
      destruct (processDailySales_stock w now [(MenuItem.id m, q)] Hsync Havail ND)
        as [w' [Hrun [Hall _]]].
      destruct (single_sale_consumption _ m q c NDm Hm Hq NDc Hc) as [Hcons Hused].
      destruct (Hall i Hi) as [Hsold _]. fold st in Hsold.
      rewrite E in Hsold. destruct (Hsold Hused) as [s [Hs Es]].
      exists w', s. rewrite E. refine (conj Hrun (conj Hs _)).
      rewrite Es. now apply max_level_compat.
    + intros record i Hfind. now apply addWasteRecord_stock.
    + intros orderId order Hfind. now apply receiveStock_stock.
Qed.

Lemma stock_mutations_witness :
  let flour := Ingredient.mk "i1" "Flour" "kg" 20 None 5 2 "outlet-1" in
  let sugar := Ingredient.mk "i2" "Sugar" "kg" 10 None 1 2 "outlet-1" in
  let rows := [RecipeRow.mk "m1" "i1" (1 # 2); RecipeRow.mk "m1" "i2" 1] in
  let order := PendingOrder.mk "p1" "PO-1" "s1" 0
                 [OrderItem.mk "i1" 3; OrderItem.mk "i2" 1; OrderItem.mk "i1" 2]
                 70 "outlet-1" in
  let db := Snapshot.mk [Outlet.mk "outlet-1" "Main"] [flour; sugar]
              [MenuItemData.mk "m1" "Cake" "" 400 50 []] rows [] [] [] [order]
              None in
  let st := HookState.mk db "outlet-1" 30 in
  let w := World.mk db st [] in
  let cake := costMenuItem (ingredientsMapOf [flour; sugar]) rows
                (MenuItemData.mk "m1" "Cake" "" 400 50 []) in
  (exists w' s,
     run (fun st => Hook.processDailySales st (20000 * msPerDay) [("m1"%string, 4)]) w
     = (Returned [flour; sugar], w')
     /\ stockOf (World.db w') "i1" = Some s /\ s == 3)
  /\ (exists w',
        run (fun st => Hook.addWasteRecord st
                         (Hook.WasteInput.mk 20000 "i2" 3 "Spoiled")) w
        = (Returned tt, w')
        /\ stockOf (World.db w') "i2" = Some (Js.max 0 (1 - 3)))
  /\ (exists w' s,
        run (fun st => Hook.receiveStock st "p1") w = (Returned tt, w')
        /\ stockOf (World.db w') "i1" = Some s /\ s == 10
        /\ Snapshot.allPendingOrders (World.db w') = [])
  /\ stockNonneg
       (World.db (snd (run (fun st => Hook.receiveStock st "p1")
                           (World.mk db st [false; true])))).
Proof.
  intros flour sugar rows order db st w cake.
  assert (stockNonneg db) as Hnonneg.
  { unfold stockNonneg. simpl. repeat constructor; simpl; discriminate. }
  assert (uniqueIngredientIds db) as ND.
  { unfold uniqueIngredientIds. simpl.
    repeat constructor; simpl; intuition discriminate. }
  destruct (stock_mutations w) as [_ Heffect].
  destruct (Heffect eq_refl eq_refl ND) as [_ [Hsale [Hwaste Hreceive]]].
  refine (conj _ (conj _ (conj _ _))).
  - destruct (Hsale (20000 * msPerDay)%Z cake 4 (RecipeComponent.mk "i1" (1 # 2)) flour)
      as [w' [s [Hrun [Hs Es]]]].
    + left. reflexivity.
    + reflexivity.
    + simpl. repeat constructor; simpl; intuition discriminate.
    + simpl. repeat constructor; simpl; intuition discriminate.
    + left. reflexivity.
    + left. reflexivity.
    + reflexivity.
    + exists w', s. refine (conj Hrun (conj Hs _)). rewrite Es. reflexivity.
  - destruct (Hwaste (Hook.WasteInput.mk 20000 "i2" 3 "Spoiled") sugar eq_refl)
      as [w' [Hrun [_ Hs]]].
    exists w'. split; [exact Hrun | exact Hs].
  - destruct (Hreceive "p1"%string order eq_refl) as [w' [Hrun [Hstock Hgone]]].
    destruct (Hstock flour (or_introl eq_refl)) as [s [Hs Es]].
    exists w', s. refine (conj Hrun (conj Hs (conj _ _))).
    + rewrite Es. reflexivity.
    + destruct (Snapshot.allPendingOrders (World.db w')) as [|o l]; [reflexivity|].
      exfalso. destruct (Hgone o) as [Ho _].
      destruct (Ho (or_introl eq_refl)) as [[<-|[]] N]. now apply N.
  - destruct (stock_mutations (World.mk db st [false; true])) as [Hkeep _].
    destruct (Hkeep Hnonneg) as [_ [_ Hrecv]].
    apply Hrecv; [exact Hnonneg|].
    intros o item [<-|[]] Hitem. simpl in Hitem.
    destruct Hitem as [<-|[<-|[<-|[]]]]; simpl; discriminate.
Defined.

(** C9, as the claim words it, fails twice.  The update of a stock level
    stores the level it is given: from a stock of 5, the level -3 is
    stored.  And a sale takes nothing from an ingredient that another
    outlet holds: with the flour of the recipe held by the second outlet,
    selling one cake in the first leaves its 5 kg where 3 kg are used. *)
Lemma stock_mutations_unclamped_and_scoped :
  let flour := Ingredient.mk "i1" "Flour" "kg" 20 None 5 2 "outlet-2" in
  let rows := [RecipeRow.mk "m1" "i1" 3] in
  let db := Snapshot.mk [Outlet.mk "outlet-1" "Main"; Outlet.mk "outlet-2" "Branch"]
              [flour] [MenuItemData.mk "m1" "Cake" "" 400 50 []] rows [] [] [] []
              None in
  let w := World.mk db (HookState.mk db "outlet-1" 30) [] in
  let cake := costMenuItem (ingredientsMapOf []) rows
                (MenuItemData.mk "m1" "Cake" "" 400 50 []) in
  ~ stockUpdateKeepsNonneg w "i1" (- (3))
  /\ Hook.menuItems (World.hook w) = [cake]
  /\ ~ saleTakesFromEveryRecipeIngredient w (20000 * msPerDay) cake 1
  /\ stockOf
       (World.db
          (snd (run (fun st => Hook.processDailySales st (20000 * msPerDay)
                                 [("m1"%string, 1)]) w)))
       "i1"
     = Some 5.
Proof.
  intros flour rows db w cake.
  refine (conj _ (conj _ (conj _ _))).
  - intros H.
    assert (stockNonneg db) as Hnonneg.
    { unfold stockNonneg. simpl. repeat constructor; simpl; discriminate. }
    specialize (H Hnonneg). vm_compute in H.
    inversion H as [|? ? Hflour _]; subst. now apply Hflour.
  - vm_compute. reflexivity.
  - intros H.
    destruct (H (RecipeComponent.mk "i1" 3) flour) as [s [Hs Es]].
    + left. reflexivity.
    + left. reflexivity.
    + reflexivity.
    + vm_compute in Hs. injection Hs as <-. vm_compute in Es. discriminate Es.
  - vm_compute. reflexivity.
Qed.

(** * Further properties of the hook *)

(** ** The comparison series *)

Lemma zero_init_fold (f : Z -> Day) (steps : list Z) (ls : list Day) :
  NoDup (ls ++ map f steps) ->
  fold_left (fun data i => JsMap.set Z.eqb data (f i) 0) steps
            (map (fun d => (d, 0)) ls)
  = map (fun d => (d, 0)) (ls ++ map f steps).
Proof.
  revert ls. induction steps as [|i steps IH]; intros ls ND; simpl.
  - now rewrite app_nil_r.
  - rewrite set_absent.
    + change [(f i, 0)] with (map (fun d : Day => (d, 0)) [f i]).
      rewrite <- map_app.
      rewrite IH; rewrite <- app_assoc; simpl; [reflexivity | exact ND].
    + unfold JsMap.keys. rewrite map_map. simpl. rewrite map_id.
      apply NoDup_remove_2 in ND. intros Hin. apply ND.
      apply in_or_app. now left.
Qed.

Lemma comparison_days (zone : Zone.t) (now : Instant) (W : nat) :
  Zone.steady zone ->
  map (fun i => isoDay (setDateBack zone now (Z.of_nat W + i)))
      (countdown (Z.of_nat W))
  = map (fun k => (isoDay now - Z.of_nat W - Z.of_nat k)%Z) (rev (seq 0 W)).
Proof.
  intros steady. unfold countdown. rewrite Nat2Z.id, map_map.
  apply map_ext. intros k.
  rewrite (setDateBack_steady _ _ _ steady), isoDay_minusDays. lia.
Qed.

Lemma comparison_days_In (now : Instant) (W : nat) (d : Day) :
  In d (map (fun k => (isoDay now - Z.of_nat W - Z.of_nat k)%Z) (rev (seq 0 W)))
  <-> inComparisonWindow now W d = true.
Proof.
  unfold inComparisonWindow.
  rewrite andb_true_iff, Z.ltb_lt, Z.leb_le, in_map_iff. split.
  - intros [k [<- Hk]]. apply in_rev, in_seq in Hk. lia.
  - intros [Hlo Hhi]. exists (Z.to_nat (isoDay now - Z.of_nat W - d)).
    split; [lia|]. apply in_rev. rewrite rev_involutive. apply in_seq. lia.
Qed.

(** A day of the comparison window is inside the comparison range, except
    its last day when the clock reads midnight exactly. *)
Lemma comparison_day_in_range (now : Instant) (W : nat) (d : Day) :
  inComparisonWindow now W d = true ->
  ((now mod msPerDay <> 0)%Z \/ (d < isoDay now - Z.of_nat W)%Z) ->
  ((minusDays now (Z.of_nat W * 2) <=? dateOf d)
   && (dateOf d <? minusDays now (Z.of_nat W)))%Z = true.
Proof.
  unfold inComparisonWindow, minusDays, dateOf, isoDay.
  rewrite !andb_true_iff, Z.ltb_lt, Z.leb_le, Z.leb_le, Z.ltb_lt.
  intros [Hlo Hhi] Hedge.
  assert (0 < msPerDay)%Z as Hpos by (unfold msPerDay; lia).
  pose proof (Z.mod_pos_bound now msPerDay Hpos) as Hmod.
  pose proof (Z.div_mod now msPerDay ltac:(lia)) as Hdiv.
  split; [nia|]. destruct Hedge; nia.
Qed.

Lemma comparison_last_day_out (now : Instant) (W : nat) :
  (now mod msPerDay = 0)%Z ->
  (dateOf (isoDay now - Z.of_nat W) <? minusDays now (Z.of_nat W))%Z = false.
Proof.
  unfold minusDays, dateOf, isoDay. intros Hmid. apply Z.ltb_ge.
  pose proof (Z.div_mod now msPerDay ltac:(unfold msPerDay; lia)) as Hdiv.
  nia.
Qed.

Lemma dayRevenue_filter (f : SalesHistoryRecord.t -> bool) (d : Day)
    (salesHistory : list SalesHistoryRecord.t) :
  (forall r, SalesHistoryRecord.date r = d -> f r = true) ->
  dayRevenue d (filter f salesHistory) = dayRevenue d salesHistory.
Proof.
  intros Hf. unfold dayRevenue. f_equal. f_equal.
  induction salesHistory as [|r l IH]; simpl; [reflexivity|].
  destruct (Z.eqb_spec (SalesHistoryRecord.date r) d) as [E|N].
  - rewrite (Hf r E). simpl. destruct (Z.eqb_spec (SalesHistoryRecord.date r) d);
      [now rewrite IH | contradiction].
  - destruct (f r); simpl; [|exact IH].
    destruct (Z.eqb_spec (SalesHistoryRecord.date r) d); [contradiction | exact IH].
Qed.

Lemma dayRevenue_filter_out (f : SalesHistoryRecord.t -> bool) (d : Day)
    (salesHistory : list SalesHistoryRecord.t) :
  (forall r, SalesHistoryRecord.date r = d -> f r = false) ->
  dayRevenue d (filter f salesHistory) = 0.
Proof.
  intros Hf. unfold dayRevenue.
  rewrite filter_none; [reflexivity|].
  intros r Hr. apply filter_In in Hr. destruct Hr as [_ Hr].
  destruct (Z.eqb_spec (SalesHistoryRecord.date r) d) as [E|N]; [|reflexivity].
  rewrite (Hf r E) in Hr. discriminate.
Qed.

(** The series of [comparisonChartData]: one value per day of the
    comparison window, oldest first, each the revenue of that day among
    the records of the comparison range. *)
Lemma comparison_series (zone : Zone.t) (now : Instant) (W : nat)
    (salesHistory : list SalesHistoryRecord.t) :
  Zone.steady zone ->
  let days := map (fun k => (isoDay now - Z.of_nat W - Z.of_nat k)%Z) (rev (seq 0 W)) in
  let range :=
    filter (fun record =>
              ((minusDays now (Z.of_nat W * 2) <=? dateOf (SalesHistoryRecord.date record))
               && (dateOf (SalesHistoryRecord.date record)
                   <? minusDays now (Z.of_nat W)))%Z)
           salesHistory in
  exists g : Day -> Q,
    ComparisonChartData.data
      (comparisonChartData zone now (Z.of_nat W) salesHistory)
    = map g days
    /\ forall d, In d days -> g d == dayRevenue d range.
Proof.
  intros steady days range.
  assert (NoDup days) as ND.
  { apply Injective_map_NoDup; [intros x y E; lia | apply NoDup_rev, seq_NoDup]. }
  set (init := fold_left (comparisonInitStep zone now (Z.of_nat W))
                         (countdown (Z.of_nat W)) JsMap.empty).
  assert (init = map (fun d => (d, 0)) days) as Hinit.
  { unfold init.
    change JsMap.empty with (map (fun d : Day => (d, 0)) []).
    change (comparisonInitStep zone now (Z.of_nat W))
      with (fun data i => JsMap.set Z.eqb data
                            (isoDay (setDateBack zone now (Z.of_nat W + i))) 0).
    rewrite (zero_init_fold (fun i => isoDay (setDateBack zone now (Z.of_nat W + i))));
      simpl; rewrite (comparison_days _ _ _ steady); [reflexivity | exact ND]. }
  set (final := fold_left chartAddStep range init).
  assert (JsMap.keys final = days) as Hkeys.
  { unfold final. rewrite chartAdd_keys, Hinit. unfold JsMap.keys.
    rewrite map_map. simpl. apply map_id. }
  exists (fun d => match JsMap.get Z.eqb final d with Some v => v | None => 0 end).
  split.
  - unfold comparisonChartData. cbn [ComparisonChartData.data].
    rewrite (setDateBack_steady _ now (Z.of_nat W) steady),
            (setDateBack_steady _ now (Z.of_nat W * 2) steady).
    fold range. fold init. fold final.
    rewrite (values_by_get (K := Day) Z.eqb Z_eqb_spec final 0)
      by (rewrite Hkeys; exact ND).
    now rewrite Hkeys.
  - intros d Hd.
    destruct (chartAdd_get range init d 0) as [v [Hv Ev]].
    { rewrite Hinit. now apply zero_entries_get. }
    fold final in Hv. rewrite Hv, Ev. ring.
Qed.

(** X1.  In a zone without clock changes and away from the exact instant
    of midnight (UTC), the comparison series of a window of [W] days has
    [W] values, the k-th being the revenue of the records dated
    [today - 2W + 1 + k], and they add up to the revenue of the records
    dated in the [W] days before the [W] days ending today. *)
Theorem comparisonChartData_series
    (zone : Zone.t) (now : Instant) (W : nat)
    (salesHistory : list SalesHistoryRecord.t)
    (no_clock_change : Zone.steady zone)
    (not_midnight : (now mod msPerDay <> 0)%Z) :
  let series :=
    ComparisonChartData.data
      (comparisonChartData zone now (Z.of_nat W) salesHistory) in
  List.length series = W
  /\ (forall k, (k < W)%nat ->
        nth k series 0
        == dayRevenue (isoDay now - 2 * Z.of_nat W + 1 + Z.of_nat k)%Z salesHistory)
  /\ Qsum series
     == Qsum (map SalesHistoryRecord.totalRevenue
                  (filter (fun r => inComparisonWindow now W (SalesHistoryRecord.date r))
                          salesHistory)).
Proof.
  intros series.
  destruct (comparison_series zone now W salesHistory no_clock_change)
    as [g [Hdata Hg]].
  set (days := map (fun k => (isoDay now - Z.of_nat W - Z.of_nat k)%Z)
                   (rev (seq 0 W))) in *.
  assert (NoDup days) as ND.
  { apply Injective_map_NoDup; [intros x y E; lia | apply NoDup_rev, seq_NoDup]. }
  assert (List.length days = W) as Hlen
    by (unfold days; now rewrite length_map, length_rev, length_seq).
  assert (forall d, In d days -> g d == dayRevenue d salesHistory) as Hg'.
  { intros d Hd. rewrite (Hg d Hd).
    rewrite dayRevenue_filter; [reflexivity|].
    intros r <-. apply comparison_day_in_range; [|now left].
    now apply comparison_days_In. }
  unfold series. rewrite Hdata.
  refine (conj _ (conj _ _)).
  - now rewrite length_map.
  - intros k Hk. rewrite <- Hlen in Hk.
    rewrite (nth_indep _ 0 (g 0%Z)) by (rewrite length_map; exact Hk).
    rewrite map_nth, Hg' by (apply nth_In; exact Hk).
    rewrite Hlen in Hk. unfold days.
    rewrite (nth_indep _ 0%Z (isoDay now - Z.of_nat W - Z.of_nat 0)%Z)
      by (rewrite length_map, length_rev, length_seq; exact Hk).
    rewrite (map_nth (fun k : nat => (isoDay now - Z.of_nat W - Z.of_nat k)%Z)).
    rewrite rev_nth by (rewrite length_seq; exact Hk).
    rewrite length_seq, seq_nth by lia.
    replace (isoDay now - Z.of_nat W - Z.of_nat (0 + (W - S k)))%Z
      with (isoDay now - 2 * Z.of_nat W + 1 + Z.of_nat k)%Z by lia.
    reflexivity.
  - rewrite (Qsum_map_ext _ _ _ Hg'), (series_sum _ _ ND).
    rewrite (filter_ext _ (fun r => inComparisonWindow now W (SalesHistoryRecord.date r)));
      [reflexivity|].
    intros r. apply eq_true_iff_eq.
    rewrite <- comparison_days_In, existsb_exists. fold days. split.
    + intros [x [Hx E]]. apply Z.eqb_eq in E. rewrite E. exact Hx.
    + intros H. exists (SalesHistoryRecord.date r). split; [exact H | apply Z.eqb_refl].
Qed.

Lemma comparisonChartData_series_witness :
  let sales := [SalesHistoryRecord.mk 19997 "m1" 2 800 "outlet-1";
                SalesHistoryRecord.mk 19995 "m2" 1 100 "outlet-1";
                SalesHistoryRecord.mk 20000 "m2" 1 7 "outlet-1"] in
  let series :=
    ComparisonChartData.data
      (comparisonChartData (Zone.fixed (2 * 60 * 60 * 1000))
                           (20000 * msPerDay + 5000) 3 sales) in
  nth 2 series 0 == 800 /\ Qsum series == 900.
Proof.
  intros sales series.
  assert (((20000 * msPerDay + 5000) mod msPerDay <> 0)%Z) as Hnot
    by (vm_compute; discriminate).
  destruct (comparisonChartData_series (Zone.fixed (2 * 60 * 60 * 1000))
              (20000 * msPerDay + 5000) 3 sales (steady_fixed _) Hnot)
    as [_ [Hday Hsum]].
  split.
  - unfold series. rewrite (Hday 2%nat) by lia. vm_compute. reflexivity.
  - unfold series. rewrite Hsum. vm_compute. reflexivity.
Defined.

(** X2.  In a zone without clock changes, when the clock reads midnight
    (UTC) exactly, the newest value of the comparison series is 0 whatever
    was sold that day: the records of that day are dated at, not before,
    the end of the comparison range. *)
Theorem comparisonChartData_midnight
    (zone : Zone.t) (now : Instant) (W : nat)
    (salesHistory : list SalesHistoryRecord.t)
    (no_clock_change : Zone.steady zone)
    (midnight : (now mod msPerDay = 0)%Z) (positive : (0 < W)%nat) :
  let series :=
    ComparisonChartData.data
      (comparisonChartData zone now (Z.of_nat W) salesHistory) in
  nth (W - 1) series 0 == 0
  /\ forall k, (k < W - 1)%nat ->
       nth k series 0
       == dayRevenue (isoDay now - 2 * Z.of_nat W + 1 + Z.of_nat k)%Z salesHistory.
Proof.
  intros series.
  destruct (comparison_series zone now W salesHistory no_clock_change)
    as [g [Hdata Hg]].
  set (days := map (fun k => (isoDay now - Z.of_nat W - Z.of_nat k)%Z)
                   (rev (seq 0 W))) in *.
  assert (List.length days = W) as Hlen
    by (unfold days; now rewrite length_map, length_rev, length_seq).
  assert (forall k, (k < W)%nat ->
            nth k days 0%Z = (isoDay now - 2 * Z.of_nat W + 1 + Z.of_nat k)%Z) as Hnth.
  { intros k Hk. unfold days.
    rewrite (nth_indep _ 0%Z (isoDay now - Z.of_nat W - Z.of_nat 0)%Z)
      by (rewrite length_map, length_rev, length_seq; exact Hk).
    rewrite (map_nth (fun k : nat => (isoDay now - Z.of_nat W - Z.of_nat k)%Z)).
    rewrite rev_nth by (rewrite length_seq; exact Hk).
    rewrite length_seq, seq_nth by lia. lia. }
  assert (forall k, (k < W)%nat -> nth k series 0 == g (nth k days 0%Z)
                                   /\ In (nth k days 0%Z) days) as Hentry.
  { intros k Hk. unfold series. rewrite Hdata. rewrite <- Hlen in Hk.
    rewrite (nth_indep _ 0 (g 0%Z)) by (rewrite length_map; exact Hk).
    rewrite map_nth. split; [reflexivity | now apply nth_In]. }
  split.
  - destruct (Hentry (W - 1)%nat ltac:(lia)) as [E Hin].
    rewrite E, (Hg _ Hin), Hnth by lia.
    rewrite dayRevenue_filter_out; [reflexivity|].
    intros r Hr. apply andb_false_iff. right. rewrite Hr.
    replace (isoDay now - 2 * Z.of_nat W + 1 + Z.of_nat (W - 1))%Z
      with (isoDay now - Z.of_nat W)%Z by lia.
    now apply comparison_last_day_out.
  - intros k Hk.
    destruct (Hentry k ltac:(lia)) as [E Hin].
    rewrite E, (Hg _ Hin), Hnth by lia.
    rewrite dayRevenue_filter; [reflexivity|].
    intros r Hr. rewrite Hr. apply comparison_day_in_range.
    + apply comparison_days_In. fold days. rewrite <- (Hnth k) by lia. exact Hin.
    + right. lia.
Qed.

Lemma comparisonChartData_midnight_witness :
  let sales := [SalesHistoryRecord.mk 19997 "m1" 2 800 "outlet-1";
                SalesHistoryRecord.mk 19996 "m2" 1 100 "outlet-1"] in
  let series :=
    ComparisonChartData.data
      (comparisonChartData (Zone.fixed (- (5 * 60 * 60 * 1000)))
                           (20000 * msPerDay) 3 sales) in
  nth 2 series 0 == 0 /\ nth 1 series 0 == 100.
Proof.
  intros sales series.
  destruct (comparisonChartData_midnight (Zone.fixed (- (5 * 60 * 60 * 1000)))
              (20000 * msPerDay) 3 sales (steady_fixed _)
              ltac:(vm_compute; reflexivity) ltac:(lia)) as [Hlast Hrest].
  split.
  - exact Hlast.
  - unfold series. rewrite (Hrest 1%nat) by lia. vm_compute. reflexivity.
Defined.

(** ** Waste cost per ingredient and by reason *)

Lemma keyed_indicator_sum (keys : list Id) (k : Id) (x : Q) :
  NoDup keys ->
  Qsum (map (fun k' => if String.eqb k k' then x else 0) keys)
  == if existsb (String.eqb k) keys then x else 0.
Proof.
  induction keys as [|a keys IH]; intros ND; simpl.
  - reflexivity.
  - inversion ND as [|? ? Hnot ND']; subst. rewrite Qsum_cons, (IH ND').
    destruct (String.eqb_spec k a) as [->|N]; simpl; [|ring].
    destruct (existsb (String.eqb a) keys) eqn:E; [|ring].
    apply existsb_exists in E. destruct E as [y [Hy Ey]].
    apply String.eqb_eq in Ey. subst. contradiction.
Qed.

(** Summing per key and then over distinct keys is summing over the
    elements whose key is among them. *)
Lemma keyed_sum {A} (key : A -> Id) (val : A -> Q) (keys : list Id) (xs : list A) :
  NoDup keys ->
  Qsum (map (fun k => Qsum (map val (filter (fun x => String.eqb (key x) k) xs))) keys)
  == Qsum (map val (filter (fun x => existsb (String.eqb (key x)) keys) xs)).
Proof.
  intros ND. induction xs as [|x xs IH]; cbn [filter].
  - cbn [map]. apply Qsum_map_zero.
  - rewrite (Qsum_map_ext _
              (fun k => (if String.eqb (key x) k then val x else 0)
                        + Qsum (map val (filter (fun y => String.eqb (key y) k) xs)))).
    + rewrite Qsum_map_plus, IH, (keyed_indicator_sum _ _ _ ND).
      destruct (existsb (String.eqb (key x)) keys); cbn [map].
      * rewrite Qsum_cons. ring.
      * ring.
    + intros k _. destruct (String.eqb (key x) k); cbn [map].
      * apply Qsum_cons.
      * ring.
Qed.

Lemma wasteCostStep_value (ws : list WasteRecord.t) :
  forall (acc : JsMap.t (K := Id) (V := Q)) (k : Id),
    valueOr0 (fold_left wasteCostStep ws acc) k
    == valueOr0 acc k
       + Qsum (map WasteRecord.cost
                   (filter (fun w => String.eqb (WasteRecord.ingredientId w) k) ws)).
Proof.
  induction ws as [|w ws IH]; intros acc k; cbn [fold_left filter].
  - cbn [map]. rewrite Qsum_nil. ring.
  - rewrite IH. unfold wasteCostStep. rewrite accumulate_value.
    destruct (String.eqb (WasteRecord.ingredientId w) k); cbn [map].
    + rewrite Qsum_cons. ring.
    + ring.
Qed.

Lemma wasteCost_entries
    (now : Instant) (ingredients : list Ingredient.t)
    (wasteHistory : list WasteRecord.t) :
  map IngredientWithWasteCost.ingredient
      (ingredientsWithWasteCost now ingredients wasteHistory) = ingredients
  /\ forall e, In e (ingredientsWithWasteCost now ingredients wasteHistory) ->
       IngredientWithWasteCost.wasteCostLast30Days e
       == wasteCostOf now wasteHistory
            (Ingredient.id (IngredientWithWasteCost.ingredient e)).
Proof.
  unfold ingredientsWithWasteCost. split.
  - rewrite map_map. cbn [IngredientWithWasteCost.ingredient]. apply map_id.
  - intros e He. apply in_map_iff in He. destruct He as [ing [<- _]].
    cbn [IngredientWithWasteCost.wasteCostLast30Days
         IngredientWithWasteCost.ingredient].
    rewrite opt_or_else_value, wasteCostStep_value.
    unfold wasteCostOf, keptSince, valueOr0. simpl. ring.
Qed.

(** X3.  [ingredientsWithWasteCost] lists the ingredients in their order,
    each with the cost of the waste records of the last 30 days that name
    it (0 without such a record). *)
Theorem ingredientsWithWasteCost_per_ingredient
    (now : Instant) (ingredients : list Ingredient.t)
    (wasteHistory : list WasteRecord.t) :
  let result := ingredientsWithWasteCost now ingredients wasteHistory in
  map IngredientWithWasteCost.ingredient result = ingredients
  /\ forall e, In e result ->
       IngredientWithWasteCost.wasteCostLast30Days e
       == wasteCostOf now wasteHistory
            (Ingredient.id (IngredientWithWasteCost.ingredient e)).
Proof. intros result. apply wasteCost_entries. Qed.

(** X4.  When the ingredient ids are distinct and every waste record of
    the last 30 days names a listed ingredient, the waste costs per
    ingredient add up to the total waste cost of the inventory overview. *)
Theorem wasteCost_per_ingredient_total
    (now : Instant) (ingredients : list Ingredient.t)
    (wasteHistory : list WasteRecord.t)
    (unique_ids : NoDup (map Ingredient.id ingredients))
    (known : forall w, In w wasteHistory ->
                       keptSince now 30 (WasteRecord.date w) = true ->
                       exists i, In i ingredients
                                 /\ Ingredient.id i = WasteRecord.ingredientId w) :
  Qsum (map IngredientWithWasteCost.wasteCostLast30Days
            (ingredientsWithWasteCost now ingredients wasteHistory))
  == InventoryOverviewStats.totalWasteCostLast30Days
       (inventoryOverviewStats now ingredients wasteHistory).
Proof.
  destruct (wasteCost_entries now ingredients wasteHistory) as [Hing Hcost].
  rewrite (Qsum_map_ext _
             (fun e => wasteCostOf now wasteHistory
                         (Ingredient.id (IngredientWithWasteCost.ingredient e)))
             _ Hcost).
  rewrite <- (map_map IngredientWithWasteCost.ingredient
                (fun i => wasteCostOf now wasteHistory (Ingredient.id i))), Hing.
  rewrite <- (map_map Ingredient.id (wasteCostOf now wasteHistory)).
  unfold wasteCostOf.
  rewrite (keyed_sum WasteRecord.ingredientId WasteRecord.cost _ _ unique_ids).
  unfold inventoryOverviewStats.
  cbn [InventoryOverviewStats.totalWasteCostLast30Days].
  rewrite fold_sum_map.
  rewrite filter_all; [reflexivity|].
  intros w Hw. apply filter_In in Hw. destruct Hw as [Hw Hkept].
  destruct (known w Hw Hkept) as [i [Hi E]].
  apply existsb_exists. exists (Ingredient.id i). split.
  - now apply in_map.
  - rewrite E. apply String.eqb_refl.
Qed.

Lemma wasteCost_per_ingredient_total_witness :
  let flour := Ingredient.mk "i1" "Flour" "kg" 20 None 5 2 "outlet-1" in
  let salt := Ingredient.mk "i2" "Salt" "kg" 3 None 1 1 "outlet-1" in
  let waste := [WasteRecord.mk 19999 "i1" 2 "Spoiled" 40 "outlet-1";
                WasteRecord.mk 19990 "i2" 1 "Expired" 3 "outlet-1";
                WasteRecord.mk 19998 "i1" 1 "Spoiled" 20 "outlet-1";
                WasteRecord.mk 19000 "i9" 1 "Spoiled" 500 "outlet-1"] in
  Qsum (map IngredientWithWasteCost.wasteCostLast30Days
            (ingredientsWithWasteCost (20000 * msPerDay) [flour; salt] waste))
  == 63.
Proof.
  intros flour salt waste.
  rewrite (wasteCost_per_ingredient_total (20000 * msPerDay) [flour; salt] waste).
  - vm_compute. reflexivity.
  - simpl. repeat constructor; simpl; intuition discriminate.
  - intros w [<-|[<-|[<-|[<-|[]]]]] Hkept;
      try discriminate Hkept;
      [exists flour | exists salt | exists flour]; simpl; auto.
Defined.

Lemma values_set_sum (m : JsMap.t (K := Id) (V := Q)) (k : Id) (v : Q) :
  Qsum (JsMap.values (JsMap.set String.eqb m k v))
  == Qsum (JsMap.values m) - valueOr0 m k + v.
Proof.
  unfold JsMap.values, valueOr0.
  induction m as [|[a y] m IH]; cbn [JsMap.set JsMap.get map snd].
  - rewrite Qsum_cons, Qsum_nil. ring.
  - destruct (String.eqb a k); cbn [map snd].
    + rewrite !Qsum_cons. unfold Id. ring.
    + rewrite !Qsum_cons, IH. unfold Id. ring.
Qed.

Lemma keys_set_In {V} (m : JsMap.t (K := Id) (V := V)) (k k' : Id) (v : V) :
  In k' (JsMap.keys (JsMap.set String.eqb m k v))
  <-> k' = k \/ In k' (JsMap.keys m).
Proof.
  destruct (in_dec string_dec k (JsMap.keys m)) as [Hin|Hout].
  - rewrite (keys_set_present _ string_eqb_spec) by exact Hin.
    split; [tauto | intros [->|H]; assumption].
  - rewrite (keys_set_absent _ string_eqb_spec) by exact Hout.
    rewrite in_app_iff. simpl. intuition.
Qed.

Lemma combine_keys_values {V} (m : JsMap.t (K := Id) (V := V)) :
  combine (JsMap.keys m) (JsMap.values m) = m.
Proof.
  unfold JsMap.keys, JsMap.values.
  induction m as [|[a y] m IH]; simpl; [reflexivity | now rewrite IH].
Qed.

Lemma wasteSummaryStep_value (ws : list WasteRecord.t) :
  forall (acc : JsMap.t (K := Id) (V := Q)) (k : Id),
    valueOr0 (fold_left wasteSummaryStep ws acc) k
    == valueOr0 acc k
       + Qsum (map WasteRecord.cost
                   (filter (fun w => String.eqb (WasteRecord.reason w) k) ws)).
Proof.
  induction ws as [|w ws IH]; intros acc k; cbn [fold_left filter].
  - cbn [map]. rewrite Qsum_nil. ring.
  - rewrite IH. unfold wasteSummaryStep. rewrite accumulate_value.
    destruct (String.eqb (WasteRecord.reason w) k); cbn [map].
    + rewrite Qsum_cons. ring.
    + ring.
Qed.

Lemma wasteSummaryStep_sum (ws : list WasteRecord.t) :
  forall acc : JsMap.t (K := Id) (V := Q),
    Qsum (JsMap.values (fold_left wasteSummaryStep ws acc))
    == Qsum (JsMap.values acc) + Qsum (map WasteRecord.cost ws).
Proof.
  induction ws as [|w ws IH]; intros acc; cbn [fold_left map].
  - rewrite Qsum_nil, Qplus_0_r. reflexivity.
  - rewrite IH. unfold wasteSummaryStep.
    rewrite values_set_sum, opt_or_else_value, Qsum_cons. unfold Id. ring.
Qed.

Lemma wasteSummaryStep_keys (ws : list WasteRecord.t) :
  forall acc : JsMap.t (K := Id) (V := Q),
    (NoDup (JsMap.keys acc) ->
     NoDup (JsMap.keys (fold_left wasteSummaryStep ws acc)))
    /\ forall k, In k (JsMap.keys (fold_left wasteSummaryStep ws acc))
                 <-> In k (JsMap.keys acc)
                     \/ exists w, In w ws /\ WasteRecord.reason w = k.
Proof.
  induction ws as [|w ws IH]; intros acc; cbn [fold_left].
  - split; [tauto|]. intros k. split; [tauto | intros [H|[w [[] _]]]; exact H].
  - destruct (IH (wasteSummaryStep acc w)) as [IHnd IHin]. split.
    + intros ND. apply IHnd. unfold wasteSummaryStep.
      now apply (keys_NoDup_set _ string_eqb_spec).
    + intros k. rewrite IHin. unfold wasteSummaryStep at 1. rewrite keys_set_In.
      split.
      * intros [[->|H]|[w' [Hw' E]]].
        -- right. exists w. split; [now left | reflexivity].
        -- now left.
        -- right. exists w'. split; [now right | exact E].
      * intros [H|[w' [[<-|Hw'] E]]].
        -- left. now right.
        -- left. left. now symmetry.
        -- right. now exists w'.
Qed.

Lemma reasons_init (wasteReasons : list string) :
  forall acc : JsMap.t (K := Id) (V := Q),
    let init := fold_left (fun acc r => JsMap.set String.eqb acc r 0) wasteReasons acc in
    (NoDup (JsMap.keys acc) -> NoDup (JsMap.keys init))
    /\ (forall k, In k (JsMap.keys init) <-> In k (JsMap.keys acc) \/ In k wasteReasons)
    /\ (Forall (fun e => snd e = 0) acc -> Forall (fun e => snd e = 0) init).
Proof.
  induction wasteReasons as [|r rs IH]; intros acc; cbn [fold_left].
  - refine (conj _ (conj _ _)); try tauto. intros k. simpl. tauto.
  - destruct (IH (JsMap.set String.eqb acc r 0)) as [IHnd [IHin IHz]].
    refine (conj _ (conj _ _)).
    + intros ND. apply IHnd. now apply (keys_NoDup_set _ string_eqb_spec).
    + intros k. rewrite IHin, keys_set_In. simpl. intuition.
    + intros Hz. apply IHz. now apply (set_values_Forall (fun v => v = 0)).
Qed.

Lemma zero_values_sum (m : JsMap.t (K := Id) (V := Q)) :
  Forall (fun e => snd e = 0) m ->
  Qsum (JsMap.values m) == 0 /\ forall k, valueOr0 m k == 0.
Proof.
  unfold JsMap.values, valueOr0.
  induction m as [|[a y] m IH]; intros H; simpl.
  - split; [reflexivity | intros; reflexivity].
  - inversion H as [|? ? Hy Hm]; subst. simpl in Hy. subst y.
    destruct (IH Hm) as [Hs Hv]. split.
    + rewrite Qsum_cons, Hs. ring.
    + intros k. destruct (String.eqb a k); [reflexivity | apply Hv].
Qed.

(** X5.  When the enumerated reasons and the reasons of the records are
    plain keys (no name inherited from [Object.prototype], not written in
    digits only), [wasteSummary] gives one label per reason, without
    repetition: the enumerated reasons and the reasons of the records.
    The value at a label is the cost of the records with that reason, and
    the values add up to the cost of all waste records. *)
Theorem wasteSummary_by_reason
    (wasteReasons : list string) (wasteHistory : list WasteRecord.t)
    (plain_reasons : forall r, In r wasteReasons -> Js.plainKey r = true)
    (plain_records :
       forall w, In w wasteHistory -> Js.plainKey (WasteRecord.reason w) = true) :
  exists summary,
    wasteSummary wasteReasons wasteHistory = Some summary
    /\ List.length (WasteSummary.labels summary)
       = List.length (WasteSummary.data summary)
    /\ NoDup (WasteSummary.labels summary)
    /\ (forall r, In r (WasteSummary.labels summary)
                  <-> In r wasteReasons
                      \/ exists w, In w wasteHistory /\ WasteRecord.reason w = r)
    /\ (forall r v,
          In (r, v) (combine (WasteSummary.labels summary)
                             (WasteSummary.data summary)) ->
          v == Qsum (map WasteRecord.cost
                         (filter (fun w => String.eqb (WasteRecord.reason w) r)
                                 wasteHistory)))
    /\ Qsum (WasteSummary.data summary) == Qsum (map WasteRecord.cost wasteHistory).
Proof.
  unfold wasteSummary.
  assert (forallb Js.plainKey wasteReasons = true) as ->
    by (apply forallb_forall; exact plain_reasons).
  assert (forallb (fun record => Js.plainKey (WasteRecord.reason record))
                  wasteHistory = true) as ->
    by (apply forallb_forall; exact plain_records).
  cbn [andb]. eexists. split; [reflexivity|].
  cbn [WasteSummary.labels WasteSummary.data].
  destruct (reasons_init wasteReasons JsMap.empty) as [Hnd [Hin Hz]].
  unfold Id in *.
  set (init := fold_left _ wasteReasons JsMap.empty) in *.
  destruct (zero_values_sum init (Hz (Forall_nil _))) as [Hsum0 Hval0].
  destruct (wasteSummaryStep_keys wasteHistory init) as [Hnd' Hin'].
  assert (NoDup (JsMap.keys (fold_left wasteSummaryStep wasteHistory init))) as ND
    by (apply Hnd', Hnd; constructor).
  refine (conj _ (conj ND (conj _ (conj _ _)))).
  - unfold JsMap.keys, JsMap.values. now rewrite !length_map.
  - intros r. rewrite Hin', Hin. simpl. tauto.
  - intros r v Hrv. rewrite combine_keys_values in Hrv.
    apply (In_get _ string_eqb_spec _ _ _ ND) in Hrv.
    pose proof (wasteSummaryStep_value wasteHistory init r) as Hv.
    unfold valueOr0 at 1 in Hv. rewrite Hrv in Hv.
    rewrite Hv, (Hval0 r). ring.
  - rewrite wasteSummaryStep_sum, Hsum0. ring.
Qed.

Lemma wasteSummary_by_reason_witness :
  let reasons := ["Spoiled"; "Expired"; "Other"]%string in
  let waste := [WasteRecord.mk 20000 "i1" 2 "Spoiled" 30 "outlet-1";
                WasteRecord.mk 20000 "i2" 1 "Dropped on the floor" 12 "outlet-1";
                WasteRecord.mk 19999 "i1" 1 "Spoiled" 15 "outlet-1"] in
  exists summary,
    wasteSummary reasons waste = Some summary
    /\ WasteSummary.labels summary
       = ["Spoiled"; "Expired"; "Other"; "Dropped on the floor"]%string
    /\ Qsum (WasteSummary.data summary) == 57
    /\ wasteSummary reasons
         [WasteRecord.mk 20000 "i1" 2 "constructor" 30 "outlet-1"] = None.
Proof.
  intros reasons waste.
  destruct (wasteSummary_by_reason reasons waste)
    as [summary [Hsummary [_ [_ [_ [_ Hsum]]]]]].
  - intros r [<-|[<-|[<-|[]]]]; reflexivity.
  - intros w [<-|[<-|[<-|[]]]]; reflexivity.
  - exists summary. refine (conj Hsummary (conj _ (conj _ _))).
    + vm_compute in Hsummary. injection Hsummary as <-. reflexivity.
    + rewrite Hsum. vm_compute. reflexivity.
    + vm_compute. reflexivity.
Defined.

(** ** The detail view of a menu item *)

Lemma populated_cost (ingredients : list Ingredient.t)
    (recipe : list RecipeComponent.t) :
  Qsum (map (fun p : Ingredient.t * Q => Ingredient.price (fst p) * snd p)
            (flat_map
               (fun component =>
                  match JsMap.get String.eqb (ingredientsMapOf ingredients)
                                  (RecipeComponent.ingredientId component) with
                  | Some ingredient =>
                      [(ingredient, RecipeComponent.quantity component)]
                  | None => []
                  end)
               recipe))
  == Qsum (map (componentCost ingredients) recipe).
Proof.
  induction recipe as [|c recipe IH]; cbn [flat_map map].
  - reflexivity.
  - rewrite map_app, Qsum_app, IH, Qsum_cons. unfold componentCost at 2.
    destruct (JsMap.get String.eqb (ingredientsMapOf ingredients)
                        (RecipeComponent.ingredientId c)); cbn [map fst snd].
    + rewrite Qsum_cons, Qsum_nil. ring.
    + rewrite Qsum_nil. ring.
Qed.

(** X6.  [getMenuItemById] answers null for no id, for the empty id and
    for an id that no menu item has.  Otherwise it gives the first menu
    item with that id, together with the ingredients of the outlet that
    its recipe names, each with the quantity of its component; priced
    out, these ingredients give exactly the item's cost of goods. *)
Theorem getMenuItemById_detail (st : HookState.t) (id : option Id) :
  match Hook.getMenuItemById st id with
  | None =>
      id = None \/ id = Some EmptyString
      \/ exists k, id = Some k
                   /\ forall m, In m (Hook.menuItems st) -> MenuItem.id m <> k
  | Some (m, populated) =>
      In m (Hook.menuItems st)
      /\ id = Some (MenuItem.id m)
      /\ (forall p, In p populated ->
            In (fst p) (Hook.ingredients st)
            /\ exists c, In c (MenuItem.recipe m)
                         /\ RecipeComponent.ingredientId c = Ingredient.id (fst p)
                         /\ RecipeComponent.quantity c = snd p)
      /\ MenuItem.cogs m
         == Qsum (map (fun p : Ingredient.t * Q => Ingredient.price (fst p) * snd p)
                      populated)
  end.
Proof.
  unfold Hook.getMenuItemById. destruct id as [k|]; [|now left].
  destruct (String.eqb_spec k EmptyString) as [->|Hk]; [right; now left|].
  destruct (find (fun item => String.eqb (MenuItem.id item) k) (Hook.menuItems st))
    as [m|] eqn:F.
  - apply find_some in F. destruct F as [Hm Ek]. apply String.eqb_eq in Ek.
    refine (conj Hm (conj _ (conj _ _))).
    + now rewrite Ek.
    + intros p Hp. apply in_flat_map in Hp. destruct Hp as [c [Hc Hp]].
      destruct (JsMap.get String.eqb (ingredientsMapOf (Hook.ingredients st))
                          (RecipeComponent.ingredientId c)) as [i|] eqn:G;
        [|contradiction].
      destruct Hp as [<-|[]]. cbn [fst snd].
      apply (get_of_entries_Some _ string_eqb_spec) in G.
      apply in_map_iff in G. destruct G as [i' [E Hi']].
      injection E as E1 E2. subst i'. split; [exact Hi'|].
      exists c. now rewrite E1.
    + rewrite populated_cost, <- cogs_fold.
      unfold Hook.menuItems in Hm. apply menuItems_In in Hm.
      destruct Hm as [item [_ ->]]. reflexivity.
  - right. right. exists k. split; [reflexivity|].
    intros m Hm E. pose proof (find_none _ _ F m Hm) as N. cbv beta in N.
    rewrite E, String.eqb_refl in N. discriminate.
Qed.

(** ** Read notifications *)

Lemma existsb_eqb_In (a : string) (l : list string) :
  existsb (String.eqb a) l = true <-> In a l.
Proof.
  rewrite existsb_exists. split.
  - intros [y [Hy Ey]]. apply String.eqb_eq in Ey. now subst.
  - intros Hl. exists a. split; [exact Hl | apply String.eqb_refl].
Qed.

Lemma uniqueInOrder_In (xs : list string) :
  forall seen x,
    In x (uniqueInOrder seen xs) <-> In x xs /\ ~ In x seen.
Proof.
  induction xs as [|a xs IH]; intros seen x; cbn [uniqueInOrder].
  - simpl. tauto.
  - destruct (existsb (String.eqb a) seen) eqn:E.
    + apply existsb_exists in E. destruct E as [y [Hy Ey]].
      apply String.eqb_eq in Ey. subst y.
      rewrite IH. simpl. split.
      * intros [H N]. split; [now right | exact N].
      * intros [[->|H] N]; [contradiction | now split].
    + assert (~ In a seen) as Ha.
      { intros Hin. apply existsb_eqb_In in Hin. congruence. }
      clear E. simpl. rewrite IH. simpl. split.
      * intros [->|[H N]]; [split; [now left | exact Ha]|].
        split; [now right | tauto].
      * intros [[->|H] N]; [now left|].
        destruct (string_dec a x) as [->|Nax]; [now left|].
        right. split; [exact H | intros [E|Hin]; [congruence | contradiction]].
Qed.

Lemma uniqueInOrder_NoDup (xs : list string) :
  forall seen, NoDup (uniqueInOrder seen xs).
Proof.
  induction xs as [|a xs IH]; intros seen; cbn [uniqueInOrder].
  - constructor.
  - destruct (existsb (String.eqb a) seen); [apply IH|].
    constructor; [|apply IH].
    rewrite uniqueInOrder_In. intros [_ N]. apply N. now left.
Qed.

Lemma uniqueInOrder_seen (ys : list string) :
  forall seen, (forall y, In y ys -> In y seen) -> uniqueInOrder seen ys = [].
Proof.
  intros seen H. destruct (uniqueInOrder seen ys) as [|x l] eqn:E; [reflexivity|].
  assert (In x (uniqueInOrder seen ys)) as Hx by (rewrite E; now left).
  apply uniqueInOrder_In in Hx. destruct Hx as [Hx N]. exfalso. now apply N, H.
Qed.

(** The entries of a list without repetition keep their place, whatever
    is added behind them. *)
Lemma uniqueInOrder_prefix (xs ys : list string) :
  forall seen,
    NoDup xs -> (forall x, In x xs -> ~ In x seen) ->
    uniqueInOrder seen (xs ++ ys) = xs ++ uniqueInOrder (rev xs ++ seen) ys.
Proof.
  induction xs as [|a xs IH]; intros seen ND Hdisj.
  - reflexivity.
  - inversion ND as [|? ? Hnot ND']; subst.
    cbn [app uniqueInOrder].
    destruct (existsb (String.eqb a) seen) eqn:E.
    + apply existsb_exists in E. destruct E as [y [Hy Ey]].
      apply String.eqb_eq in Ey. subst y. exfalso.
      apply (Hdisj a); [now left | exact Hy].
    + f_equal. rewrite IH.
      * cbn [rev]. now rewrite <- app_assoc.
      * exact ND'.
      * intros x Hx [<-|Hin]; [contradiction|].
        apply (Hdisj x); [now right | exact Hin].
Qed.

(** Only the members of [seen] matter, not their order. *)
Lemma uniqueInOrder_seen_ext (xs : list string) :
  forall seen seen',
    (forall x, In x seen <-> In x seen') ->
    uniqueInOrder seen xs = uniqueInOrder seen' xs.
Proof.
  induction xs as [|a xs IH]; intros seen seen' H; cbn [uniqueInOrder].
  - reflexivity.
  - assert (existsb (String.eqb a) seen = existsb (String.eqb a) seen') as E.
    { apply eq_true_iff_eq. now rewrite !existsb_eqb_In. }
    rewrite E. destruct (existsb (String.eqb a) seen').
    + now apply IH.
    + f_equal. apply IH. intros x. simpl. now rewrite H.
Qed.

(** X7.  [markNotificationsAsRead] keeps the read ids as a set: the new
    list has no repetition and holds exactly the ids read before and the
    ids given; marking the same ids again changes nothing; and ids read
    before keep their place, followed by the given ids that were not yet
    read, in the order of their first occurrence. *)
Theorem markNotificationsAsRead_set (ids prev : list string) :
  let read := markNotificationsAsRead ids prev in
  NoDup read
  /\ (forall x, In x read <-> In x prev \/ In x ids)
  /\ markNotificationsAsRead ids read = read
  /\ (NoDup prev -> read = prev ++ uniqueInOrder prev ids).
Proof.
  intros read. unfold read, markNotificationsAsRead.
  assert (forall x, In x (uniqueInOrder [] (prev ++ ids)) <-> In x prev \/ In x ids)
    as Hin.
  { intros x. rewrite uniqueInOrder_In, in_app_iff. simpl. tauto. }
  refine (conj (uniqueInOrder_NoDup _ _) (conj Hin (conj _ _))).
  - rewrite (uniqueInOrder_prefix (uniqueInOrder [] (prev ++ ids)) ids []).
    + rewrite (uniqueInOrder_seen ids (rev (uniqueInOrder [] (prev ++ ids)) ++ []));
        [apply app_nil_r|].
      intros y Hy. rewrite in_app_iff. left. apply -> in_rev.
      apply Hin. now right.
    + apply uniqueInOrder_NoDup.
    + intros x _ [].
  - intros ND. rewrite (uniqueInOrder_prefix prev ids []) by (try exact ND; intros x _ []).
    f_equal. apply uniqueInOrder_seen_ext.
    intros x. rewrite app_nil_r. symmetry. apply in_rev.
Qed.

(** ** The stock check before a batch of sales *)

Lemma requireStep_value (q : Q) (recipe : list RecipeComponent.t) :
  forall (acc : JsMap.t (K := Id) (V := Q)) (k : Id),
    valueOr0 (fold_left (Hook.requireStep q) recipe acc) k
    == valueOr0 acc k + recipeConsumption k q recipe.
Proof.
  induction recipe as [|c recipe IH]; intros acc k; cbn [fold_left].
  - unfold recipeConsumption. cbn [filter map]. rewrite Qsum_nil. ring.
  - rewrite IH, recipeConsumption_cons. unfold Hook.requireStep.
    rewrite accumulate_value. ring.
Qed.

Lemma requireItemStep_value (st : HookState.t)
    (sales : JsMap.t (K := Id) (V := Q)) (menuItems : list MenuItem.t) :
  forall (acc : JsMap.t (K := Id) (V := Q)) (k : Id),
    valueOr0 (fold_left (Hook.requireItemStep sales) menuItems acc) k
    == valueOr0 acc k + consumption sales menuItems k.
Proof.
  induction menuItems as [|m menuItems IH]; intros acc k; cbn [fold_left].
  - unfold consumption. cbn [map]. rewrite Qsum_nil. ring.
  - rewrite IH, consumption_cons. unfold Hook.requireItemStep.
    fold (soldCountOf sales m).
    destruct (Js.gt (soldCountOf sales m) 0).
    + rewrite requireStep_value. ring.
    + ring.
Qed.

(** What the stock check requires of an ingredient is what the batch
    takes of it. *)
Lemma requiredIngredients_value (st : HookState.t)
    (sales : JsMap.t (K := Id) (V := Q)) (k : Id) :
  Js.opt_or_else (JsMap.get String.eqb (Hook.requiredIngredientsOf st sales) k) 0
  == consumption sales (Hook.menuItems st) k.
Proof.
  rewrite opt_or_else_value. unfold Hook.requiredIngredientsOf.
  rewrite (requireItemStep_value st). unfold valueOr0. simpl. ring.
Qed.

Lemma stockMap_value (ingredients : list Ingredient.t) (k : Id) :
  NoDup (map Ingredient.id ingredients) ->
  Js.opt_or_else
    (JsMap.get String.eqb
       (JsMap.of_entries String.eqb
          (map (fun i => (Ingredient.id i, Ingredient.stockLevel i)) ingredients)) k) 0
  == availableStock ingredients k.
Proof.
  intros ND. unfold availableStock.
  destruct (Hook.findIngredient k ingredients) as [i|] eqn:F.
  - apply findIngredient_id in F. destruct F as [Hi <-].
    rewrite (get_of_entries_unique _ string_eqb_spec _ (Ingredient.id i)
               (Ingredient.stockLevel i)).
    + apply or_else_zero.
    + rewrite map_map. exact ND.
    + apply in_map_iff. now exists i.
  - assert (JsMap.get String.eqb
              (JsMap.of_entries String.eqb
                 (map (fun i => (Ingredient.id i, Ingredient.stockLevel i))
                      ingredients)) k = None) as ->; [|reflexivity].
    apply (get_of_entries_None _ string_eqb_spec).
    intros e He. apply in_map_iff in He. destruct He as [i [<- Hi]]. cbn [fst].
    intros E. pose proof (find_none _ _ F i Hi) as N. cbv beta in N.
    rewrite E, String.eqb_refl in N. discriminate.
Qed.

(** The test of the stock check, read as a comparison of what the batch
    takes with what the outlet holds. *)
Lemma insufficientComponent_iff (st : HookState.t)
    (sales : JsMap.t (K := Id) (V := Q)) (c : RecipeComponent.t) :
  NoDup (map Ingredient.id (Hook.ingredients st)) ->
  Hook.insufficientComponent
    (Hook.requiredIngredientsOf st sales)
    (JsMap.of_entries String.eqb
       (map (fun i => (Ingredient.id i, Ingredient.stockLevel i))
            (Hook.ingredients st))) c = true
  <-> shortComponent st sales c.
Proof.
  intros ND. unfold Hook.insufficientComponent, shortComponent.
  rewrite gt_iff, requiredIngredients_value, (stockMap_value _ _ ND). reflexivity.
Qed.

Lemma set_not_empty {V} (m : JsMap.t (K := Id) (V := V)) (k : Id) (v : V) :
  JsMap.set String.eqb m k v <> [].
Proof.
  destruct m as [|[a x] m]; simpl; [discriminate|].
  destruct (String.eqb a k); discriminate.
Qed.

Lemma warnStep_empty (st : HookState.t)
    (sales required stockMap : JsMap.t (K := Id) (V := Q))
    (menuItems : list MenuItem.t) :
  forall warnings,
    fold_left (Hook.warnStep st sales required stockMap) menuItems warnings = [] ->
    warnings = []
    /\ forall m, In m menuItems -> Hook.warnStep st sales required stockMap [] m = [].
Proof.
  induction menuItems as [|m menuItems IH]; intros warnings H; cbn [fold_left] in H.
  - split; [exact H | intros m []].
  - destruct (IH _ H) as [Hstep Hrest].
    assert (warnings = []) as ->.
    { unfold Hook.warnStep in Hstep.
      destruct (Js.gt _ 0); [|exact Hstep].
      destruct (find _ (MenuItem.recipe m)); [|exact Hstep].
      destruct (find _ (Hook.ingredients st)); [|exact Hstep].
      now apply set_not_empty in Hstep. }
    split; [reflexivity|]. intros m' [<-|Hm']; [exact Hstep | now apply Hrest].
Qed.

(** A warning, once given, stays; the step of a menu item gives it
    exactly when the first short component of its recipe names an
    ingredient of the outlet. *)
Lemma warnStep_get (st : HookState.t)
    (sales required stockMap : JsMap.t (K := Id) (V := Q))
    (warnings : JsMap.t (K := Id) (V := string)) (m : MenuItem.t) (k : Id) :
  JsMap.get String.eqb (Hook.warnStep st sales required stockMap warnings m) k
  = if String.eqb (MenuItem.id m) k
    then match JsMap.get String.eqb
                 (Hook.warnStep st sales required stockMap [] m) (MenuItem.id m) with
         | Some msg => Some msg
         | None => JsMap.get String.eqb warnings k
         end
    else JsMap.get String.eqb warnings k.
Proof.
  unfold Hook.warnStep.
  destruct (Js.gt _ 0);
    [|simpl; now destruct (String.eqb (MenuItem.id m) k)].
  destruct (find _ (MenuItem.recipe m));
    [|simpl; now destruct (String.eqb (MenuItem.id m) k)].
  destruct (find _ (Hook.ingredients st));
    [|simpl; now destruct (String.eqb (MenuItem.id m) k)].
  rewrite !(get_set _ string_eqb_spec), String.eqb_refl.
  now destruct (String.eqb (MenuItem.id m) k).
Qed.

Lemma warnings_sound (st : HookState.t)
    (sales required stockMap : JsMap.t (K := Id) (V := Q))
    (menuItems : list MenuItem.t) (k : Id) (msg : string) :
  forall warnings,
    JsMap.get String.eqb
      (fold_left (Hook.warnStep st sales required stockMap) menuItems warnings) k
    = Some msg ->
    JsMap.get String.eqb warnings k = Some msg
    \/ exists m, In m menuItems /\ MenuItem.id m = k
                 /\ JsMap.get String.eqb
                      (Hook.warnStep st sales required stockMap [] m) k = Some msg.
Proof.
  induction menuItems as [|m menuItems IH]; intros warnings H; cbn [fold_left] in H.
  - now left.
  - destruct (IH _ H) as [Hm|[m' [Hin [E G]]]].
    + rewrite warnStep_get in Hm.
      destruct (String.eqb_spec (MenuItem.id m) k) as [E|N]; [|now left].
      destruct (JsMap.get String.eqb
                  (Hook.warnStep st sales required stockMap [] m) (MenuItem.id m))
        as [msg'|] eqn:G; [|now left].
      right. exists m. rewrite <- E.
      refine (conj (or_introl eq_refl) (conj eq_refl _)). congruence.
    + right. exists m'. exact (conj (or_intror Hin) (conj E G)).
Qed.

Lemma warnings_complete (st : HookState.t)
    (sales required stockMap : JsMap.t (K := Id) (V := Q))
    (menuItems : list MenuItem.t) (m : MenuItem.t) :
  In m menuItems ->
  JsMap.get String.eqb (Hook.warnStep st sales required stockMap [] m) (MenuItem.id m)
  <> None ->
  forall warnings,
    JsMap.get String.eqb
      (fold_left (Hook.warnStep st sales required stockMap) menuItems warnings)
      (MenuItem.id m) <> None.
Proof.
  intros Hin Hm.
  assert (forall l warnings,
             JsMap.get String.eqb warnings (MenuItem.id m) <> None ->
             JsMap.get String.eqb
               (fold_left (Hook.warnStep st sales required stockMap) l warnings)
               (MenuItem.id m) <> None) as Hkeep.
  { induction l as [|x l IH]; intros warnings H; cbn [fold_left]; [exact H|].
    apply IH. rewrite warnStep_get.
    destruct (String.eqb (MenuItem.id x) (MenuItem.id m)); [|exact H].
    destruct (JsMap.get String.eqb _ (MenuItem.id x)); [discriminate | exact H]. }
  induction menuItems as [|x l IH]; intros warnings; [contradiction|].
  cbn [fold_left]. destruct Hin as [->|Hin]; [|now apply IH].
  apply Hkeep. rewrite warnStep_get, String.eqb_refl.
  destruct (JsMap.get String.eqb _ (MenuItem.id m)); [discriminate | contradiction].
Qed.

(** The step of one menu item, from no warnings. *)
Lemma warnStep_alone (st : HookState.t) (sales : JsMap.t (K := Id) (V := Q))
    (m : MenuItem.t) (k : Id) (msg : string) :
  NoDup (map Ingredient.id (Hook.ingredients st)) ->
  JsMap.get String.eqb
    (Hook.warnStep st sales (Hook.requiredIngredientsOf st sales)
       (JsMap.of_entries String.eqb
          (map (fun i => (Ingredient.id i, Ingredient.stockLevel i))
               (Hook.ingredients st))) [] m) k = Some msg ->
  0 < soldCountOf sales m
  /\ exists c i,
       In c (MenuItem.recipe m)
       /\ Hook.findIngredient (RecipeComponent.ingredientId c) (Hook.ingredients st)
          = Some i
       /\ Ingredient.stockLevel i
          < consumption sales (Hook.menuItems st) (RecipeComponent.ingredientId c)
       /\ msg = Hook.stockWarning (Ingredient.name i).
Proof.
  intros ND. unfold Hook.warnStep. fold (soldCountOf sales m).
  destruct (Js.gt (soldCountOf sales m) 0) eqn:Hsold; [|discriminate].
  apply gt_iff in Hsold.
  destruct (find _ (MenuItem.recipe m)) as [c|] eqn:Fc; [|discriminate].
  fold (Hook.findIngredient (RecipeComponent.ingredientId c) (Hook.ingredients st)).
  destruct (Hook.findIngredient (RecipeComponent.ingredientId c) (Hook.ingredients st))
    as [i|] eqn:Fi; [|discriminate].
  simpl. destruct (String.eqb (MenuItem.id m) k); [|discriminate].
  intros E. injection E as <-. split; [exact Hsold|].
  apply find_some in Fc. destruct Fc as [Hc Hshort].
  apply (insufficientComponent_iff st sales c ND) in Hshort.
  unfold shortComponent, availableStock in Hshort. rewrite Fi in Hshort.
  exists c, i. now repeat split.
Qed.

(** X8.  The stock check, with distinct ingredient ids.  A warning for a
    menu item id means that a menu item with that id is sold in the batch
    and that its recipe has a component of which the batch takes more
    than the outlet holds; the warning names that ingredient.  And a
    menu item sold in the batch gets a warning when its recipe names
    ingredients of the outlet only and the batch takes more of one of
    them than the outlet holds. *)
Theorem checkStockAvailability_warnings (st : HookState.t)
    (sales : JsMap.t (K := Id) (V := Q))
    (unique_ids : NoDup (map Ingredient.id (Hook.ingredients st))) :
  (forall k msg,
      JsMap.get String.eqb (Hook.checkStockAvailability st sales) k = Some msg ->
      exists m c i,
        In m (Hook.menuItems st) /\ MenuItem.id m = k
        /\ 0 < soldCountOf sales m
        /\ In c (MenuItem.recipe m)
        /\ Hook.findIngredient (RecipeComponent.ingredientId c) (Hook.ingredients st)
           = Some i
        /\ Ingredient.stockLevel i
           < consumption sales (Hook.menuItems st) (RecipeComponent.ingredientId c)
        /\ msg = Hook.stockWarning (Ingredient.name i))
  /\ (forall m,
        In m (Hook.menuItems st) -> 0 < soldCountOf sales m ->
        (forall c, In c (MenuItem.recipe m) ->
                   found (RecipeComponent.ingredientId c) (Hook.ingredients st)) ->
        (exists c, In c (MenuItem.recipe m) /\ shortComponent st sales c) ->
        JsMap.get String.eqb (Hook.checkStockAvailability st sales) (MenuItem.id m)
        <> None).
Proof.
  unfold Hook.checkStockAvailability. cbv zeta. split.
  - intros k msg H. apply warnings_sound in H.
    destruct H as [H|[m [Hm [E G]]]]; [discriminate|].
    destruct (warnStep_alone st sales m k msg unique_ids G)
      as [Hsold [c [i [Hc [Fi [Hshort Hmsg]]]]]].
    exists m, c, i. now repeat split.
  - intros m Hm Hsold Hfound [c [Hc Hshort]].
    apply warnings_complete; [exact Hm|].
    unfold Hook.warnStep. fold (soldCountOf sales m).
    apply gt_iff in Hsold. rewrite Hsold.
    destruct (find _ (MenuItem.recipe m)) as [c'|] eqn:Fc.
    + apply find_some in Fc. destruct Fc as [Hc' _].
      fold (Hook.findIngredient (RecipeComponent.ingredientId c')
                                (Hook.ingredients st)).
      destruct (Hook.findIngredient (RecipeComponent.ingredientId c')
                                    (Hook.ingredients st)) eqn:Fi.
      * simpl. rewrite String.eqb_refl. discriminate.
      * exfalso. now apply (Hfound c' Hc').
    + exfalso. pose proof (find_none _ _ Fc c Hc) as N.
      apply (insufficientComponent_iff st sales c unique_ids) in Hshort.
      congruence.
Qed.

Lemma checkStockAvailability_warnings_witness :
  let flour := Ingredient.mk "i1" "Flour" "kg" 20 None 1 2 "outlet-1" in
  let sugar := Ingredient.mk "i2" "Sugar" "kg" 10 None 10 2 "outlet-1" in
  let rows := [RecipeRow.mk "m1" "i2" 1; RecipeRow.mk "m1" "i1" (1 # 2)] in
  let db := Snapshot.mk [Outlet.mk "outlet-1" "Main"] [flour; sugar]
              [MenuItemData.mk "m1" "Cake" "" 400 50 []] rows [] [] [] [] None in
  let st := HookState.mk db "outlet-1" 30 in
  JsMap.get String.eqb (Hook.checkStockAvailability st [("m1"%string, 4)])
            "m1"%string
  <> None.
Proof.
  intros flour sugar rows db st.
  assert (NoDup (map Ingredient.id (Hook.ingredients st))) as ND.
  { simpl. repeat constructor; simpl; intuition discriminate. }
  destruct (checkStockAvailability_warnings st [("m1"%string, 4)] ND) as [_ Hwarn].
  apply (Hwarn (costMenuItem (ingredientsMapOf [flour; sugar]) rows
                  (MenuItemData.mk "m1" "Cake" "" 400 50 []))).
  - left. reflexivity.
  - reflexivity.
  - intros c [<-|[<-|[]]]; unfold found; simpl; discriminate.
  - exists (RecipeComponent.mk "i1" (1 # 2)). split.
    + right. left. reflexivity.
    + unfold shortComponent. vm_compute. reflexivity.
Defined.

Lemma not_consumed_zero (sales : JsMap.t (K := Id) (V := Q))
    (menuItems : list MenuItem.t) (k : Id) :
  ~ consumed sales menuItems k -> consumption sales menuItems k == 0.
Proof.
  intros H. unfold consumption.
  rewrite (Qsum_map_ext _ (fun _ => 0)); [apply Qsum_map_zero|].
  intros m Hm. destruct (Js.gt (soldCountOf sales m) 0) eqn:Hsold; [|reflexivity].
  apply gt_iff in Hsold. unfold recipeConsumption.
  rewrite filter_none; [reflexivity|].
  intros c Hc. destruct (String.eqb_spec (RecipeComponent.ingredientId c) k) as [E|N];
    [|reflexivity].
  exfalso. apply H. exists m, c. now repeat split.
Qed.

Lemma consumed_dec (sales : JsMap.t (K := Id) (V := Q))
    (menuItems : list MenuItem.t) (k : Id) :
  consumed sales menuItems k \/ ~ consumed sales menuItems k.
Proof.
  destruct (existsb
              (fun m => Js.gt (soldCountOf sales m) 0
                        && existsb (fun c => String.eqb (RecipeComponent.ingredientId c) k)
                                   (MenuItem.recipe m))
              menuItems) eqn:E.
  - left. apply existsb_exists in E. destruct E as [m [Hm E]].
    apply andb_true_iff in E. destruct E as [Hsold E].
    apply existsb_exists in E. destruct E as [c [Hc E]].
    apply String.eqb_eq in E. apply gt_iff in Hsold. now exists m, c.
  - right. intros [m [c [Hm [Hsold [Hc Ek]]]]].
    assert (existsb
              (fun m => Js.gt (soldCountOf sales m) 0
                        && existsb (fun c => String.eqb (RecipeComponent.ingredientId c) k)
                                   (MenuItem.recipe m))
              menuItems = true) as T; [|congruence].
    apply existsb_exists. exists m. split; [exact Hm|].
    apply andb_true_iff. split; [now apply gt_iff|].
    apply existsb_exists. exists c. split; [exact Hc | now apply String.eqb_eq].
Qed.

(** Without a warning, no component of a sold recipe is short, provided
    the sold recipes name ingredients of the outlet only. *)
Lemma no_warning_no_short (st : HookState.t) (sales : JsMap.t (K := Id) (V := Q)) :
  NoDup (map Ingredient.id (Hook.ingredients st)) ->
  soldFromOutlet st sales ->
  Hook.checkStockAvailability st sales = JsMap.empty ->
  forall m c, In m (Hook.menuItems st) -> 0 < soldCountOf sales m ->
              In c (MenuItem.recipe m) -> ~ shortComponent st sales c.
Proof.
  intros ND Hfrom Hnone m c Hm Hsold Hc Hshort.
  unfold Hook.checkStockAvailability in Hnone. cbv zeta in Hnone.
  apply warnStep_empty in Hnone. destruct Hnone as [_ Hnone].
  specialize (Hnone m Hm). unfold Hook.warnStep in Hnone.
  fold (soldCountOf sales m) in Hnone.
  apply gt_iff in Hsold as Hgt. rewrite Hgt in Hnone.
  destruct (find _ (MenuItem.recipe m)) as [c'|] eqn:Fc.
  - apply find_some in Fc. destruct Fc as [Hc' _].
    pose proof (Hfrom m c' Hm Hsold Hc') as Hf. unfold found, Hook.findIngredient in Hf.
    destruct (find _ (Hook.ingredients st)); [|contradiction].
    now apply set_not_empty in Hnone.
  - pose proof (find_none _ _ Fc c Hc) as N.
    apply (insufficientComponent_iff st sales c ND) in Hshort. congruence.
Qed.

(** X9.  When the stock check gives no warning for a batch whose sold
    recipes name ingredients of the outlet only, recording the batch
    takes exactly what was sold: every ingredient of the outlet ends at
    its stock level less what the batch takes of it, and none is cut off
    at 0. *)
Theorem no_warning_exact_stock (w : World.t) (now : Instant)
    (sales : JsMap.t (K := Id) (V := Q))
    (in_sync : inSync w) (available : storeAvailable w)
    (unique_ids : uniqueIngredientIds (World.db w))
    (from_outlet : soldFromOutlet (World.hook w) sales)
    (no_warning : Hook.checkStockAvailability (World.hook w) sales = JsMap.empty) :
  exists w',
    run (fun st => Hook.processDailySales st now sales) w
    = (Returned (Hook.ingredients (World.hook w)), w')
    /\ forall i, In i (Hook.ingredients (World.hook w)) ->
         exists s, stockOf (World.db w') (Ingredient.id i) = Some s
                   /\ s == Ingredient.stockLevel i
                           - consumption sales (Hook.menuItems (World.hook w))
                                         (Ingredient.id i).
Proof.
  destruct (processDailySales_stock w now sales in_sync available unique_ids)
    as [w' [Hrun [Hstock _]]].
  exists w'. split; [exact Hrun|]. intros i Hi.
  destruct (outlet_ingredient_found _ _ i in_sync unique_ids Hi) as [_ Hfind].
  assert (NoDup (map Ingredient.id (Hook.ingredients (World.hook w)))) as ND.
  { unfold Hook.ingredients. apply NoDup_map_filter.
    unfold inSync in in_sync. rewrite in_sync. exact unique_ids. }
  destruct (Hstock i Hi) as [Hcons Hnot].
  destruct (consumed_dec sales (Hook.menuItems (World.hook w)) (Ingredient.id i))
    as [C|NC].
  - destruct (Hcons C) as [s [Hs Es]]. exists s. split; [exact Hs|].
    rewrite Es. destruct C as [m [c [Hm [Hsold [Hc Ek]]]]].
    pose proof (no_warning_no_short _ _ ND from_outlet no_warning m c Hm Hsold Hc)
      as Hok.
    unfold shortComponent, availableStock in Hok. rewrite Ek, Hfind in Hok.
    apply Qnot_lt_le in Hok. unfold Js.max. apply Q.max_r.
    unfold Qminus. rewrite <- Qle_minus_iff. exact Hok.
  - rewrite (Hnot NC). exists (Ingredient.stockLevel i). split; [reflexivity|].
    rewrite (not_consumed_zero _ _ _ NC). ring.
Qed.

Lemma no_warning_exact_stock_witness :
  let flour := Ingredient.mk "i1" "Flour" "kg" 20 None 5 2 "outlet-1" in
  let sugar := Ingredient.mk "i2" "Sugar" "kg" 10 None 10 2 "outlet-1" in
  let rows := [RecipeRow.mk "m1" "i1" (1 # 2); RecipeRow.mk "m1" "i2" 1] in
  let db := Snapshot.mk [Outlet.mk "outlet-1" "Main"] [flour; sugar]
              [MenuItemData.mk "m1" "Cake" "" 400 50 []] rows [] [] [] [] None in
  let st := HookState.mk db "outlet-1" 30 in
  let w := World.mk db st [] in
  exists w' s,
    run (fun st => Hook.processDailySales st (20000 * msPerDay) [("m1"%string, 4)]) w
    = (Returned [flour; sugar], w')
    /\ stockOf (World.db w') "i1" = Some s /\ s == 3.
Proof.
  intros flour sugar rows db st w.
  assert (uniqueIngredientIds db) as ND.
  { unfold uniqueIngredientIds. simpl.
    repeat constructor; simpl; intuition discriminate. }
  assert (soldFromOutlet st [("m1"%string, 4)]) as Hfrom.
  { intros m c [<-|[]] _ [<-|[<-|[]]]; unfold found; simpl; discriminate. }
  destruct (no_warning_exact_stock w (20000 * msPerDay)%Z [("m1"%string, 4)]
              eq_refl eq_refl ND Hfrom eq_refl) as [w' [Hrun Hstock]].
  destruct (Hstock flour (or_introl eq_refl)) as [s [Hs Es]].
  exists w', s. refine (conj Hrun (conj Hs _)). rewrite Es. reflexivity.
Defined.

(** ** Revenue on the dashboard and in the statement; the cost side *)

Lemma Qsum_filter_split {A} (f : A -> Q) (p : A -> bool) (l : list A) :
  Qsum (map f l)
  == Qsum (map f (filter p l)) + Qsum (map f (filter (fun x => negb (p x)) l)).
Proof.
  induction l as [|x l IH]; cbn [filter map].
  - rewrite Qsum_nil. ring.
  - rewrite Qsum_cons, IH. destruct (p x); cbn [negb map]; rewrite Qsum_cons; ring.
Qed.

Lemma dashboard_revenue_sum (st : HookState.t) (now : Instant) :
  DashboardStats.totalRevenue (Hook.dashboardStats st now)
  == Qsum (map SalesHistoryRecord.totalRevenue
               (keptSales now (HookState.dateRange st) (Hook.salesHistory st))).
Proof.
  unfold Hook.dashboardStats, dashboardStats.
  cbn [DashboardStats.totalRevenue]. rewrite fold_sum_map. reflexivity.
Qed.

Lemma statement_revenue_sum (st : HookState.t) (now : Instant) :
  ProfitLossStats.totalRevenue (Hook.profitLossStats st now)
  == Qsum (map SalesHistoryRecord.totalRevenue
               (filter (knownMenuItem (Hook.menuItems st))
                       (keptSales now (HookState.dateRange st) (Hook.salesHistory st)))).
Proof.
  unfold Hook.profitLossStats, calculateProfitLoss.
  cbn [ProfitLossStats.totalRevenue].
  rewrite profitLossStep_known_only, profitLossStep_revenue.
  - cbn [fst]. unfold keptSales, keptSince. ring.
  - intros s Hs. apply filter_In in Hs. tauto.
Qed.

(** X10.  The revenue on the dashboard is the revenue of the profit and
    loss statement plus the revenue of the sales of the range whose menu
    item no longer exists: the dashboard counts every sale of the range,
    the statement only those of a known menu item.  The two agree when
    every sale of the range has its menu item. *)
Theorem dashboard_revenue_and_statement_revenue (st : HookState.t) (now : Instant) :
  let kept := keptSales now (HookState.dateRange st) (Hook.salesHistory st) in
  DashboardStats.totalRevenue (Hook.dashboardStats st now)
  == ProfitLossStats.totalRevenue (Hook.profitLossStats st now)
     + Qsum (map SalesHistoryRecord.totalRevenue
                 (filter (fun s => negb (knownMenuItem (Hook.menuItems st) s)) kept))
  /\ ((forall s, In s kept -> knownMenuItem (Hook.menuItems st) s = true) ->
      DashboardStats.totalRevenue (Hook.dashboardStats st now)
      == ProfitLossStats.totalRevenue (Hook.profitLossStats st now)).
Proof.
  intros kept. split.
  - rewrite dashboard_revenue_sum, statement_revenue_sum. apply Qsum_filter_split.
  - intros Hknown. rewrite dashboard_revenue_sum, statement_revenue_sum.
    fold kept. now rewrite filter_all.
Qed.

Lemma dashboard_revenue_and_statement_revenue_witness :
  let cake := MenuItemData.mk "m1" "Cake" "" 400 50 [] in
  let db := Snapshot.mk [Outlet.mk "outlet-1" "Main"]
              [Ingredient.mk "i1" "Flour" "kg" 20 None 5 2 "outlet-1"]
              [cake] [RecipeRow.mk "m1" "i1" 3]
              [SalesHistoryRecord.mk 19999 "m1" 2 800 "outlet-1";
               SalesHistoryRecord.mk 19998 "m1" 1 400 "outlet-1"]
              [] [] [] None in
  let st := HookState.mk db "outlet-1" 30 in
  DashboardStats.totalRevenue (Hook.dashboardStats st (20000 * msPerDay))
  == ProfitLossStats.totalRevenue (Hook.profitLossStats st (20000 * msPerDay)).
Proof.
  intros cake db st.
  destruct (dashboard_revenue_and_statement_revenue st (20000 * msPerDay)%Z)
    as [_ Hsame].
  apply Hsame. intros s [<-|[<-|[]]]; reflexivity.
Defined.

Lemma unitsSold_cons (m : MenuItem.t) (s : SalesHistoryRecord.t)
    (sales : list SalesHistoryRecord.t) :
  unitsSold m (s :: sales)
  == (if String.eqb (SalesHistoryRecord.menuItemId s) (MenuItem.id m)
      then SalesHistoryRecord.quantitySold s else 0)
     + unitsSold m sales.
Proof.
  unfold unitsSold. cbn [filter].
  destruct (String.eqb (SalesHistoryRecord.menuItemId s) (MenuItem.id m)); cbn [map].
  - apply Qsum_cons.
  - ring.
Qed.

(** The cost of goods of a list of sales, taken menu item by menu item. *)
Lemma profitLossStep_cogs (menuItems : list MenuItem.t)
    (sales : list SalesHistoryRecord.t) :
  NoDup (map MenuItem.id menuItems) ->
  forall acc : Q * Q,
    snd (fold_left
           (profitLossStep
              (JsMap.of_entries String.eqb
                 (map (fun item => (MenuItem.id item, item)) menuItems)))
           sales acc)
    == snd acc
       + Qsum (map (fun m => MenuItem.cogs m * unitsSold m sales) menuItems).
Proof.
  intros ND. induction sales as [|s sales IH]; intros acc; cbn [fold_left].
  - rewrite (Qsum_map_ext _ (fun _ => 0)).
    + rewrite Qsum_map_zero. ring.
    + intros m _. unfold unitsSold. cbn [filter map]. rewrite Qsum_nil. ring.
  - rewrite IH.
    rewrite (Qsum_map_ext
               (fun m => MenuItem.cogs m * unitsSold m (s :: sales))
               (fun m => (if String.eqb (SalesHistoryRecord.menuItemId s) (MenuItem.id m)
                          then MenuItem.cogs m * SalesHistoryRecord.quantitySold s
                          else 0)
                         + MenuItem.cogs m * unitsSold m sales)).
    2:{ intros m _. rewrite unitsSold_cons.
        destruct (String.eqb (SalesHistoryRecord.menuItemId s) (MenuItem.id m)); ring. }
    rewrite Qsum_map_plus. unfold profitLossStep.
    destruct (JsMap.get String.eqb _ (SalesHistoryRecord.menuItemId s)) as [m|] eqn:G.
    + apply (get_of_entries_Some _ string_eqb_spec) in G.
      apply in_map_iff in G. destruct G as [m' [E Hm]].
      injection E as E1 E2. subst m'.
      rewrite (Qsum_map_single MenuItem.id
                 (fun x => if String.eqb (SalesHistoryRecord.menuItemId s) (MenuItem.id x)
                           then MenuItem.cogs x * SalesHistoryRecord.quantitySold s
                           else 0)
                 menuItems m ND Hm).
      * rewrite E1, String.eqb_refl. cbn [snd]. ring.
      * intros y _ N.
        destruct (String.eqb_spec (SalesHistoryRecord.menuItemId s) (MenuItem.id y));
          [congruence | reflexivity].
    + rewrite (Qsum_map_ext
                 (fun x => if String.eqb (SalesHistoryRecord.menuItemId s) (MenuItem.id x)
                           then MenuItem.cogs x * SalesHistoryRecord.quantitySold s
                           else 0)
                 (fun _ => 0)).
      * rewrite Qsum_map_zero. ring.
      * intros m Hm.
        destruct (String.eqb_spec (SalesHistoryRecord.menuItemId s) (MenuItem.id m))
          as [E|N]; [|reflexivity].
        exfalso.
        pose proof (proj1 (get_of_entries_None _ string_eqb_spec _ _) G) as G'.
        apply (G' (MenuItem.id m, m)); [|now symmetry].
        apply in_map_iff. now exists m.
Qed.

Lemma operationalCost_fold (periodDays : Z) (costs : list OperationalCost.t) :
  forall acc,
    fold_left (operationalCostStep periodDays) costs acc
    == acc + inject_Z periodDays * Qsum (map dailyAmount costs).
Proof.
  induction costs as [|c costs IH]; intros acc; cbn [fold_left map].
  - rewrite Qsum_nil. ring.
  - rewrite IH, Qsum_cons. unfold operationalCostStep, dailyAmount.
    destruct (OperationalCost.interval c); ring.
Qed.

(** X11.  The cost side of a profit and loss statement, for distinct menu
    item ids.  The cost of goods is, over the menu items, the unit cost
    of the item times the units of it sold in the period; the operational
    cost is the period length times the daily amount of every cost, a
    monthly amount counting for a thirtieth, whatever was sold; the waste
    cost is the cost of the waste records of the period; and the net
    profit is the revenue less these three. *)
Theorem statement_costs
    (now : Instant) (periodDays : Z) (salesHistory : list SalesHistoryRecord.t)
    (menuItems : list MenuItem.t) (operationalCosts : list OperationalCost.t)
    (wasteHistory : list WasteRecord.t)
    (unique_ids : NoDup (map MenuItem.id menuItems)) :
  let statement :=
    calculateProfitLoss now periodDays salesHistory menuItems operationalCosts
                        wasteHistory in
  ProfitLossStats.totalCogs statement
  == Qsum (map (fun m => MenuItem.cogs m
                         * unitsSold m (keptSales now periodDays salesHistory))
               menuItems)
  /\ ProfitLossStats.totalOperationalCost statement
     == inject_Z periodDays * Qsum (map dailyAmount operationalCosts)
  /\ ProfitLossStats.totalWasteCost statement
     == Qsum (map WasteRecord.cost
                  (filter (fun r => keptSince now periodDays (WasteRecord.date r))
                          wasteHistory))
  /\ ProfitLossStats.netProfit statement
     == ProfitLossStats.totalRevenue statement
        - ProfitLossStats.totalCogs statement
        - ProfitLossStats.totalOperationalCost statement
        - ProfitLossStats.totalWasteCost statement.
Proof.
  intros statement. unfold statement, calculateProfitLoss.
  cbn [ProfitLossStats.totalCogs ProfitLossStats.totalOperationalCost
       ProfitLossStats.totalWasteCost ProfitLossStats.netProfit
       ProfitLossStats.totalRevenue].
  refine (conj _ (conj _ (conj _ _))).
  - rewrite (profitLossStep_cogs menuItems _ unique_ids). cbn [snd].
    unfold keptSales, keptSince. ring.
  - rewrite operationalCost_fold. ring.
  - rewrite fold_sum_map. reflexivity.
  - ring.
Qed.

Lemma statement_costs_witness :
  let flour := Ingredient.mk "i1" "Flour" "kg" 20 None 5 2 "outlet-1" in
  let rows := [RecipeRow.mk "m1" "i1" 3; RecipeRow.mk "m2" "i1" 1] in
  let menu :=
    menuItems [flour] [MenuItemData.mk "m1" "Cake" "" 400 50 [];
                       MenuItemData.mk "m2" "Bun" "" 100 50 []] rows in
  let sales := [SalesHistoryRecord.mk 19999 "m1" 2 800 "outlet-1";
                SalesHistoryRecord.mk 19998 "m2" 5 500 "outlet-1";
                SalesHistoryRecord.mk 19997 "m1" 1 400 "outlet-1";
                SalesHistoryRecord.mk 19000 "m1" 9 3600 "outlet-1"] in
  let costs := [OperationalCost.mk "c1" "Rent" 300 monthly "outlet-1";
                OperationalCost.mk "c2" "Gas" 5 daily "outlet-1"] in
  let statement := calculateProfitLoss (20000 * msPerDay) 30 sales menu costs [] in
  ProfitLossStats.totalCogs statement == 280
  /\ ProfitLossStats.totalOperationalCost statement == 450.
Proof.
  intros flour rows menu sales costs statement.
  assert (NoDup (map MenuItem.id menu)) as ND.
  { simpl. repeat constructor; simpl; intuition discriminate. }
  destruct (statement_costs (20000 * msPerDay) 30 sales menu costs [] ND)
    as [Hcogs [Hop _]].
  split.
  - unfold statement. rewrite Hcogs. vm_compute. reflexivity.
  - unfold statement. rewrite Hop. vm_compute. reflexivity.
Defined.

(** ** Deleting an outlet *)

Lemma storeWrite_answers (write : Snapshot.t -> option Snapshot.t) (w : World.t)
    (db' : Snapshot.t) :
  storeAnswers w -> write (World.db w) = Some db' ->
  storeWrite write w
  = (Returned tt, World.mk db' (World.hook w) (tl (World.faults w))).
Proof.
  unfold storeAnswers, storeWrite. intros Hanswer E.
  destruct (World.faults w) as [|[] fs]; simpl in *;
    try discriminate; now rewrite E.
Qed.

Lemma storeWrite_answers_total (f : Snapshot.t -> Snapshot.t) (w : World.t) :
  storeAnswers w ->
  storeWrite (fun db => Some (f db)) w
  = (Returned tt, World.mk (f (World.db w)) (World.hook w) (tl (World.faults w))).
Proof. intros H. now apply storeWrite_answers. Qed.

(** [loadAllData] returns, and leaves the store as it is. *)
Lemma loadAllData_returns (currentOutletId : Id) (w : World.t) :
  exists w', loadAllData currentOutletId w = (Returned tt, w')
             /\ World.db w' = World.db w.
Proof.
  unfold loadAllData. destruct (existsb _ (firstn 11 (World.faults w)));
    eexists; split; reflexivity.
Qed.

Lemma existsb_eqb_iff {A} (key : A -> Id) (l : list A) (id : Id) :
  existsb (fun x => String.eqb (key x) id) l = true
  <-> exists x, In x l /\ key x = id.
Proof.
  rewrite existsb_exists. split; intros [x [Hx E]]; exists x; split;
    try exact Hx; now apply String.eqb_eq.
Qed.

Lemma existsb_eqb_none {A} (key : A -> Id) (l : list A) (id : Id) :
  existsb (fun x => String.eqb (key x) id) l = false ->
  forall x, In x l -> String.eqb (key x) id = false.
Proof.
  intros H x Hx. destruct (String.eqb (key x) id) eqn:E; [|reflexivity].
  assert (existsb (fun x => String.eqb (key x) id) l = true) as T; [|congruence].
  apply existsb_exists. now exists x.
Qed.

Lemma filter_out_iff {A} (key : A -> Id) (l : list A) (id : Id) (x : A) :
  In x (filter (fun y => negb (String.eqb (key y) id)) l)
  <-> In x l /\ key x <> id.
Proof.
  rewrite filter_In, negb_true_iff.
  destruct (String.eqb_spec (key x) id); split; intros [? ?]; split; congruence.
Qed.

Lemma ingredientOfOutlet_none (id : Id) (db : Snapshot.t) (k : Id) :
  existsb (fun i => String.eqb (Ingredient.outletId i) id)
          (Snapshot.allIngredients db) = false ->
  DatabaseService.ingredientOfOutlet id db k = false.
Proof.
  intros H. unfold DatabaseService.ingredientOfOutlet.
  apply not_true_is_false. intros T. apply existsb_exists in T.
  destruct T as [i [Hi T]]. apply andb_true_iff in T. destruct T as [T _].
  rewrite (existsb_eqb_none Ingredient.outletId _ _ H i Hi) in T. discriminate.
Qed.

(** X12.  [deleteOutlet] refuses, without a request to the store, to
    delete the only outlet, the current outlet, and an outlet of which
    the hook's state holds an ingredient, a sales record or an
    operational cost.  Otherwise, on a store in step with the hook that
    answers the request, the outlet is deleted and the result is
    [{success: true}]; no ingredient, recipe, sales record or operational
    cost goes with it, but its waste records and pending orders, which
    the check does not look at, do. *)
Theorem deleteOutlet_guard (w : World.t) (id : Id) :
  (outletInUse (World.hook w) id ->
   exists message,
     run (fun st => Hook.deleteOutlet st id) w
     = (Returned (Hook.DeleteResult.mk false (Some message)), w))
  /\ (~ outletInUse (World.hook w) id -> storeAnswers w -> inSync w ->
      exists w',
        run (fun st => Hook.deleteOutlet st id) w
        = (Returned (Hook.DeleteResult.mk true None), w')
        /\ (forall o, In o (Snapshot.outlets (World.db w'))
                      <-> In o (Snapshot.outlets (World.db w)) /\ Outlet.id o <> id)
        /\ Snapshot.allIngredients (World.db w') = Snapshot.allIngredients (World.db w)
        /\ Snapshot.menuItemsData (World.db w') = Snapshot.menuItemsData (World.db w)
        /\ Snapshot.recipes (World.db w') = Snapshot.recipes (World.db w)
        /\ Snapshot.allSalesHistory (World.db w')
           = Snapshot.allSalesHistory (World.db w)
        /\ Snapshot.allOperationalCosts (World.db w')
           = Snapshot.allOperationalCosts (World.db w)
        /\ (forall r, In r (Snapshot.allWasteHistory (World.db w'))
                      <-> In r (Snapshot.allWasteHistory (World.db w))
                          /\ WasteRecord.outletId r <> id)
        /\ (forall o, In o (Snapshot.allPendingOrders (World.db w'))
                      <-> In o (Snapshot.allPendingOrders (World.db w))
                          /\ PendingOrder.outletId o <> id)).
Proof.
  unfold run, Hook.deleteOutlet, outletInUse.
  set (snap := HookState.snapshot (World.hook w)).
  destruct (List.length (Snapshot.outlets snap) <=? 1)%nat eqn:Honly.
  { split; [intros _; eexists; reflexivity|].
    intros H. exfalso. apply H. left. now apply Nat.leb_le. }
  apply Nat.leb_gt in Honly.
  destruct (String.eqb_spec id (HookState.currentOutletId (World.hook w)))
    as [Hcur|Hcur].
  { split; [intros _; eexists; reflexivity|].
    intros H. exfalso. apply H. right. now left. }
  destruct (existsb (fun i => String.eqb (Ingredient.outletId i) id)
                    (Snapshot.allIngredients snap)) eqn:Hing.
  { split; [intros _; eexists; reflexivity|].
    intros H. exfalso. apply H. right. right. left.
    now apply (existsb_eqb_iff Ingredient.outletId). }
  destruct (existsb (fun s => String.eqb (SalesHistoryRecord.outletId s) id)
                    (Snapshot.allSalesHistory snap)) eqn:Hsales.
  { split; [intros _; eexists; reflexivity|].
    intros H. exfalso. apply H. right. right. right. left.
    now apply (existsb_eqb_iff SalesHistoryRecord.outletId). }
  destruct (existsb (fun o => String.eqb (OperationalCost.outletId o) id)
                    (Snapshot.allOperationalCosts snap)) eqn:Hcosts.
  { split; [intros _; eexists; reflexivity|].
    intros H. exfalso. apply H. right. right. right. right.
    now apply (existsb_eqb_iff OperationalCost.outletId). }
  cbn [orb]. split.
  - intros [H|[H|[H|[H|H]]]].
    + lia.
    + contradiction.
    + apply (existsb_eqb_iff Ingredient.outletId) in H. congruence.
    + apply (existsb_eqb_iff SalesHistoryRecord.outletId) in H. congruence.
    + apply (existsb_eqb_iff OperationalCost.outletId) in H. congruence.
  - intros _ Hanswer Hsync. unfold inSync in Hsync. fold snap in Hsync.
    unfold bind at 1. unfold DatabaseService.deleteOutlet.
    rewrite (storeWrite_answers_total _ w Hanswer).
    unfold bind.
    match goal with
    | |- context [loadAllData ?c ?x] =>
        destruct (loadAllData_returns c x) as [w' [Hload Hdb]]; rewrite Hload
    end.
    exists w'. split; [reflexivity|]. rewrite Hdb. cbn [World.db].
    rewrite <- Hsync.
    cbn [Snapshot.outlets Snapshot.allIngredients Snapshot.menuItemsData
         Snapshot.recipes Snapshot.allSalesHistory Snapshot.allOperationalCosts
         Snapshot.allWasteHistory Snapshot.allPendingOrders].
    refine (conj _ (conj _ (conj eq_refl (conj _ (conj _ (conj _ (conj _ _))))))).
    + intros o. apply (filter_out_iff Outlet.id).
    + apply filter_all. intros i Hi. apply negb_true_iff.
      now apply (existsb_eqb_none Ingredient.outletId _ _ Hing).
    + apply filter_all. intros r _. apply negb_true_iff.
      now apply ingredientOfOutlet_none.
    + apply filter_all. intros r Hr. apply negb_true_iff.
      now apply (existsb_eqb_none SalesHistoryRecord.outletId _ _ Hsales).
    + apply filter_all. intros c Hc. apply negb_true_iff.
      now apply (existsb_eqb_none OperationalCost.outletId _ _ Hcosts).
    + intros r. rewrite <- (filter_out_iff WasteRecord.outletId).
      rewrite !filter_In.
      rewrite (ingredientOfOutlet_none id snap _ Hing). cbn [negb].
      now rewrite andb_true_r.
    + intros o. apply (filter_out_iff PendingOrder.outletId).
Qed.

Lemma deleteOutlet_guard_witness :
  let flour := Ingredient.mk "i1" "Flour" "kg" 20 None 5 2 "outlet-1" in
  let spoiled := WasteRecord.mk 19999 "i1" 1 "Spoiled" 20 "outlet-2" in
  let order := PendingOrder.mk "p1" "PO-1" "s1" 0 [OrderItem.mk "i1" 3] 60 "outlet-2" in
  let db := Snapshot.mk [Outlet.mk "outlet-1" "Main"; Outlet.mk "outlet-2" "Branch"]
              [flour] [] [] [] [] [spoiled] [order] None in
  let w := World.mk db (HookState.mk db "outlet-1" 30) [] in
  (exists message,
      run (fun st => Hook.deleteOutlet st "outlet-1") w
      = (Returned (Hook.DeleteResult.mk false (Some message)), w))
  /\ fst (run (fun st => Hook.deleteOutlet st "outlet-2") w)
     = Returned (Hook.DeleteResult.mk true None)
  /\ Snapshot.allWasteHistory
       (World.db (snd (run (fun st => Hook.deleteOutlet st "outlet-2") w))) = []
  /\ Snapshot.allIngredients
       (World.db (snd (run (fun st => Hook.deleteOutlet st "outlet-2") w))) = [flour].
Proof.
  intros flour spoiled order db w.
  destruct (deleteOutlet_guard w "outlet-1") as [Hused _].
  destruct (deleteOutlet_guard w "outlet-2") as [_ Hfree].
  split.
  - apply Hused. right. left. reflexivity.
  - destruct Hfree as [w' [Hrun [_ [Hing [_ [_ [_ [_ [Hwaste _]]]]]]]]].
    + intros [H|[H|[[i [[<-|[]] H]]|[[s [[] _]]|[c [[] _]]]]]].
      * simpl in H. lia.
      * discriminate.
      * discriminate.
    + reflexivity.
    + reflexivity.
    + rewrite Hrun. cbn [fst snd]. refine (conj eq_refl (conj _ Hing)).
      destruct (Snapshot.allWasteHistory (World.db w')) as [|r l]; [reflexivity|].
      exfalso. destruct (Hwaste r) as [Hr _].
      destruct (Hr (or_introl eq_refl)) as [[<-|[]] N]. now apply N.
Defined.

(** ** Setting a stock level by hand *)

Lemma storeWrite_refused (write : Snapshot.t -> option Snapshot.t) (w : World.t) :
  storeAnswers w -> write (World.db w) = None ->
  storeWrite write w
  = (Thrown, World.mk (World.db w) (World.hook w) (tl (World.faults w))).
Proof.
  unfold storeAnswers, storeWrite. intros Hanswer E.
  destruct (World.faults w) as [|[] fs]; simpl in *;
    try discriminate; now rewrite E.
Qed.

Lemma found_hasId (k : Id) (l : list Ingredient.t) :
  found k l <-> existsb (DatabaseService.hasId k) l = true.
Proof.
  unfold found, Hook.findIngredient, DatabaseService.hasId.
  induction l as [|row l IH]; simpl.
  - split; [intros H; now contradiction H | discriminate].
  - destruct (String.eqb (Ingredient.id row) k); simpl; [|exact IH].
    split; [reflexivity | discriminate].
Qed.

Lemma stockNonneg_written (l : list Ingredient.t) (k : Id) (v : Q) :
  existsb (DatabaseService.hasId k) l = true ->
  Forall (fun i => 0 <= Ingredient.stockLevel i) l ->
  Forall (fun i => 0 <= Ingredient.stockLevel i)
         (map (fun i => if DatabaseService.hasId k i
                        then Ingredient.withStockLevel i v else i) l)
  <-> 0 <= v.
Proof.
  intros Hex Hl. split.
  - intros H. apply existsb_exists in Hex. destruct Hex as [i [Hi E]].
    rewrite Forall_forall in H.
    specialize (H (Ingredient.withStockLevel i v)). apply H.
    apply in_map_iff. exists i. now rewrite E.
  - intros Hv. rewrite Forall_forall in *. intros x Hx.
    apply in_map_iff in Hx. destruct Hx as [i [<- Hi]].
    destruct (DatabaseService.hasId k i); [exact Hv | now apply Hl].
Qed.

(** X13.  [updateIngredientStock], on a store that answers the request.
    For the id of a stored ingredient it returns, and the store then
    holds exactly the given level for that ingredient, the levels of the
    others being what they were: the level is stored as given, without
    the floor at 0 of the other stock mutations, so that the stock stays
    non-negative exactly when the given level is.  For an id the store
    does not hold it throws; store and state are what they were. *)
Theorem updateIngredientStock_exact (w : World.t) (id : Id) (newStock : Q)
    (answers : storeAnswers w) :
  (found id (Snapshot.allIngredients (World.db w)) ->
   exists w',
     run (fun st => Hook.updateIngredientStock st id newStock) w = (Returned tt, w')
     /\ stockOf (World.db w') id = Some newStock
     /\ (forall k, k <> id -> stockOf (World.db w') k = stockOf (World.db w) k)
     /\ (stockNonneg (World.db w) ->
         (stockNonneg (World.db w') <-> 0 <= newStock)))
  /\ (~ found id (Snapshot.allIngredients (World.db w)) ->
      exists w',
        run (fun st => Hook.updateIngredientStock st id newStock) w = (Thrown, w')
        /\ World.db w' = World.db w /\ World.hook w' = World.hook w).
Proof.
  unfold run, Hook.updateIngredientStock, DatabaseService.updateIngredient. split.
  - intros Hfound. apply found_hasId in Hfound as Hex.
    unfold bind. erewrite storeWrite_answers;
      [|exact answers | cbv beta; rewrite Hex; reflexivity].
    match goal with
    | |- context [loadAllData ?c ?x] =>
        destruct (loadAllData_returns c x) as [w' [Hload Hdb]]; rewrite Hload
    end.
    exists w'. split; [reflexivity|]. rewrite Hdb. cbn [World.db].
    refine (conj _ (conj _ _)).
    + unfold stockOf. rewrite allIngredients_with.
      rewrite find_map_same_id
        by (intros row; destruct (DatabaseService.hasId id row); reflexivity).
      destruct (Hook.findIngredient id (Snapshot.allIngredients (World.db w)))
        as [row|] eqn:F; [|now contradiction Hfound].
      apply findIngredient_id in F. destruct F as [_ E].
      apply hasId_iff in E. simpl. now rewrite E.
    + intros k Hk. unfold stockOf. rewrite allIngredients_with.
      rewrite find_map_same_id
        by (intros row; destruct (DatabaseService.hasId id row); reflexivity).
      destruct (Hook.findIngredient k (Snapshot.allIngredients (World.db w)))
        as [row|] eqn:F; [|reflexivity].
      apply findIngredient_id in F. destruct F as [_ E]. simpl.
      destruct (DatabaseService.hasId id row) eqn:H; [|reflexivity].
      apply hasId_iff in H. congruence.
    + intros Hnonneg. unfold stockNonneg. rewrite allIngredients_with.
      now apply stockNonneg_written.
  - intros Hnot.
    assert (existsb (DatabaseService.hasId id)
                    (Snapshot.allIngredients (World.db w)) = false) as Hex.
    { apply not_true_is_false. intros T. now apply Hnot, found_hasId. }
    unfold bind. erewrite storeWrite_refused;
      [|exact answers | cbv beta; rewrite Hex; reflexivity].
    eexists. split; [reflexivity|]. split; reflexivity.
Qed.

Lemma updateIngredientStock_exact_witness :
  let flour := Ingredient.mk "i1" "Flour" "kg" 20 None 5 2 "outlet-1" in
  let db := Snapshot.mk [Outlet.mk "outlet-1" "Main"] [flour] [] [] [] [] [] [] None in
  let w := World.mk db (HookState.mk db "outlet-1" 30) [] in
  (exists w',
      run (fun st => Hook.updateIngredientStock st "i1" (-3)) w = (Returned tt, w')
      /\ stockOf (World.db w') "i1" = Some (-3)
      /\ ~ stockNonneg (World.db w'))
  /\ (exists w',
         run (fun st => Hook.updateIngredientStock st "i9" 4) w = (Thrown, w')
         /\ World.db w' = db).
Proof.
  intros flour db w. split.
  - destruct (updateIngredientStock_exact w "i1" (-3) eq_refl) as [Hfound _].
    destruct Hfound as [w' [Hrun [Hstock [_ Hnonneg]]]].
    + unfold found. simpl. discriminate.
    + exists w'. refine (conj Hrun (conj Hstock _)). intros H.
      apply Hnonneg in H.
      * revert H. apply Qlt_not_le. reflexivity.
      * unfold stockNonneg. simpl. repeat constructor. discriminate.
  - destruct (updateIngredientStock_exact w "i9" 4 eq_refl) as [_ Hnot].
    destruct Hnot as [w' [Hrun [Hdb _]]].
    + unfold found. simpl. intros H. now apply H.
    + exists w'. split; [exact Hrun | exact Hdb].
Defined.

(** ** Deleting a menu item *)

Lemma available_answers (w : World.t) : storeAvailable w -> storeAnswers w.
Proof. unfold storeAvailable, storeAnswers. now intros ->. Qed.

(** In a hook that holds a store with the foreign key of the sales
    records, every sale of the outlet has its menu item. *)
Lemma salesKnown_known (st : HookState.t) (s : SalesHistoryRecord.t) :
  salesKnown (HookState.snapshot st) ->
  In s (Hook.salesHistory st) -> knownMenuItem (Hook.menuItems st) s = true.
Proof.
  intros Hfk Hs. unfold Hook.salesHistory in Hs. apply filter_In in Hs.
  destruct Hs as [Hs _]. destruct (Hfk s Hs) as [item [Hitem E]].
  unfold knownMenuItem. apply existsb_exists.
  exists (costMenuItem (ingredientsMapOf (Hook.ingredients st))
                       (Snapshot.recipes (HookState.snapshot st)) item).
  split.
  - unfold Hook.menuItems, menuItems. now apply in_map.
  - cbn [costMenuItem MenuItem.id]. now apply String.eqb_eq.
Qed.

(** X14.  [deleteMenuItem], when no request to the store fails: it
    returns with the hook in step with the store; the menu item is gone
    and, with it, its recipe rows and its sales records, every other row
    staying.  On a store whose sales records all have their menu item
    this is still so afterwards, and the revenue on the dashboard is then
    the revenue of the profit and loss statement: the deletion leaves no
    sale without its menu item, it removes the revenue of the item from
    the history. *)
Theorem deleteMenuItem_cascade (w : World.t) (id : Id)
    (available : storeAvailable w) :
  exists w',
    run (fun st => Hook.deleteMenuItem st id) w = (Returned tt, w')
    /\ inSync w'
    /\ (forall m, In m (Snapshot.menuItemsData (World.db w'))
                  <-> In m (Snapshot.menuItemsData (World.db w))
                      /\ MenuItemData.id m <> id)
    /\ (forall r, In r (Snapshot.recipes (World.db w'))
                  <-> In r (Snapshot.recipes (World.db w))
                      /\ RecipeRow.menuItemId r <> id)
    /\ (forall s, In s (Snapshot.allSalesHistory (World.db w'))
                  <-> In s (Snapshot.allSalesHistory (World.db w))
                      /\ SalesHistoryRecord.menuItemId s <> id)
    /\ Qsum (map SalesHistoryRecord.totalRevenue
                 (Snapshot.allSalesHistory (World.db w')))
       == Qsum (map SalesHistoryRecord.totalRevenue
                    (Snapshot.allSalesHistory (World.db w)))
          - Qsum (map SalesHistoryRecord.totalRevenue
                      (filter (fun s => String.eqb (SalesHistoryRecord.menuItemId s) id)
                              (Snapshot.allSalesHistory (World.db w))))
    /\ (salesKnown (World.db w) ->
        salesKnown (World.db w')
        /\ forall now,
             DashboardStats.totalRevenue (Hook.dashboardStats (World.hook w') now)
             == ProfitLossStats.totalRevenue
                  (Hook.profitLossStats (World.hook w') now)).
Proof.
  destruct w as [db hook faults]. unfold storeAvailable in available.
  cbn [World.faults] in available. subst faults.
  unfold run, Hook.deleteMenuItem, DatabaseService.deleteMenuItem.
  cbn [World.hook]. unfold bind. rewrite storeWrite_total.
  match goal with
  | |- context [loadAllData ?c (World.mk ?d ?h [])] =>
      destruct (loadAllData_available c d h) as [hook' [Hload Hsnap]]; rewrite Hload
  end.
  eexists. split; [reflexivity|]. unfold inSync. cbn [World.db World.hook].
  cbn [Snapshot.menuItemsData Snapshot.recipes Snapshot.allSalesHistory].
  assert (forall s,
             In s (filter (fun r => negb (String.eqb (SalesHistoryRecord.menuItemId r) id))
                          (Snapshot.allSalesHistory db))
             <-> In s (Snapshot.allSalesHistory db)
                 /\ SalesHistoryRecord.menuItemId s <> id) as Hsales
    by (intros s; apply (filter_out_iff SalesHistoryRecord.menuItemId)).
  assert (forall m,
             In m (filter (fun m => negb (String.eqb (MenuItemData.id m) id))
                          (Snapshot.menuItemsData db))
             <-> In m (Snapshot.menuItemsData db) /\ MenuItemData.id m <> id) as Hmenu
    by (intros m; apply (filter_out_iff MenuItemData.id)).
  refine (conj Hsnap (conj Hmenu (conj _ (conj Hsales (conj _ _))))).
  - intros r. apply (filter_out_iff RecipeRow.menuItemId).
  - rewrite (Qsum_filter_split SalesHistoryRecord.totalRevenue
               (fun s => String.eqb (SalesHistoryRecord.menuItemId s) id)
               (Snapshot.allSalesHistory db)).
    ring.
  - intros Hfk.
    assert (salesKnown
              (Snapshot.mk (Snapshot.outlets db) (Snapshot.allIngredients db)
                 (filter (fun m => negb (String.eqb (MenuItemData.id m) id))
                         (Snapshot.menuItemsData db))
                 (filter (fun r => negb (String.eqb (RecipeRow.menuItemId r) id))
                         (Snapshot.recipes db))
                 (filter (fun r => negb (String.eqb (SalesHistoryRecord.menuItemId r) id))
                         (Snapshot.allSalesHistory db))
                 (Snapshot.allOperationalCosts db) (Snapshot.allWasteHistory db)
                 (Snapshot.allPendingOrders db) (Snapshot.activeCampaign db))) as Hfk'.
    { intros r Hr. cbn [Snapshot.allSalesHistory] in Hr. apply Hsales in Hr.
      destruct Hr as [Hr N]. destruct (Hfk r Hr) as [m [Hm E]].
      exists m. split; [|exact E]. cbn [Snapshot.menuItemsData].
      apply Hmenu. split; [exact Hm | congruence]. }
    split; [exact Hfk'|]. intros now.
    rewrite dashboard_revenue_sum, statement_revenue_sum.
    rewrite filter_all; [reflexivity|].
    intros s Hs. apply filter_In in Hs. destruct Hs as [Hs _].
    apply salesKnown_known; [|exact Hs]. now rewrite Hsnap.
Qed.

Lemma deleteMenuItem_cascade_witness :
  let cake := MenuItemData.mk "m1" "Cake" "" 400 50 [] in
  let bun := MenuItemData.mk "m2" "Bun" "" 100 50 [] in
  let db := Snapshot.mk [Outlet.mk "outlet-1" "Main"]
              [Ingredient.mk "i1" "Flour" "kg" 20 None 5 2 "outlet-1"]
              [cake; bun] [RecipeRow.mk "m1" "i1" 3; RecipeRow.mk "m2" "i1" 1]
              [SalesHistoryRecord.mk 19999 "m1" 2 800 "outlet-1";
               SalesHistoryRecord.mk 19998 "m2" 5 500 "outlet-1"]
              [] [] [] None in
  let w := World.mk db (HookState.mk db "outlet-1" 30) [] in
  exists w',
    run (fun st => Hook.deleteMenuItem st "m1") w = (Returned tt, w')
    /\ Qsum (map SalesHistoryRecord.totalRevenue
                 (Snapshot.allSalesHistory (World.db w'))) == 500
    /\ DashboardStats.totalRevenue
         (Hook.dashboardStats (World.hook w') (20000 * msPerDay))
       == ProfitLossStats.totalRevenue
            (Hook.profitLossStats (World.hook w') (20000 * msPerDay)).
Proof.
  intros cake bun db w.
  destruct (deleteMenuItem_cascade w "m1" eq_refl)
    as [w' [Hrun [_ [_ [_ [_ [Hrev Hfk]]]]]]].
  exists w'. refine (conj Hrun (conj _ _)).
  - rewrite Hrev. vm_compute. reflexivity.
  - apply Hfk. intros r [<-|[<-|[]]]; [exists cake | exists bun];
      (split; [simpl; tauto | reflexivity]).
Defined.

(** ** A price update and the margin alerts *)




(** ** The chart and the revenue of the dashboard *)

(** Without a clock change, the chart of a window adds up to the revenue
    of the records dated within the window. *)
Lemma chartData_total (zone : Zone.t) (now : Instant) (W : nat)
    (salesHistory : list SalesHistoryRecord.t) :
  Zone.steady zone ->
  Qsum (ChartData.data
          (chartData zone now (Z.of_nat W)
                     (salesHistoryForRange now (Z.of_nat W) salesHistory)))
  == Qsum (map SalesHistoryRecord.totalRevenue
               (filter (fun r => inWindow now W (SalesHistoryRecord.date r))
                       salesHistory)).
Proof.
  intros steady.
  set (days := map (fun k => (isoDay now - Z.of_nat k)%Z) (rev (seq 0 W))).
  set (range := salesHistoryForRange now (Z.of_nat W) salesHistory).
  assert (NoDup days) as ND by apply window_days_NoDup.
  assert (fold_left (chartInitStep zone now) (countdown (Z.of_nat W)) (JsMap.empty, [])
          = (map (fun d => (d, 0)) days, days)) as Hinit.
  { change (JsMap.empty, []) with (map (fun d : Day => (d, 0)) [], @nil Day).
    rewrite chartInit_fold; simpl; rewrite (countdown_days _ _ _ steady);
      [reflexivity | exact ND]. }
  set (final := fold_left chartAddStep range (map (fun d => (d, 0)) days)).
  assert (JsMap.keys final = days) as Hkeys.
  { unfold final. rewrite chartAdd_keys. unfold JsMap.keys.
    rewrite map_map. simpl. apply map_id. }
  set (g := fun d => match JsMap.get Z.eqb final d with Some v => v | None => 0 end).
  assert (ChartData.data (chartData zone now (Z.of_nat W) range) = map g days)
    as Hdata.
  { unfold chartData. rewrite Hinit. cbn [fst snd ChartData.data].
    fold final.
    rewrite (values_by_get (K := Day) Z.eqb Z_eqb_spec final 0) by
      (rewrite Hkeys; exact ND).
    now rewrite Hkeys. }
  assert (forall d, In d days -> g d == dayRevenue d salesHistory) as Hg.
  { intros d Hd. unfold g.
    destruct (chartAdd_get range (map (fun d => (d, 0)) days) d 0
                (zero_entries_get days d Hd)) as [v [Hv Ev]].
    fold final in Hv. rewrite Hv, Ev. unfold range.
    rewrite (dayRevenue_in_range now now) by
      (try apply Z.le_refl; now apply window_days_In).
    ring. }
  rewrite Hdata, (Qsum_map_ext _ _ _ Hg), (series_sum _ _ ND).
  rewrite (filter_ext _ (fun r => inWindow now W (SalesHistoryRecord.date r)));
    [reflexivity|].
  intros r. apply existsb_window.
Qed.

Lemma filter_filter_sub {A} (p q : A -> bool) (l : list A) :
  (forall x, p x = true -> q x = true) ->
  filter p (filter q l) = filter p l.
Proof.
  intros H. induction l as [|x l IH]; simpl; [reflexivity|].
  destruct (q x) eqn:Q; simpl.
  - now rewrite IH.
  - destruct (p x) eqn:P; [|exact IH].
    rewrite (H x P) in Q. discriminate.
Qed.

(** Away from midnight, a record of the range that is not dated after
    today is dated within the window. *)
Lemma kept_in_window (now : Instant) (W : nat) (d : Day) :
  (now mod msPerDay <> 0)%Z -> (d <= isoDay now)%Z ->
  keptSince now (Z.of_nat W) d = true -> inWindow now W d = true.
Proof.
  unfold keptSince, onOrAfter, minusDays, dateOf, inWindow, isoDay.
  intros Hmid Hle. rewrite Z.leb_le, andb_true_iff, Z.ltb_lt, Z.leb_le.
  intros Hkept. split; [|exact Hle].
  assert (0 < msPerDay)%Z as Hpos by (unfold msPerDay; lia).
  pose proof (Z.mod_pos_bound now msPerDay Hpos) as Hmod.
  pose proof (Z.div_mod now msPerDay ltac:(lia)) as Hdiv.
  nia.
Qed.

(** X16.  In a zone without clock changes, the revenue of the dashboard
    is what the chart adds up to, plus the revenue of the records of the
    range that are dated outside the days of the chart.  When moreover
    the clock is not exactly at midnight (UTC) and no record of the outlet
    is dated after today, the chart adds up to the revenue of the
    dashboard. *)
Theorem chart_total_and_dashboard_revenue (st : HookState.t) (zone : Zone.t)
    (now : Instant) (W : nat)
    (no_clock_change : Zone.steady zone)
    (range : HookState.dateRange st = Z.of_nat W) :
  DashboardStats.totalRevenue (Hook.dashboardStats st now)
  == Qsum (ChartData.data (Hook.chartData st zone now))
     + Qsum (map SalesHistoryRecord.totalRevenue
                 (filter (fun r => negb (inWindow now W (SalesHistoryRecord.date r)))
                         (keptSales now (Z.of_nat W) (Hook.salesHistory st))))
  /\ ((now mod msPerDay <> 0)%Z ->
      (forall r, In r (Hook.salesHistory st) ->
                 (SalesHistoryRecord.date r <= isoDay now)%Z) ->
      DashboardStats.totalRevenue (Hook.dashboardStats st now)
      == Qsum (ChartData.data (Hook.chartData st zone now))).
Proof.
  assert (Qsum (ChartData.data (Hook.chartData st zone now))
          == Qsum (map SalesHistoryRecord.totalRevenue
                       (filter (fun r => inWindow now W (SalesHistoryRecord.date r))
                               (keptSales now (Z.of_nat W) (Hook.salesHistory st)))))
    as Hchart.
  { unfold Hook.chartData, Hook.salesHistoryForRange. rewrite range.
    rewrite (chartData_total _ _ _ _ no_clock_change). unfold keptSales.
    rewrite filter_filter_sub; [reflexivity|].
    intros r Hr. unfold keptSince.
    apply (window_day_kept now now W); [apply Z.le_refl | exact Hr]. }
  rewrite dashboard_revenue_sum, range. split.
  - rewrite Hchart.
    apply (Qsum_filter_split SalesHistoryRecord.totalRevenue
             (fun r => inWindow now W (SalesHistoryRecord.date r))).
  - intros Hmid Hpast. rewrite Hchart. rewrite filter_all; [reflexivity|].
    intros r Hr. unfold keptSales in Hr. apply filter_In in Hr.
    destruct Hr as [Hr Hkept]. apply kept_in_window; auto.
Qed.

Lemma chart_total_and_dashboard_revenue_witness :
  let db := Snapshot.mk [Outlet.mk "outlet-1" "Main"] []
              [MenuItemData.mk "m1" "Cake" "" 400 50 []] []
              [SalesHistoryRecord.mk 20000 "m1" 2 800 "outlet-1";
               SalesHistoryRecord.mk 19998 "m1" 1 100 "outlet-1";
               SalesHistoryRecord.mk 19990 "m1" 1 400 "outlet-1"]
              [] [] [] None in
  let st := HookState.mk db "outlet-1" 3 in
  let zone := Zone.fixed (7 * 60 * 60 * 1000) in
  DashboardStats.totalRevenue (Hook.dashboardStats st (20000 * msPerDay + 5000))
  == Qsum (ChartData.data (Hook.chartData st zone (20000 * msPerDay + 5000)))
  /\ Qsum (ChartData.data (Hook.chartData st zone (20000 * msPerDay + 5000))) == 900.
Proof.
  intros db st zone.
  destruct (chart_total_and_dashboard_revenue st zone (20000 * msPerDay + 5000)%Z 3
              (steady_fixed _) eq_refl) as [_ Hsame].
  split.
  - apply Hsame.
    + vm_compute. discriminate.
    + intros r [<-|[<-|[<-|[]]]]; vm_compute; discriminate.
  - vm_compute. reflexivity.
Defined.

(** ** What the stock mutations leave alone, under any store failure *)

Section Frames.
Variable R : Snapshot.t -> Snapshot.t -> Prop.
Hypothesis R_refl : forall s, R s s.
Hypothesis R_trans : forall a b c, R a b -> R b c -> R a c.

Lemma writesOnly_ret {A} (a : A) : writesOnly R (ret a).
Proof. intros w. split; [reflexivity | apply R_refl]. Qed.

Lemma writesOnly_bind {A B} (m : Async A) (k : A -> Async B) :
  writesOnly R m -> (forall a, writesOnly R (k a)) -> writesOnly R (bind m k).
Proof.
  intros Hm Hk w. unfold bind. destruct (Hm w) as [Hh Hr].
  destruct (m w) as [[a|] w1]; cbn [snd] in *.
  - destruct (Hk a w1) as [Hh' Hr']. split; [congruence | eauto].
  - now split.
Qed.

Lemma writesOnly_forEachAwait {A} (body : A -> Async unit) (xs : list A) :
  (forall x, writesOnly R (body x)) -> writesOnly R (forEachAwait body xs).
Proof.
  intros H. induction xs as [|x xs IH]; cbn [forEachAwait].
  - apply writesOnly_ret.
  - apply writesOnly_bind; [apply H | intros _; exact IH].
Qed.

Lemma writesOnly_foldAwait {A S} (body : S -> A -> Async S) (xs : list A) :
  (forall s x, writesOnly R (body s x)) ->
  forall s, writesOnly R (foldAwait body xs s).
Proof.
  intros H. induction xs as [|x xs IH]; intros s; cbn [foldAwait].
  - apply writesOnly_ret.
  - apply writesOnly_bind; [apply H | intros s'; apply IH].
Qed.

Lemma writesOnly_storeWrite (write : Snapshot.t -> option Snapshot.t) :
  (forall db db', write db = Some db' -> R db db') ->
  writesOnly R (storeWrite write).
Proof.
  intros H w. unfold storeWrite.
  destruct (World.faults w) as [|[] fs]; cbn [snd World.hook World.db];
    try (split; [reflexivity | apply R_refl]);
    destruct (write (World.db w)) eqn:E; cbn [snd World.hook World.db];
    (split; [reflexivity | eauto]).
Qed.

(** Writes followed by a reload: the store is left as the writes leave
    it, and a failure is a failure of the writes, which leaves the state
    of the hook as it was. *)
Lemma writes_then_reads {A B} (m : Async A) (k : A -> Async B) :
  writesOnly R m -> (forall a, readsOnly (k a)) ->
  forall w,
    R (World.db w) (World.db (snd (bind m k w)))
    /\ (fst (bind m k w) = Thrown ->
        World.hook (snd (bind m k w)) = World.hook w
        /\ fst (m w) = Thrown
        /\ snd (bind m k w) = snd (m w)).
Proof.
  intros Hm Hk w. unfold bind. destruct (Hm w) as [Hh Hr].
  destruct (m w) as [[a|] w1]; cbn [fst snd] in *.
  - destruct (Hk a w1) as [b [w2 [E Hdb]]]. rewrite E. cbn [fst snd].
    split; [now rewrite Hdb | discriminate].
  - split; [exact Hr|]. intros _. now repeat split.
Qed.
End Frames.

Lemma bind_assoc {A B C} (m : Async A) (f : A -> Async B) (g : B -> Async C)
    (w : World.t) :
  bind m (fun a => bind (f a) g) w = bind (bind m f) g w.
Proof.
  unfold bind. destruct (m w) as [[a|] w1]; [|reflexivity].
  destruct (f a w1) as [[b|] w2]; reflexivity.
Qed.

Lemma readsOnly_loadAllData (currentOutletId : Id) :
  readsOnly (loadAllData currentOutletId).
Proof.
  intros w. destruct (loadAllData_returns currentOutletId w) as [w' [E Hdb]].
  now exists tt, w'.
Qed.

Lemma readsOnly_then_ret {A} (currentOutletId : Id) (a : A) :
  readsOnly (bind (loadAllData currentOutletId) (fun _ => ret a)).
Proof.
  intros w. destruct (loadAllData_returns currentOutletId w) as [w' [E Hdb]].
  exists a, w'. unfold bind. rewrite E. now split.
Qed.

Lemma stockFrame_refl (s : Snapshot.t) : stockFrame s s.
Proof.
  unfold stockFrame.
  refine (conj eq_refl (conj eq_refl (conj eq_refl (conj eq_refl (conj eq_refl
           (conj eq_refl (conj _ (conj _ _)))))))).
  - exists []. now rewrite app_nil_r.
  - exists []. now rewrite app_nil_r.
  - tauto.
Qed.

Lemma stockFrame_trans (a b c : Snapshot.t) :
  stockFrame a b -> stockFrame b c -> stockFrame a c.
Proof.
  unfold stockFrame.
  intros [H1 [H2 [H3 [H4 [H5 [H6 [[s1 H7] [[w1 H8] H9]]]]]]]]
         [G1 [G2 [G3 [G4 [G5 [G6 [[s2 G7] [[w2 G8] G9]]]]]]]].
  refine (conj _ (conj _ (conj _ (conj _ (conj _ (conj _ (conj _ (conj _ _))))))));
    try congruence.
  - exists (s1 ++ s2). rewrite G7, H7. now rewrite app_assoc.
  - exists (w1 ++ w2). rewrite G8, H8. now rewrite app_assoc.
  - auto.
Qed.

Lemma stockFrame_updateIngredient (id : Id) (stockLevel : Q) :
  writesOnly stockFrame (DatabaseService.updateIngredient id stockLevel).
Proof.
  apply writesOnly_storeWrite; [apply stockFrame_refl|].
  intros db db' E. destruct (existsb _ _); [|discriminate]. injection E as <-.
  unfold stockFrame. cbn.
  refine (conj eq_refl (conj eq_refl (conj eq_refl (conj eq_refl (conj eq_refl
           (conj _ (conj _ (conj _ _)))))))).
  - rewrite map_map. apply map_ext. intros i.
    destruct (DatabaseService.hasId id i); reflexivity.
  - exists []. now rewrite app_nil_r.
  - exists []. now rewrite app_nil_r.
  - tauto.
Qed.

Lemma stockFrame_addSalesRecord (sales : SalesHistoryRecord.t) :
  writesOnly stockFrame (DatabaseService.addSalesRecord sales).
Proof.
  apply writesOnly_storeWrite; [apply stockFrame_refl|].
  intros db db' E. injection E as <-. unfold stockFrame. cbn.
  refine (conj eq_refl (conj eq_refl (conj eq_refl (conj eq_refl (conj eq_refl
           (conj eq_refl (conj _ (conj _ _)))))))).
  - now exists [sales].
  - exists []. now rewrite app_nil_r.
  - tauto.
Qed.

Lemma stockFrame_addWasteRecord (record : WasteRecord.t) :
  writesOnly stockFrame (DatabaseService.addWasteRecord record).
Proof.
  apply writesOnly_storeWrite; [apply stockFrame_refl|].
  intros db db' E. injection E as <-. unfold stockFrame. cbn.
  refine (conj eq_refl (conj eq_refl (conj eq_refl (conj eq_refl (conj eq_refl
           (conj eq_refl (conj _ (conj _ _)))))))).
  - exists []. now rewrite app_nil_r.
  - now exists [record].
  - tauto.
Qed.

Lemma stockFrame_deletePendingOrder (id : Id) :
  writesOnly stockFrame (DatabaseService.deletePendingOrder id).
Proof.
  apply writesOnly_storeWrite; [apply stockFrame_refl|].
  intros db db' E. injection E as <-. unfold stockFrame. cbn.
  refine (conj eq_refl (conj eq_refl (conj eq_refl (conj eq_refl (conj eq_refl
           (conj eq_refl (conj _ (conj _ _)))))))).
  - exists []. now rewrite app_nil_r.
  - exists []. now rewrite app_nil_r.
  - intros o Ho. apply filter_In in Ho. tauto.
Qed.

Lemma samePending_updateIngredient (id : Id) (stockLevel : Q) :
  writesOnly samePendingOrders (DatabaseService.updateIngredient id stockLevel).
Proof.
  apply writesOnly_storeWrite; [reflexivity|].
  intros db db' E. destruct (existsb _ _); [|discriminate]. now injection E as <-.
Qed.

Lemma storeWrite_thrown (write : Snapshot.t -> option Snapshot.t) (w : World.t) :
  fst (storeWrite write w) = Thrown ->
  World.db (snd (storeWrite write w)) = World.db w.
Proof.
  unfold storeWrite.
  destruct (World.faults w) as [|[] fs]; cbn [fst snd World.db];
    try reflexivity;
    destruct (write (World.db w)); cbn [fst snd World.db];
    try discriminate; reflexivity.
Qed.

(** The writes of [receiveStock] to the stock levels. *)
Lemma receiveWrites_frame (st : HookState.t)
    (entries : list (Id * Q)) :
  writesOnly stockFrame
    (forEachAwait
       (fun entry =>
          match Hook.findIngredient (fst entry)
                  (Snapshot.allIngredients (HookState.snapshot st)) with
          | Some ingredient =>
              DatabaseService.updateIngredient (fst entry)
                (Ingredient.stockLevel ingredient + snd entry)
          | None => ret tt
          end)
       entries)
  /\ writesOnly samePendingOrders
       (forEachAwait
          (fun entry =>
             match Hook.findIngredient (fst entry)
                     (Snapshot.allIngredients (HookState.snapshot st)) with
             | Some ingredient =>
                 DatabaseService.updateIngredient (fst entry)
                   (Ingredient.stockLevel ingredient + snd entry)
             | None => ret tt
             end)
          entries).
Proof.
  split.
  - apply (writesOnly_forEachAwait _ stockFrame_refl stockFrame_trans).
    intros entry. destruct (Hook.findIngredient _ _).
    + apply stockFrame_updateIngredient.
    + apply writesOnly_ret, stockFrame_refl.
  - apply writesOnly_forEachAwait.
    + reflexivity.
    + unfold samePendingOrders. congruence.
    + intros entry. destruct (Hook.findIngredient _ _).
      * apply samePending_updateIngredient.
      * apply writesOnly_ret. reflexivity.
Qed.

(** X17.  What the three stock mutations leave alone, in any state and
    whatever requests to the store fail.  [processDailySales],
    [addWasteRecord] and [receiveStock] add sales and waste records,
    change stock levels and delete pending orders, and nothing else: the
    other tables, the set of ingredients and the other columns of every
    ingredient are what they were, and no sales or waste record is lost.
    When one of them throws, the state of the hook is what it was,
    whatever was written to the store before the failure; and when
    [receiveStock] throws the pending orders are all still there. *)
Theorem stock_mutations_frame (w : World.t) :
  (forall now sales,
      let r := run (fun st => Hook.processDailySales st now sales) w in
      stockFrame (World.db w) (World.db (snd r))
      /\ (fst r = Thrown -> World.hook (snd r) = World.hook w))
  /\ (forall record,
        let r := run (fun st => Hook.addWasteRecord st record) w in
        stockFrame (World.db w) (World.db (snd r))
        /\ (fst r = Thrown -> World.hook (snd r) = World.hook w))
  /\ (forall orderId,
        let r := run (fun st => Hook.receiveStock st orderId) w in
        stockFrame (World.db w) (World.db (snd r))
        /\ (fst r = Thrown ->
            World.hook (snd r) = World.hook w
            /\ Snapshot.allPendingOrders (World.db (snd r))
               = Snapshot.allPendingOrders (World.db w))).
Proof.
  refine (conj _ (conj _ _)).
  - intros now sales r. unfold r, run, Hook.processDailySales.
    rewrite bind_assoc.
    match goal with
    | |- context [bind ?m ?k w] =>
        destruct (writes_then_reads stockFrame m k) with (w := w)
          as [Hframe Hthrown]
    end.
    + apply (writesOnly_bind _ stockFrame_trans).
      * apply (writesOnly_foldAwait _ stockFrame_refl stockFrame_trans).
        intros acc m. destruct (Js.gt _ 0).
        -- apply (writesOnly_bind _ stockFrame_trans);
             [apply stockFrame_addSalesRecord
             | intros _; apply writesOnly_ret, stockFrame_refl].
        -- apply writesOnly_ret, stockFrame_refl.
      * intros quantities.
        apply (writesOnly_forEachAwait _ stockFrame_refl stockFrame_trans).
        intros entry. cbv zeta. destruct (Hook.findIngredient _ _).
        -- apply stockFrame_updateIngredient.
        -- apply writesOnly_ret, stockFrame_refl.
    + intros _. apply readsOnly_then_ret.
    + split; [exact Hframe | intros T; now apply Hthrown].
  - intros record r. unfold r, run, Hook.addWasteRecord.
    destruct (Hook.findIngredient _ _) as [ingredient|].
    2:{ cbn [ret fst snd]. split; [apply stockFrame_refl | discriminate]. }
    rewrite bind_assoc.
    match goal with
    | |- context [bind ?m ?k w] =>
        destruct (writes_then_reads stockFrame m k) with (w := w)
          as [Hframe Hthrown]
    end.
    + apply (writesOnly_bind _ stockFrame_trans);
        [apply stockFrame_addWasteRecord | intros _; apply stockFrame_updateIngredient].
    + intros _. apply readsOnly_loadAllData.
    + split; [exact Hframe | intros T; now apply Hthrown].
  - intros orderId r. unfold r, run, Hook.receiveStock.
    destruct (find _ (Hook.pendingOrders (World.hook w))) as [order|].
    2:{ cbn [ret fst snd]. split; [apply stockFrame_refl | discriminate]. }
    destruct (receiveWrites_frame (World.hook w)
                (JsMap.entries (fold_left Hook.receiveStep (PendingOrder.items order)
                                          JsMap.empty))) as [Hloop Hpending].
    rewrite bind_assoc.
    match goal with
    | |- context [bind ?m ?k w] =>
        destruct (writes_then_reads stockFrame m k) with (w := w)
          as [Hframe Hthrown]
    end.
    + apply (writesOnly_bind _ stockFrame_trans);
        [exact Hloop | intros _; apply stockFrame_deletePendingOrder].
    + intros _. apply readsOnly_loadAllData.
    + split; [exact Hframe|]. intros T.
      destruct (Hthrown T) as [Hhook [Twrites Esnd]]. split; [exact Hhook|].
      rewrite Esnd. clear - Hpending Twrites.
      unfold bind in *. destruct (Hpending w) as [_ Hsame].
      match goal with
      | |- context [forEachAwait ?b ?l w] =>
          destruct (forEachAwait b l w) as [[[]|] w1] eqn:E
      end; cbn [snd] in *.
      * unfold samePendingOrders in Hsame. rewrite <- Hsame.
        unfold DatabaseService.deletePendingOrder in *.
        now apply f_equal, storeWrite_thrown.
      * exact Hsame.
Qed.

Lemma stock_mutations_frame_witness :
  let flour := Ingredient.mk "i1" "Flour" "kg" 20 None 5 2 "outlet-1" in
  let sugar := Ingredient.mk "i2" "Sugar" "kg" 10 None 1 2 "outlet-1" in
  let order := PendingOrder.mk "p1" "PO-1" "s1" 0
                 [OrderItem.mk "i1" 3; OrderItem.mk "i2" 1] 70 "outlet-1" in
  let db := Snapshot.mk [Outlet.mk "outlet-1" "Main"] [flour; sugar]
              [] [] [] [] [] [order] None in
  let w := World.mk db (HookState.mk db "outlet-1" 30) [false; true] in
  let r := run (fun st => Hook.receiveStock st "p1") w in
  fst r = Thrown
  /\ World.hook (snd r) = World.hook w
  /\ Snapshot.allPendingOrders (World.db (snd r)) = [order]
  /\ stockOf (World.db (snd r)) "i1" = Some (5 + 3)
  /\ stockOf (World.db (snd r)) "i2" = Some 1.
Proof.
  intros flour sugar order db w r.
  destruct (stock_mutations_frame w) as [_ [_ Hreceive]].
  destruct (Hreceive "p1"%string) as [_ Hthrown].
  assert (fst r = Thrown) as T by reflexivity.
  destruct (Hthrown T) as [Hhook Hpending].
  refine (conj T (conj Hhook (conj Hpending (conj _ _)))); reflexivity.
Defined.

(** ** Best and worst sellers *)

Lemma insertSorted_perm {A} (compare : A -> A -> Q) (x : A) (l : list A) :
  Permutation (insertSorted compare x l) (x :: l).
Proof.
  induction l as [|y l IH]; cbn [insertSorted].
  - apply Permutation_refl.
  - destruct (Js.lt (compare y x) 0).
    + apply Permutation_trans with (y :: x :: l).
      * now apply perm_skip.
      * apply perm_swap.
    + apply Permutation_refl.
Qed.

Lemma arraySort_perm {A} (compare : A -> A -> Q) (l : list A) :
  Permutation (arraySort compare l) l.
Proof.
  unfold arraySort. induction l as [|x l IH]; cbn [fold_right].
  - apply Permutation_refl.
  - apply Permutation_trans with (x :: fold_right (insertSorted compare) [] l).
    + apply insertSorted_perm.
    + now apply perm_skip.
Qed.

Section Sorting.
Context {A : Type}.
Variable compare : A -> A -> Q.
Variable rank : A -> Q.
Hypothesis compare_rank :
  forall a b, Js.lt (compare a b) 0 = true <-> rank b < rank a.

Lemma insertSorted_sorted (x : A) (l : list A) :
  StronglySorted (fun a b => rank b <= rank a) l ->
  StronglySorted (fun a b => rank b <= rank a) (insertSorted compare x l).
Proof.
  induction l as [|y l IH]; intros Hs; cbn [insertSorted].
  - constructor; [constructor | constructor].
  - inversion Hs as [|? ? Hl Hy]; subst.
    destruct (Js.lt (compare y x) 0) eqn:C.
    + apply compare_rank in C. constructor; [now apply IH|].
      rewrite Forall_forall in *. intros b Hb.
      apply (Permutation_in _ (insertSorted_perm compare x l)) in Hb.
      destruct Hb as [<-|Hb]; [now apply Qlt_le_weak | now apply Hy].
    + assert (rank y <= rank x) as Hyx.
      { apply Qnot_lt_le. intros H. apply compare_rank in H. congruence. }
      constructor; [exact Hs|]. constructor; [exact Hyx|].
      rewrite Forall_forall in *. intros b Hb.
      apply Qle_trans with (rank y); [now apply Hy | exact Hyx].
Qed.

Lemma arraySort_sorted (l : list A) :
  StronglySorted (fun a b => rank b <= rank a) (arraySort compare l).
Proof.
  unfold arraySort. induction l as [|x l IH]; cbn [fold_right].
  - constructor.
  - now apply insertSorted_sorted.
Qed.
End Sorting.

Lemma StronglySorted_firstn {A} (R : A -> A -> Prop) (l : list A) (n : nat) :
  StronglySorted R l ->
  StronglySorted R (firstn n l)
  /\ forall a b, In a (firstn n l) -> In b (skipn n l) -> R a b.
Proof.
  revert n. induction l as [|x l IH]; intros n Hs.
  - rewrite firstn_nil, skipn_nil. split; [constructor | intros a b []].
  - inversion Hs as [|? ? Hl Hx]; subst. destruct n as [|n].
    + cbn [firstn skipn]. split; [constructor | intros a b []].
    + cbn [firstn skipn]. destruct (IH n Hl) as [Hf Hcross].
      rewrite Forall_forall in Hx. split.
      * constructor; [exact Hf|]. rewrite Forall_forall. intros b Hb.
        apply Hx. rewrite <- (firstn_skipn n l). apply in_or_app. now left.
      * intros a b [<-|Ha] Hb.
        -- apply Hx. rewrite <- (firstn_skipn n l). apply in_or_app. now right.
        -- now apply Hcross.
Qed.

Lemma StronglySorted_map {A B} (R : A -> A -> Prop) (R' : B -> B -> Prop)
    (f : A -> B) (l : list A) :
  (forall a b, In a l -> In b l -> R a b -> R' (f a) (f b)) ->
  StronglySorted R l -> StronglySorted R' (map f l).
Proof.
  induction l as [|x l IH]; intros H Hs; cbn [map].
  - constructor.
  - inversion Hs as [|? ? Hl Hx]; subst. constructor.
    + apply IH; [|exact Hl]. intros a b Ha Hb. apply H; now right.
    + rewrite Forall_forall in *. intros b Hb.
      apply in_map_iff in Hb. destruct Hb as [a [<- Ha]].
      apply H; [now left | now right | now apply Hx].
Qed.

Lemma statInit_get (menuItems : list MenuItem.t) (k : Id) :
  forall stats : JsMap.t (K := Id) (V := SalesStat.t),
    JsMap.get String.eqb
      (fold_left (fun stats item =>
                    JsMap.set String.eqb stats (MenuItem.id item) (SalesStat.mk 0 0))
                 menuItems stats) k
    = if existsb (fun m => String.eqb (MenuItem.id m) k) menuItems
      then Some (SalesStat.mk 0 0)
      else JsMap.get String.eqb stats k.
Proof.
  induction menuItems as [|m l IH] using rev_ind; intros stats.
  - reflexivity.
  - rewrite fold_left_app, existsb_app. cbn [fold_left existsb].
    rewrite (get_set _ string_eqb_spec), IH, orb_false_r.
    destruct (String.eqb (MenuItem.id m) k).
    + now rewrite orb_true_r.
    + now rewrite orb_false_r.
Qed.

Lemma salesStatStep_get (records : list SalesHistoryRecord.t) (k : Id) :
  forall (stats : JsMap.t (K := Id) (V := SalesStat.t)) (s0 : SalesStat.t),
    JsMap.get String.eqb stats k = Some s0 ->
    exists s,
      JsMap.get String.eqb (fold_left salesStatStep records stats) k = Some s
      /\ SalesStat.units s
         == SalesStat.units s0
            + Qsum (map SalesHistoryRecord.quantitySold
                        (filter (fun r => String.eqb (SalesHistoryRecord.menuItemId r) k)
                                records))
      /\ SalesStat.revenue s
         == SalesStat.revenue s0
            + Qsum (map SalesHistoryRecord.totalRevenue
                        (filter (fun r => String.eqb (SalesHistoryRecord.menuItemId r) k)
                                records)).
Proof.
  induction records as [|r records IH]; intros stats s0 G; cbn [fold_left filter].
  - exists s0. cbn [map]. rewrite Qsum_nil. split; [exact G | split; ring].
  - unfold salesStatStep at 2.
    destruct (String.eqb_spec (SalesHistoryRecord.menuItemId r) k) as [E|N].
    + rewrite E, G.
      destruct (IH (JsMap.set String.eqb stats k
                      (SalesStat.mk
                         (SalesStat.units s0 + SalesHistoryRecord.quantitySold r)
                         (SalesStat.revenue s0 + SalesHistoryRecord.totalRevenue r)))
                   (SalesStat.mk
                      (SalesStat.units s0 + SalesHistoryRecord.quantitySold r)
                      (SalesStat.revenue s0 + SalesHistoryRecord.totalRevenue r)))
        as [s [Hs [Hu Hr]]].
      { rewrite (get_set _ string_eqb_spec), String.eqb_refl. reflexivity. }
      exists s. split; [exact Hs|]. cbn [map SalesStat.units SalesStat.revenue] in *.
      rewrite !Qsum_cons, Hu, Hr. split; ring.
    + destruct (JsMap.get String.eqb stats (SalesHistoryRecord.menuItemId r))
        as [stat|] eqn:Gr.
      * apply IH. rewrite (get_set _ string_eqb_spec).
        destruct (String.eqb_spec (SalesHistoryRecord.menuItemId r) k);
          [contradiction | exact G].
      * now apply IH.
Qed.

(** The rows that are ranked: each menu item with its units and revenue
    in the range. *)
Lemma performanceRows (menuItems : list MenuItem.t)
    (range : list SalesHistoryRecord.t) (m : MenuItem.t) :
  In m menuItems ->
  let stats :=
    fold_left salesStatStep range
      (fold_left (fun stats item =>
                    JsMap.set String.eqb stats (MenuItem.id item) (SalesStat.mk 0 0))
                 menuItems JsMap.empty) in
  SalesStat.units (salesStatOf stats m) == unitsSold m range
  /\ SalesStat.revenue (salesStatOf stats m) == revenueSold m range.
Proof.
  intros Hm stats.
  assert (JsMap.get String.eqb
            (fold_left (fun stats item =>
                          JsMap.set String.eqb stats (MenuItem.id item)
                                    (SalesStat.mk 0 0))
                       menuItems JsMap.empty) (MenuItem.id m)
          = Some (SalesStat.mk 0 0)) as Hinit.
  { rewrite statInit_get.
    assert (existsb (fun m' => String.eqb (MenuItem.id m') (MenuItem.id m)) menuItems
            = true) as ->; [|reflexivity].
    apply existsb_exists. exists m. split; [exact Hm | apply String.eqb_refl]. }
  destruct (salesStatStep_get range (MenuItem.id m) _ _ Hinit) as [s [Hs [Hu Hr]]].
  unfold salesStatOf, stats. rewrite Hs. unfold unitsSold, revenueSold.
  cbn [SalesStat.units SalesStat.revenue] in Hu, Hr.
  rewrite Hu, Hr. split; ring.
Qed.

Lemma Forall2_map_both {A B C} (P : B -> C -> Prop) (f : A -> B) (g : A -> C)
    (l : list A) :
  (forall x, In x l -> P (f x) (g x)) -> Forall2 P (map f l) (map g l).
Proof.
  induction l as [|x l IH]; intros H; cbn [map]; constructor.
  - apply H. now left.
  - apply IH. intros y Hy. apply H. now right.
Qed.

(** One call of [createPerformanceList] on an arrangement of the rows. *)
Lemma createPerformanceList_ranked
    (menuItems : list MenuItem.t) (rows items : list PerformanceRow.t)
    (metricKey : MetricKey) (sort : SortOrder)
    (rank : PerformanceRow.t -> Q) (better : Q -> Q -> Prop)
    (metric : MenuItem.t -> Q) :
  map PerformanceRow.item rows = menuItems ->
  Permutation items rows ->
  (forall a b, Js.lt (compareRows metricKey sort a b) 0 = true <-> rank b < rank a) ->
  (forall r, In r rows -> metricOf metricKey r == metric (PerformanceRow.item r)) ->
  (forall a b, In a rows -> In b rows -> rank b <= rank a ->
               better (metric (PerformanceRow.item a)) (metric (PerformanceRow.item b))) ->
  Permutation (fst (createPerformanceList items metricKey sort)) rows
  /\ ranked better metric menuItems (snd (createPerformanceList items metricKey sort)).
Proof.
  intros Hitems Hperm Hcmp Hmetric Hbetter.
  unfold createPerformanceList. cbn [fst snd].
  set (sorted := arraySort (compareRows metricKey sort) items).
  assert (Permutation sorted rows) as Hsorted.
  { apply Permutation_trans with items; [apply arraySort_perm | exact Hperm]. }
  split; [exact Hsorted|].
  pose proof (arraySort_sorted _ rank Hcmp items) as Hs. fold sorted in Hs.
  destruct (StronglySorted_firstn _ sorted 3 Hs) as [Htop Hcross].
  assert (forall r, In r (firstn 3 sorted) -> In r rows) as Hin_top.
  { intros r Hr. apply (Permutation_in _ Hsorted).
    rewrite <- (firstn_skipn 3 sorted). apply in_or_app. now left. }
  assert (forall r, In r (skipn 3 sorted) -> In r rows) as Hin_rest.
  { intros r Hr. apply (Permutation_in _ Hsorted).
    rewrite <- (firstn_skipn 3 sorted). apply in_or_app. now right. }
  exists (map PerformanceRow.item (firstn 3 sorted)),
         (map PerformanceRow.item (skipn 3 sorted)).
  refine (conj _ (conj _ (conj _ (conj _ _)))).
  - rewrite <- map_app, firstn_skipn, <- Hitems.
    apply Permutation_sym, Permutation_map, Hsorted.
  - rewrite length_map, length_firstn, <- Hitems, length_map.
    now rewrite (Permutation_length Hsorted).
  - apply Forall2_map_both. intros r Hr.
    cbn [PerformanceItem.id PerformanceItem.name PerformanceItem.imageUrl
         PerformanceItem.metric].
    refine (conj eq_refl (conj eq_refl (conj eq_refl _))).
    apply Hmetric, Hin_top, Hr.
  - apply (StronglySorted_map (fun a b => rank b <= rank a)); [|exact Htop].
    intros a b Ha Hb. apply Hbetter; auto.
  - intros a b Ha Hb. apply in_map_iff in Ha, Hb.
    destruct Ha as [ra [<- Hra]], Hb as [rb [<- Hrb]].
    apply Hbetter; auto.
Qed.

(** X18.  Each list of [detailedPerformanceStats] shows at most three
    menu items, the first three of an arrangement of all the menu items
    by its metric, every entry with the id, name, image and metric of
    its menu item: the best sellers by the units sold in the range, most
    first; the highest revenue by the revenue in the range; the most
    profitable by the actual margin, greatest first; the least
    profitable by the actual margin, smallest first.  No menu item left
    out of a list ranks strictly before one that is in it. *)
Theorem detailedPerformanceStats_ranked (st : HookState.t) (now : Instant) :
  let stats := Hook.detailedPerformanceStats st now in
  let menus := Hook.menuItems st in
  let range := Hook.salesHistoryForRange st now in
  ranked (fun x y => y <= x) (fun m => unitsSold m range) menus
         (DetailedPerformanceStats.bestSellersByUnit stats)
  /\ ranked (fun x y => y <= x) (fun m => revenueSold m range) menus
            (DetailedPerformanceStats.highestRevenueItems stats)
  /\ ranked (fun x y => y <= x) MenuItem.actualMargin menus
            (DetailedPerformanceStats.mostProfitableItems stats)
  /\ ranked (fun x y => x <= y) MenuItem.actualMargin menus
            (DetailedPerformanceStats.leastProfitableItems stats).
Proof.
  intros stats menus range.
  unfold stats, Hook.detailedPerformanceStats, detailedPerformanceStats.
  fold menus. fold range.
  set (salesStats := fold_left salesStatStep range _).
  set (rows := map (fun item => PerformanceRow.mk item
                                  (SalesStat.units (salesStatOf salesStats item))
                                  (SalesStat.revenue (salesStatOf salesStats item)))
                   menus).
  cbn [DetailedPerformanceStats.bestSellersByUnit
       DetailedPerformanceStats.highestRevenueItems
       DetailedPerformanceStats.mostProfitableItems
       DetailedPerformanceStats.leastProfitableItems].
  assert (map PerformanceRow.item rows = menus) as Hitems.
  { unfold rows. rewrite map_map. cbn [PerformanceRow.item]. apply map_id. }
  assert (forall r, In r rows ->
                    PerformanceRow.unitsSold r == unitsSold (PerformanceRow.item r) range
                    /\ PerformanceRow.revenue r
                       == revenueSold (PerformanceRow.item r) range) as Hrows.
  { intros r Hr. unfold rows in Hr. apply in_map_iff in Hr.
    destruct Hr as [m [<- Hm]].
    cbn [PerformanceRow.unitsSold PerformanceRow.revenue PerformanceRow.item].
    apply (performanceRows menus range m Hm). }
  assert (forall key a b,
             Js.lt (compareRows key desc a b) 0 = true
             <-> metricOf key b < metricOf key a) as Hdesc.
  { intros key a b. rewrite lt_iff. unfold compareRows.
    rewrite (Qlt_minus_iff (metricOf key b) (metricOf key a)).
    split; intros H.
    - apply Qlt_minus_iff in H. setoid_replace (metricOf key a + - metricOf key b)
        with (0 + - (metricOf key b - metricOf key a)) by ring. exact H.
    - apply Qlt_minus_iff.
      setoid_replace (0 + - (metricOf key b - metricOf key a))
        with (metricOf key a + - metricOf key b) by ring. exact H. }
  assert (forall key a b,
             Js.lt (compareRows key asc a b) 0 = true
             <-> - metricOf key b < - metricOf key a) as Hasc.
  { intros key a b. rewrite lt_iff. unfold compareRows.
    rewrite (Qlt_minus_iff (- metricOf key b) (- metricOf key a)).
    split; intros H.
    - apply Qlt_minus_iff in H.
      setoid_replace (- metricOf key a + - - metricOf key b)
        with (0 + - (metricOf key a - metricOf key b)) by ring. exact H.
    - apply Qlt_minus_iff.
      setoid_replace (0 + - (metricOf key a - metricOf key b))
        with (- metricOf key a + - - metricOf key b) by ring. exact H. }
  destruct (createPerformanceList_ranked menus rows rows unitsSoldKey desc
              (metricOf unitsSoldKey) (fun x y => y <= x)
              (fun m => unitsSold m range) Hitems (Permutation_refl _)
              (Hdesc unitsSoldKey)) as [P1 R1].
  { intros r Hr. apply (Hrows r Hr). }
  { intros a b Ha Hb H. cbn [metricOf] in H.
    destruct (Hrows a Ha) as [<- _], (Hrows b Hb) as [<- _]. exact H. }
  destruct (createPerformanceList_ranked menus rows _ revenueKey desc
              (metricOf revenueKey) (fun x y => y <= x)
              (fun m => revenueSold m range) Hitems P1
              (Hdesc revenueKey)) as [P2 R2].
  { intros r Hr. apply (Hrows r Hr). }
  { intros a b Ha Hb H. cbn [metricOf] in H.
    destruct (Hrows a Ha) as [_ <-], (Hrows b Hb) as [_ <-]. exact H. }
  destruct (createPerformanceList_ranked menus rows _ actualMarginKey desc
              (metricOf actualMarginKey) (fun x y => y <= x)
              MenuItem.actualMargin Hitems P2
              (Hdesc actualMarginKey)) as [P3 R3].
  { intros r Hr. reflexivity. }
  { intros a b Ha Hb H. exact H. }
  destruct (createPerformanceList_ranked menus rows _ actualMarginKey asc
              (fun r => - metricOf actualMarginKey r) (fun x y => x <= y)
              MenuItem.actualMargin Hitems P3
              (Hasc actualMarginKey)) as [_ R4].
  { intros r Hr. reflexivity. }
  { intros a b Ha Hb H. cbn [metricOf] in H. now apply Qopp_le_compat in H;
      rewrite !Qopp_involutive in H. }
  exact (conj R1 (conj R2 (conj R3 R4))).
Qed.

(** ** Updating a menu item and its recipe *)

Lemma component_eta (recipe : list RecipeComponent.t) :
  map (fun r => RecipeComponent.mk (RecipeComponent.ingredientId r)
                                   (RecipeComponent.quantity r)) recipe
  = recipe.
Proof.
  induction recipe as [|[k q] l IH]; cbn [map]; [reflexivity | now rewrite IH].
Qed.

(** The three requests of [updateMenuItem] with all fields and a recipe,
    when the store answers them all. *)
Lemma updateMenuItem_store (db : Snapshot.t) (hook : HookState.t)
    (item : MenuItemData.t) :
  let cleared := menuItemCleared db (MenuItemData.id item) (fieldsOf item) in
  let recipeData := recipeRowsOf (MenuItemData.id item) (MenuItemData.recipe item) in
  DatabaseService.updateMenuItem (MenuItemData.id item) (fieldsOf item)
    (Some (map (fun r => RecipeComponent.mk (RecipeComponent.ingredientId r)
                                            (RecipeComponent.quantity r))
               (MenuItemData.recipe item)))
    (World.mk db hook [])
  = match MenuItemData.recipe item with
    | [] => (Returned tt, World.mk cleared hook [])
    | _ :: _ =>
        if DatabaseService.acceptsRecipes cleared recipeData
        then (Returned tt,
              World.mk (DatabaseService.withRecipes cleared
                          (Snapshot.recipes cleared ++ recipeData))
                       hook [])
        else (Thrown, World.mk cleared hook [])
    end.
Proof.
  intros cleared recipeData. rewrite component_eta.
  unfold DatabaseService.updateMenuItem, fieldsOf.
  cbn [DatabaseService.hasUpdate MenuItemUpdate.name].
  unfold bind at 1. rewrite storeWrite_total.
  unfold bind at 1, ignoringError. rewrite storeWrite_total. cbn [snd].
  match goal with
  | |- context [World.mk ?d hook []] => change d with cleared
  end.
  destruct (MenuItemData.recipe item) as [|c l] eqn:E; [reflexivity|].
  cbn [List.length Nat.ltb Nat.leb]. unfold storeWrite.
  cbn [World.faults World.db World.hook]. unfold recipeData, recipeRowsOf.
  destruct (DatabaseService.acceptsRecipes cleared _); reflexivity.
Qed.

Lemma distinctPairs_recipe (id : Id) (recipe : list RecipeComponent.t) :
  DatabaseService.distinctPairs (recipeRowsOf id recipe) = true
  <-> NoDup (map RecipeComponent.ingredientId recipe).
Proof.
  induction recipe as [|c l IH]; cbn [recipeRowsOf map DatabaseService.distinctPairs].
  - split; [constructor | reflexivity].
  - fold (recipeRowsOf id l).
    rewrite andb_true_iff, negb_true_iff, IH, NoDup_cons_iff.
    assert (existsb (DatabaseService.samePair
                       (RecipeRow.mk id (RecipeComponent.ingredientId c)
                                     (RecipeComponent.quantity c)))
                    (recipeRowsOf id l) = true
            <-> In (RecipeComponent.ingredientId c)
                   (map RecipeComponent.ingredientId l)) as Hex.
    { rewrite existsb_exists, in_map_iff. unfold recipeRowsOf. split.
      - intros [r [Hr E]]. apply in_map_iff in Hr. destruct Hr as [c' [<- Hc']].
        unfold DatabaseService.samePair in E. cbn in E.
        apply andb_true_iff in E. destruct E as [_ E]. apply String.eqb_eq in E.
        exists c'. now split.
      - intros [c' [E Hc']].
        exists (RecipeRow.mk id (RecipeComponent.ingredientId c')
                             (RecipeComponent.quantity c')).
        split; [apply in_map_iff; now exists c'|].
        unfold DatabaseService.samePair. cbn.
        rewrite String.eqb_refl, E. apply String.eqb_refl. }
    split.
    + intros [Hno Hnd]. split; [|exact Hnd]. intros Hin.
      apply Hex in Hin. congruence.
    + intros [Hno Hnd]. split; [|exact Hnd].
      apply not_true_is_false. intros T. now apply Hno, Hex.
Qed.

(** After the deletion of its recipe rows, the store accepts the rows of
    the new recipe of a menu item exactly when the menu item and the
    ingredients exist and the recipe names no ingredient twice. *)
Lemma cleared_accepts_iff (db : Snapshot.t) (id : Id) (menuItem : MenuItemUpdate.t)
    (recipe : list RecipeComponent.t) :
  DatabaseService.acceptsRecipes (menuItemCleared db id menuItem)
                                 (recipeRowsOf id recipe) = true
  <-> (forall c, In c recipe ->
         (exists old, In old (Snapshot.menuItemsData db) /\ MenuItemData.id old = id)
         /\ found (RecipeComponent.ingredientId c) (Snapshot.allIngredients db))
      /\ NoDup (map RecipeComponent.ingredientId recipe).
Proof.
  unfold DatabaseService.acceptsRecipes.
  rewrite andb_true_iff, distinctPairs_recipe, forallb_forall.
  assert (forall c,
             existsb (fun m => String.eqb (MenuItemData.id m) id)
                     (Snapshot.menuItemsData (menuItemCleared db id menuItem))
             && existsb (DatabaseService.hasId (RecipeComponent.ingredientId c))
                        (Snapshot.allIngredients (menuItemCleared db id menuItem))
             && negb (existsb (DatabaseService.samePair
                                 (RecipeRow.mk id (RecipeComponent.ingredientId c)
                                               (RecipeComponent.quantity c)))
                              (Snapshot.recipes (menuItemCleared db id menuItem)))
             = true
             <-> (exists old, In old (Snapshot.menuItemsData db)
                              /\ MenuItemData.id old = id)
                 /\ found (RecipeComponent.ingredientId c) (Snapshot.allIngredients db))
    as Hrow.
  { intros c. unfold menuItemCleared.
    cbn [Snapshot.menuItemsData Snapshot.allIngredients Snapshot.recipes
         DatabaseService.withRecipes DatabaseService.withMenuItemsData].
    rewrite !andb_true_iff, negb_true_iff, <- found_hasId.
    rewrite (existsb_eqb_iff MenuItemData.id).
    assert (existsb (DatabaseService.samePair
                       (RecipeRow.mk id (RecipeComponent.ingredientId c)
                                     (RecipeComponent.quantity c)))
                    (filter (fun r => negb (String.eqb (RecipeRow.menuItemId r) id))
                            (Snapshot.recipes db)) = false) as Hfree.
    { apply not_true_is_false. intros T. apply existsb_exists in T.
      destruct T as [r [Hr E]]. apply filter_In in Hr. destruct Hr as [_ N].
      unfold DatabaseService.samePair in E. cbn in E.
      apply andb_true_iff in E. destruct E as [E _].
      rewrite String.eqb_sym, E in N. discriminate. }
    split.
    - intros [[[m [Hm E]] Hf] _]. split; [|exact Hf].
      apply in_map_iff in Hm. destruct Hm as [old [<- Hold]].
      exists old. split; [exact Hold|].
      destruct (String.eqb_spec (MenuItemData.id old) id) as [E'|N];
        [exact E' | exact E].
    - intros [[old [Hold E]] Hf]. refine (conj (conj _ Hf) Hfree).
      exists (DatabaseService.updateMenuItemRow menuItem old). split; [|exact E].
      apply in_map_iff. exists old. split; [|exact Hold].
      rewrite E, String.eqb_refl. reflexivity. }
  split.
  - intros [Hall Hnd]. split; [|exact Hnd]. intros c Hc. apply Hrow.
    apply (Hall (RecipeRow.mk id (RecipeComponent.ingredientId c)
                              (RecipeComponent.quantity c))).
    unfold recipeRowsOf. apply in_map_iff. now exists c.
  - intros [Hall Hnd]. split; [|exact Hnd]. intros r Hr.
    unfold recipeRowsOf in Hr. apply in_map_iff in Hr. destruct Hr as [c [<- Hc]].
    cbn [RecipeRow.menuItemId RecipeRow.ingredientId]. apply Hrow. now apply Hall.
Qed.

Lemma hook_menuItem_row (st : HookState.t) (m : MenuItem.t) :
  In m (Hook.menuItems st)
  <-> exists row, In row (Snapshot.menuItemsData (HookState.snapshot st))
                  /\ m = costMenuItem (ingredientsMapOf (Hook.ingredients st))
                                      (Snapshot.recipes (HookState.snapshot st)) row.
Proof.
  unfold Hook.menuItems, menuItems. rewrite in_map_iff.
  split; intros [row [H1 H2]]; exists row; split; auto.
Qed.

Lemma recipeRows_back (id : Id) (recipe : list RecipeComponent.t)
    (others : list RecipeRow.t) :
  (forall r, In r others -> RecipeRow.menuItemId r <> id) ->
  map (fun r => RecipeComponent.mk (RecipeRow.ingredientId r) (RecipeRow.quantity r))
      (filter (fun r => String.eqb (RecipeRow.menuItemId r) id)
              (others ++ recipeRowsOf id recipe))
  = recipe.
Proof.
  intros Hothers. rewrite filter_app, filter_none.
  - cbn [app]. rewrite filter_all.
    + unfold recipeRowsOf. rewrite map_map.
      cbn [RecipeRow.ingredientId RecipeRow.quantity]. apply component_eta.
    + intros r Hr. unfold recipeRowsOf in Hr. apply in_map_iff in Hr.
      destruct Hr as [c [<- _]]. apply String.eqb_refl.
  - intros r Hr. apply String.eqb_neq. now apply Hothers.
Qed.

(** X19.  [updateMenuItem] with a recipe that names existing ingredients,
    none twice, for a menu item of the store, when no request fails: it
    returns with the hook in step, and the menu item the hook then shows
    has the name, image, price and target margin given and exactly the
    recipe given, its cost of goods being the cost of that recipe; the
    recipe rows of the other menu items are untouched. *)
Theorem updateMenuItem_round_trip (w : World.t) (item : MenuItemData.t)
    (available : storeAvailable w)
    (known_item :
       exists old, In old (Snapshot.menuItemsData (World.db w))
                   /\ MenuItemData.id old = MenuItemData.id item)
    (known_ingredients :
       forall c, In c (MenuItemData.recipe item) ->
                 found (RecipeComponent.ingredientId c)
                       (Snapshot.allIngredients (World.db w)))
    (distinct : NoDup (map RecipeComponent.ingredientId (MenuItemData.recipe item))) :
  exists w',
    run (fun st => Hook.updateMenuItem st item) w = (Returned tt, w')
    /\ inSync w'
    /\ (exists m, In m (Hook.menuItems (World.hook w'))
                  /\ MenuItem.id m = MenuItemData.id item)
    /\ (forall m, In m (Hook.menuItems (World.hook w')) ->
                  MenuItem.id m = MenuItemData.id item ->
                  MenuItem.name m = MenuItemData.name item
                  /\ MenuItem.imageUrl m = MenuItemData.imageUrl item
                  /\ MenuItem.sellingPrice m = MenuItemData.sellingPrice item
                  /\ MenuItem.targetMargin m = MenuItemData.targetMargin item
                  /\ MenuItem.recipe m = MenuItemData.recipe item
                  /\ MenuItem.cogs m
                     == Qsum (map (componentCost (Hook.ingredients (World.hook w')))
                                  (MenuItemData.recipe item)))
    /\ (forall r, RecipeRow.menuItemId r <> MenuItemData.id item ->
                  (In r (Snapshot.recipes (World.db w'))
                   <-> In r (Snapshot.recipes (World.db w))))
    /\ Snapshot.allIngredients (World.db w') = Snapshot.allIngredients (World.db w).
Proof.
  destruct w as [db hook faults]. unfold storeAvailable in available.
  cbn [World.faults World.db] in *. subst faults.
  unfold run, Hook.updateMenuItem. cbn [World.hook].
  fold (fieldsOf item). unfold bind. rewrite updateMenuItem_store.
  set (id := MenuItemData.id item) in *.
  set (cleared := menuItemCleared db id (fieldsOf item)).
  assert (DatabaseService.acceptsRecipes cleared
            (recipeRowsOf id (MenuItemData.recipe item)) = true) as Hacc.
  { apply cleared_accepts_iff. split; [|exact distinct].
    intros c Hc. split; [exact known_item | now apply known_ingredients]. }
  set (final := DatabaseService.withRecipes cleared
                  (Snapshot.recipes cleared
                   ++ recipeRowsOf id (MenuItemData.recipe item))).
  assert (match MenuItemData.recipe item with
          | [] => (Returned tt, World.mk cleared hook [])
          | _ :: _ =>
              if DatabaseService.acceptsRecipes cleared
                   (recipeRowsOf id (MenuItemData.recipe item))
              then (Returned tt, World.mk final hook [])
              else (Thrown, World.mk cleared hook [])
          end = (Returned tt, World.mk final hook [])) as ->.
  { rewrite Hacc. unfold final.
    destruct (MenuItemData.recipe item); [|reflexivity].
    cbn [recipeRowsOf map]. now rewrite app_nil_r. }
  destruct (loadAllData_available (HookState.currentOutletId hook) final hook)
    as [hook' [Hload Hsnap]].
  rewrite Hload. eexists. split; [reflexivity|].
  unfold inSync. cbn [World.db World.hook].
  assert (Snapshot.recipes final
          = filter (fun r => negb (String.eqb (RecipeRow.menuItemId r) id))
                   (Snapshot.recipes db)
            ++ recipeRowsOf id (MenuItemData.recipe item)) as Hrecipes
    by reflexivity.
  assert (Snapshot.menuItemsData final
          = map (fun row => if String.eqb (MenuItemData.id row) id
                            then DatabaseService.updateMenuItemRow (fieldsOf item) row
                            else row)
                (Snapshot.menuItemsData db)) as Hdata by reflexivity.
  refine (conj Hsnap (conj _ (conj _ (conj _ eq_refl)))).
  - destruct known_item as [old [Hold E]].
    exists (costMenuItem (ingredientsMapOf (Hook.ingredients hook'))
                         (Snapshot.recipes (HookState.snapshot hook'))
                         (DatabaseService.updateMenuItemRow (fieldsOf item) old)).
    split; [|exact E]. apply hook_menuItem_row. eexists. split; [|reflexivity].
    rewrite Hsnap, Hdata. apply in_map_iff. exists old. split; [|exact Hold].
    now rewrite E, String.eqb_refl.
  - intros m Hm Hid. apply hook_menuItem_row in Hm. destruct Hm as [row [Hrow ->]].
    rewrite Hsnap, Hdata in Hrow. apply in_map_iff in Hrow.
    destruct Hrow as [old [<- Hold]].
    cbn [costMenuItem MenuItem.id] in Hid.
    destruct (String.eqb_spec (MenuItemData.id old) id) as [E|N];
      [|contradiction].
    cbn [costMenuItem MenuItem.name MenuItem.imageUrl MenuItem.sellingPrice
         MenuItem.targetMargin MenuItem.recipe MenuItem.cogs
         DatabaseService.updateMenuItemRow fieldsOf MenuItemUpdate.name
         MenuItemUpdate.imageUrl MenuItemUpdate.sellingPrice
         MenuItemUpdate.targetMargin MenuItemData.id MenuItemData.name
         MenuItemData.imageUrl MenuItemData.sellingPrice MenuItemData.targetMargin].
    rewrite Hsnap, Hrecipes, E.
    rewrite recipeRows_back
      by (intros r Hr; apply filter_In in Hr; destruct Hr as [_ Hr];
          apply negb_true_iff, String.eqb_neq in Hr; exact Hr).
    refine (conj eq_refl (conj eq_refl (conj eq_refl (conj eq_refl (conj eq_refl _))))).
    apply cogs_fold.
  - intros r Hr. rewrite Hrecipes, in_app_iff, filter_In, negb_true_iff. split.
    + intros [[H _]|H]; [exact H|].
      unfold recipeRowsOf in H. apply in_map_iff in H. destruct H as [c [<- _]].
      now contradiction Hr.
    + intros H. left. split; [exact H | now apply String.eqb_neq].
Qed.

Lemma updateMenuItem_round_trip_witness :
  let flour := Ingredient.mk "i1" "Flour" "kg" 20 None 5 2 "outlet-1" in
  let sugar := Ingredient.mk "i2" "Sugar" "kg" 10 None 1 2 "outlet-1" in
  let db := Snapshot.mk [Outlet.mk "outlet-1" "Main"] [flour; sugar]
              [MenuItemData.mk "m1" "Cake" "" 400 50 []]
              [RecipeRow.mk "m1" "i1" 3] [] [] [] [] None in
  let w := World.mk db (HookState.mk db "outlet-1" 30) [] in
  let item := MenuItemData.mk "m1" "Sponge cake" "" 500 60
                [RecipeComponent.mk "i2" 2; RecipeComponent.mk "i1" 1] in
  exists w' m,
    run (fun st => Hook.updateMenuItem st item) w = (Returned tt, w')
    /\ In m (Hook.menuItems (World.hook w'))
    /\ MenuItem.name m = "Sponge cake"%string
    /\ MenuItem.recipe m = [RecipeComponent.mk "i2" 2; RecipeComponent.mk "i1" 1]
    /\ MenuItem.cogs m == 40.
Proof.
  intros flour sugar db w item.
  destruct (updateMenuItem_round_trip w item eq_refl)
    as [w' [Hrun [_ [[m [Hm Hid]] [Hfields _]]]]].
  - exists (MenuItemData.mk "m1" "Cake" "" 400 50 []). split; [now left | reflexivity].
  - intros c [<-|[<-|[]]]; unfold found; simpl; discriminate.
  - simpl. repeat constructor; simpl; intuition discriminate.
  - destruct (Hfields m Hm Hid) as [Hname [_ [_ [_ [Hrecipe Hcogs]]]]].
    exists w', m. refine (conj Hrun (conj Hm (conj Hname (conj Hrecipe _)))).
    rewrite Hcogs. vm_compute in Hrun. injection Hrun as <-.
    vm_compute. reflexivity.
Defined.

(** X20.  [updateMenuItem] with a recipe that the store rejects, because
    it names an ingredient twice or names an ingredient that does not
    exist, when the store answers every request: it throws after the row
    was updated and the old recipe rows were deleted.  The state of the
    hook is what it was; in the store the menu item is left without any
    recipe row, so that the next reload shows it with the new name and
    price, an empty recipe and a cost of goods of 0. *)
Theorem updateMenuItem_rejected_recipe (w : World.t) (item : MenuItemData.t)
    (available : storeAvailable w)
    (rejected :
       ~ NoDup (map RecipeComponent.ingredientId (MenuItemData.recipe item))
       \/ exists c, In c (MenuItemData.recipe item)
                    /\ ~ found (RecipeComponent.ingredientId c)
                               (Snapshot.allIngredients (World.db w))) :
  exists w',
    run (fun st => Hook.updateMenuItem st item) w = (Thrown, w')
    /\ World.hook w' = World.hook w
    /\ (forall r, In r (Snapshot.recipes (World.db w'))
                  <-> In r (Snapshot.recipes (World.db w))
                      /\ RecipeRow.menuItemId r <> MenuItemData.id item)
    /\ (forall st', HookState.snapshot st' = World.db w' ->
        forall m, In m (Hook.menuItems st') ->
                  MenuItem.id m = MenuItemData.id item ->
                  MenuItem.name m = MenuItemData.name item
                  /\ MenuItem.sellingPrice m = MenuItemData.sellingPrice item
                  /\ MenuItem.recipe m = []
                  /\ MenuItem.cogs m = 0).
Proof.
  destruct w as [db hook faults]. unfold storeAvailable in available.
  cbn [World.faults World.db] in *. subst faults.
  unfold run, Hook.updateMenuItem. cbn [World.hook].
  fold (fieldsOf item). unfold bind. rewrite updateMenuItem_store.
  set (id := MenuItemData.id item) in *.
  set (cleared := menuItemCleared db id (fieldsOf item)).
  assert (DatabaseService.acceptsRecipes cleared
            (recipeRowsOf id (MenuItemData.recipe item)) = false) as Hrej.
  { apply not_true_is_false. intros T. apply cleared_accepts_iff in T.
    destruct T as [Hall Hnd]. destruct rejected as [N|[c [Hc N]]].
    - now apply N.
    - apply N. now apply (Hall c Hc). }
  rewrite Hrej.
  destruct (MenuItemData.recipe item) as [|c0 l] eqn:E.
  { exfalso. destruct rejected as [N|[c [[] _]]]. apply N. constructor. }
  eexists. split; [reflexivity|]. cbn [World.hook World.db].
  assert (Snapshot.recipes cleared
          = filter (fun r => negb (String.eqb (RecipeRow.menuItemId r) id))
                   (Snapshot.recipes db)) as Hrecipes by reflexivity.
  refine (conj eq_refl (conj _ _)).
  - intros r. rewrite Hrecipes. apply (filter_out_iff RecipeRow.menuItemId).
  - intros st' Hsnap m Hm Hid. apply hook_menuItem_row in Hm.
    destruct Hm as [row [Hrow ->]]. rewrite Hsnap in Hrow.
    change (Snapshot.menuItemsData cleared)
      with (map (fun row => if String.eqb (MenuItemData.id row) id
                            then DatabaseService.updateMenuItemRow (fieldsOf item) row
                            else row)
                (Snapshot.menuItemsData db)) in Hrow.
    apply in_map_iff in Hrow. destruct Hrow as [old [<- Hold]].
    cbn [costMenuItem MenuItem.id] in Hid.
    destruct (String.eqb_spec (MenuItemData.id old) id) as [E'|N];
      [|contradiction].
    cbn [costMenuItem MenuItem.name MenuItem.sellingPrice MenuItem.recipe
         MenuItem.cogs DatabaseService.updateMenuItemRow fieldsOf
         MenuItemUpdate.name MenuItemUpdate.sellingPrice MenuItemData.id
         MenuItemData.name MenuItemData.sellingPrice].
    rewrite Hsnap, Hrecipes, E'.
    rewrite filter_none.
    + cbn [map fold_left]. now repeat split.
    + intros r Hr. apply filter_In in Hr. destruct Hr as [_ Hr].
      apply negb_true_iff in Hr. exact Hr.
Qed.

Lemma updateMenuItem_rejected_recipe_witness :
  let flour := Ingredient.mk "i1" "Flour" "kg" 20 None 5 2 "outlet-1" in
  let db := Snapshot.mk [Outlet.mk "outlet-1" "Main"] [flour]
              [MenuItemData.mk "m1" "Cake" "" 400 50 []]
              [RecipeRow.mk "m1" "i1" 3] [] [] [] [] None in
  let w := World.mk db (HookState.mk db "outlet-1" 30) [] in
  let item := MenuItemData.mk "m1" "Cake" "" 400 50
                [RecipeComponent.mk "i1" 2; RecipeComponent.mk "i1" 1] in
  exists w',
    run (fun st => Hook.updateMenuItem st item) w = (Thrown, w')
    /\ Snapshot.recipes (World.db w') = [].
Proof.
  intros flour db w item.
  destruct (updateMenuItem_rejected_recipe w item eq_refl) as [w' [Hrun [_ [Hrows _]]]].
  - left. simpl. intros H. inversion H as [|? ? Hnot _]; subst.
    apply Hnot. now left.
  - exists w'. split; [exact Hrun|].
    destruct (Snapshot.recipes (World.db w')) as [|r l]; [reflexivity|].
    exfalso. destruct (Hrows r) as [Hr _].
    destruct (Hr (or_introl eq_refl)) as [[<-|[]] N]. now apply N.
Defined.

(** ** The campaign figures *)

Lemma involvedItemIds_outlet (campaign : ActiveCampaign.t)
    (ingredients1 ingredients2 : list Ingredient.t)
    (menuItemsData : list MenuItemData.t) (recipes : list RecipeRow.t) :
  involvedItemIds campaign (menuItems ingredients1 menuItemsData recipes)
  = involvedItemIds campaign (menuItems ingredients2 menuItemsData recipes).
Proof.
  unfold involvedItemIds, menuItems.
  induction menuItemsData as [|d l IH]; cbn [map filter]; [reflexivity|].
  cbn [costMenuItem MenuItem.name].
  destruct (JsMap.has String.eqb _ (MenuItemData.name d)); cbn [map];
    [f_equal|]; exact IH.
Qed.

(** X21.  The campaign figures are those of all outlets together: they
    are computed from the sales records of every outlet and from the ids
    and names of the menu items, so that two states of the hook that
    hold the same data give the same figures, whatever outlet and date
    range each has selected. *)
Theorem campaignPerformance_all_outlets (st1 st2 : HookState.t) (now : Instant)
    (same_data : HookState.snapshot st1 = HookState.snapshot st2) :
  Hook.campaignPerformance st1 now = Hook.campaignPerformance st2 now.
Proof.
  unfold Hook.campaignPerformance, Hook.menuItems. rewrite same_data.
  destruct (Snapshot.activeCampaign (HookState.snapshot st2)) as [campaign|];
    [|reflexivity].
  unfold campaignPerformance. f_equal. f_equal.
  unfold percentageChange, avgDailyUnitsBefore, avgDailyUnitsDuring.
  now rewrite (involvedItemIds_outlet campaign (Hook.ingredients st1)
                 (Hook.ingredients st2)).
Qed.

Lemma campaignPerformance_all_outlets_witness :
  let campaign := ActiveCampaign.mk "Bundle" "" "" "" (InvolvedItems.mk "Cake" "Bun")
                    (19990 * msPerDay) in
  let db := Snapshot.mk [Outlet.mk "outlet-1" "Main"; Outlet.mk "outlet-2" "Branch"]
              [Ingredient.mk "i1" "Flour" "kg" 20 None 5 2 "outlet-1"]
              [MenuItemData.mk "m1" "Cake" "" 400 50 []] [RecipeRow.mk "m1" "i1" 3]
              [SalesHistoryRecord.mk 19995 "m1" 20 8000 "outlet-1";
               SalesHistoryRecord.mk 19985 "m1" 5 2000 "outlet-2";
               SalesHistoryRecord.mk 19986 "m1" 5 2000 "outlet-1"]
              [] [] [] (Some campaign) in
  Hook.campaignPerformance (HookState.mk db "outlet-1" 30) (20000 * msPerDay)
  = Hook.campaignPerformance (HookState.mk db "outlet-2" 7) (20000 * msPerDay).
Proof.
  intros campaign db.
  apply (campaignPerformance_all_outlets (HookState.mk db "outlet-1" 30)
           (HookState.mk db "outlet-2" 7)).
  reflexivity.
Defined.




(** ** The quotients and lookups of the metric computations *)
















